(** * EchoDownloaderBot: the conversation handlers of [main.py]

    A shallow embedding of the Telegram bot's handlers ([start],
    [ask_format], [handle_format_choice], [cancel]), of [download_media]
    and of the [ConversationHandler] table built in [main], followed by the
    properties of the download-and-delivery state machine.

    Python [str] values are Rocq strings holding the UTF-8 bytes of the
    text; [context.user_data] is a [gmap string string]; the file system is
    the [gset] of the paths that exist. A handler is a function from what
    it sees (user data, file system, calls issued so far) to an outcome
    and what it leaves.

    Failures are followed through the [try] statement of
    [handle_format_choice]: every call inside the [try] block may raise or
    be cancelled, the external tool may raise, the reply sent by the
    [except] clause may itself raise or be cancelled, and [shutil.rmtree]
    may fail. The calls made outside that statement (the replies of
    [start], [ask_format] and [cancel], the answer to the callback and the
    first edits of the status message) are taken to complete. *)

From Stdlib Require Import ZArith Ascii String List Bool.
From stdpp Require Import base gmap strings list pretty.

Local Open Scope string_scope.
Local Open Scope Z_scope.

(** ** Python string operations *)

Module PyStr.

(** The one-byte members of Python's whitespace set: U+0009..U+000D,
    U+001C..U+001F and U+0020. *)
Definition is_ascii_space (c : ascii) : bool :=
  let n := nat_of_ascii c in
  ((9 <=? n)%nat && (n <=? 13)%nat) || ((28 <=? n)%nat && (n <=? 32)%nat).

(** U+0085 and U+00A0, encoded C2 85 and C2 A0. *)
Definition is_space2 (a b : ascii) : bool :=
  (nat_of_ascii a =? 194)%nat &&
  ((nat_of_ascii b =? 133)%nat || (nat_of_ascii b =? 160)%nat).

(** U+1680, U+2000..U+200A, U+2028, U+2029, U+202F, U+205F and U+3000. *)
Definition is_space3 (a b c : ascii) : bool :=
  let x := nat_of_ascii a in
  let y := nat_of_ascii b in
  let z := nat_of_ascii c in
  ((x =? 225)%nat && (y =? 154)%nat && (z =? 128)%nat)
  || ((x =? 226)%nat && (y =? 128)%nat &&
      (((128 <=? z)%nat && (z <=? 138)%nat)
       || (z =? 168)%nat || (z =? 169)%nat || (z =? 175)%nat))
  || ((x =? 226)%nat && (y =? 129)%nat && (z =? 159)%nat)
  || ((x =? 227)%nat && (y =? 128)%nat && (z =? 128)%nat).

(** [str.lstrip()]: drop the leading whitespace characters. *)
Fixpoint lstrip (s : string) : string :=
  match s with
  | EmptyString => s
  | String a s1 =>
      if is_ascii_space a then lstrip s1
      else
        match s1 with
        | EmptyString => s
        | String b s2 =>
            if is_space2 a b then lstrip s2
            else
              match s2 with
              | EmptyString => s
              | String c s3 => if is_space3 a b c then lstrip s3 else s
              end
        end
  end.

(** A string made of whitespace only. *)
Definition isblank (s : string) : bool :=
  match lstrip s with EmptyString => true | _ => false end.

(** [str.rstrip()]: cut where the rest of the string is whitespace. *)
Fixpoint rstrip (s : string) : string :=
  match s with
  | EmptyString => EmptyString
  | String a s1 => if isblank s then EmptyString else String a (rstrip s1)
  end.

(** [str.strip()] *)
Definition strip (s : string) : string := rstrip (lstrip s).

Definition ascii_lower (c : ascii) : ascii :=
  let n := nat_of_ascii c in
  if ((65 <=? n)%nat && (n <=? 90)%nat) then ascii_of_nat (n + 32) else c.

(** [str.lower()] as far as the prefix test of [ask_format] and the
    comparison of command names can see it: the ASCII letters are lowered
    and every other byte is kept. Lowering a code point outside ASCII
    never produces one of the characters of "http://", "https://", "start",
    "cancel" or "help". *)
Fixpoint lower (s : string) : string :=
  match s with
  | EmptyString => EmptyString
  | String c s' => String (ascii_lower c) (lower s')
  end.

(** [s.startswith(p)] *)
Definition startswith (s p : string) : bool := String.prefix p s.

(** [s.startswith((p1, p2, ...))] *)
Definition startswith_any (s : string) (ps : list string) : bool :=
  existsb (startswith s) ps.

(** [s.endswith(p)] *)
Definition endswith (s p : string) : bool :=
  let n := String.length s in
  let k := String.length p in
  (k <=? n)%nat && String.eqb (substring (n - k) k s) p.

(** [s[:i]] and [s[i:]] for [0 <= i]. *)
Fixpoint slice_to (i : nat) (s : string) : string :=
  match i, s with
  | S j, String c s' => String c (slice_to j s')
  | _, _ => EmptyString
  end.

Fixpoint slice_from (i : nat) (s : string) : string :=
  match i, s with
  | S j, String _ s' => slice_from j s'
  | _, _ => s
  end.

(** [s.rfind(c)] for a one-character [c]: the last index, or -1. *)
Fixpoint rfind (c : ascii) (s : string) : Z :=
  match s with
  | EmptyString => -1
  | String a s' =>
      let r := rfind c s' in
      if 0 <=? r then r + 1 else if Ascii.eqb a c then 0 else -1
  end.

Definition contains (c : ascii) (s : string) : bool := 0 <=? rfind c s.

Definition dquote : ascii := ascii_of_nat 34.

Definition backslash : ascii := ascii_of_nat 92.

Definition hex_digit (n : nat) : ascii :=
  ascii_of_nat (if (n <? 10)%nat then 48 + n else 87 + n).

(** The body of [repr(s)] between the quotes: the backslash and the quote
    in use are escaped, tab, newline and carriage return are written \t, \n
    and \r, and the other control characters \xhh. *)
Fixpoint escape (quote : ascii) (s : string) : string :=
  match s with
  | EmptyString => EmptyString
  | String c s' =>
      let n := nat_of_ascii c in
      let rest := escape quote s' in
      if Ascii.eqb c backslash || Ascii.eqb c quote
      then String backslash (String c rest)
      else if (n =? 9)%nat then String backslash (String "t"%char rest)
      else if (n =? 10)%nat then String backslash (String "n"%char rest)
      else if (n =? 13)%nat then String backslash (String "r"%char rest)
      else if (n <? 32)%nat || (n =? 127)%nat
      then String backslash
             (String "x"%char
                (String (hex_digit (n / 16)) (String (hex_digit (n mod 16)) rest)))
      else String c rest
  end.

(** [repr(s)] for a [str] of ASCII characters: single quotes, or double
    quotes when [s] holds a single quote and no double quote. The bytes of
    the characters outside ASCII are kept, which is what Python does for
    those that are printable. *)
Definition repr_ascii (s : string) : string :=
  let quote :=
    if contains "'"%char s && negb (contains dquote s) then dquote else "'"%char in
  String quote (escape quote s) +:+ String quote EmptyString.

(** [str(n)] for an integer. *)
Definition str_of_int (n : Z) : string := pretty n.

(** [range(start, stop, step)] as a list; empty when [step] is 0 (where
    Python raises). *)
Definition range (start stop step : Z) : list Z :=
  let len :=
    if 0 <? step then (stop - start + step - 1) / step
    else if step <? 0 then (start - stop - step - 1) / (- step)
    else 0 in
  map (fun i => start + Z.of_nat i * step) (seq 0 (Z.to_nat len)).

End PyStr.

(** ** [os.path] (posixpath) *)

Module OsPath.
Import PyStr.

(** [os.path.join(a, b)] *)
Definition join (a b : string) : string :=
  if startswith b "/" then b
  else if String.eqb a "" || endswith a "/" then a +:+ b
  else a +:+ "/" +:+ b.

(** The loop of [genericpath._splitext] that skips the leading dots of
    the file name: is there a character other than the dot before the
    last dot? *)
Fixpoint has_stem (name : string) : bool :=
  match name with
  | EmptyString => false
  | String c rest => if Ascii.eqb c "." then has_stem rest else true
  end.

(** [os.path.splitext(p)] *)
Definition splitext (p : string) : string * string :=
  let sepIndex := rfind "/" p in
  let dotIndex := rfind "." p in
  if sepIndex <? dotIndex then
    let filenameIndex := sepIndex + 1 in
    let name := slice_to (Z.to_nat (dotIndex - filenameIndex))
                         (slice_from (Z.to_nat filenameIndex) p) in
    if has_stem name
    then (slice_to (Z.to_nat dotIndex) p, slice_from (Z.to_nat dotIndex) p)
    else (p, "")
  else (p, "").

(** [os.path.basename(p)] *)
Definition basename (p : string) : string :=
  slice_from (Z.to_nat (rfind "/" p + 1)) p.

End OsPath.

(** ** Exceptions, outcomes and the world outside the bot *)

(** An instance of Python's [Exception]: its class and [str(e)]. *)
Record exn := Exn { exn_class : string; exn_text : string }.

(** How a call ends. [Cancelled] stands for [asyncio.CancelledError] and
    the other exceptions that derive from [BaseException] only, which an
    [except Exception] clause lets through. *)
Inductive outcome (A : Type) : Type :=
| Returns (a : A)
| Raises (e : exn)
| Cancelled.

Arguments Returns {A} a.
Arguments Raises {A} e.
Arguments Cancelled {A}.

(** [InlineKeyboardButton(label, callback_data=...)]; an
    [InlineKeyboardMarkup] is a list of rows of buttons. *)
Record button := InlineKeyboardButton { label : string; callback_data : string }.

(** The calls the handlers make on the outside world, in the order they
    are issued. *)
Inductive action : Type :=
| ReplyText (text : string) (reply_markup : option (list (list button)))
| Answer
| EditMessageText (text : string)
| EditText (text : string)
| Sleep (seconds : Z)
| Mkdtemp (dir : string)
| RunInExecutor (url dir fmt : string)
| Open (path : string)
| ReplyVideo (path : string)
| ReplyAudio (path : string)
| LogException (msg : string) (e : exn)
| Rmtree (dir : string).

(** ** [download_media] *)

(** One entry of ['postprocessors']. *)
Record postprocessor := {
  key : string;
  preferredcodec : string;
  preferredquality : string }.

(** The [ydl_opts] dictionary. ['postprocessors'] is a key that only the
    audio configuration has. *)
Record options := {
  format : string;
  outtmpl : string;
  noplaylist : bool;
  continuedl : bool;
  retries : Z;
  fragment_retries : Z;
  socket_timeout : Z;
  http_chunk_size : Z;
  external_downloader : string;
  external_downloader_args : list string;
  quiet : bool;
  postprocessors : option (list postprocessor) }.

(** The dictionary [download_media] builds before it calls the tool. *)
Definition ydl_opts (download_dir fmt : string) : options :=
  {| format := if String.eqb fmt "audio" then "bestaudio/best"
               else "bestvideo+bestaudio/best";
     outtmpl := OsPath.join download_dir "%(title)s.%(ext)s";
     noplaylist := true;
     continuedl := true;
     retries := 10;
     fragment_retries := 10;
     socket_timeout := 10;
     http_chunk_size := 10485760;
     external_downloader := "aria2c";
     external_downloader_args := ["-x"; "16"; "-k"; "1M"];
     quiet := true;
     postprocessors :=
       if String.eqb fmt "audio"
       then Some [ {| key := "FFmpegExtractAudio";
                      preferredcodec := "mp3";
                      preferredquality := "192" |} ]
       else None |}.

(** What [extract_info] hands back: the fields the output template uses. *)
Record info_dict := { title : string; ext : string }.

(** The external tool [yt_dlp.YoutubeDL]. [extract_info(url, download=True)]
    works on the file system and returns the metadata or raises;
    [prepare_filename] names the file of an extracted item. *)
Record YoutubeDL := {
  extract_info : options -> string -> gset string -> outcome info_dict * gset string;
  prepare_filename : options -> info_dict -> string }.

Definition download_media (ydl : YoutubeDL) (url download_dir fmt : string)
    (fs : gset string) : outcome string * gset string :=
  let opts := ydl_opts download_dir fmt in
  match extract_info ydl opts url fs with
  | (Returns info, fs') =>
      let filename := prepare_filename ydl opts info in
      let filename :=
        if String.eqb fmt "audio"
        then fst (OsPath.splitext filename) +:+ ".mp3"
        else filename in
      (Returns filename, fs')
  | (Raises e, fs') => (Raises e, fs')
  | (Cancelled, fs') => (Cancelled, fs')
  end.

(** ** The handlers' effects *)

(** The world a handler runs in. [fault] decides, from the calls issued so
    far, how a call made inside the [try] statement ends. [repr] is Python's
    [repr] of a [str], whose treatment of the characters outside ASCII
    follows the Unicode database of the interpreter. *)
Record world := {
  ydl : YoutubeDL;
  mkdtemp_name : gset string -> string;
  fault : list action -> action -> outcome unit;
  rmtree_fails : bool;
  repr : string -> string }.

(** What a handler reads and writes: [context.user_data], the file system,
    and the calls issued so far. *)
Record env := {
  user_data : gmap string string;
  files : gset string;
  trace : list action }.

Definition M (A : Type) : Type := env -> outcome A * env.

#[global] Instance M_ret : MRet M := fun A a s => (Returns a, s).

#[global] Instance M_bind : MBind M := fun A B f m s =>
  match m s with
  | (Returns a, s') => f a s'
  | (Raises e, s') => (Raises e, s')
  | (Cancelled, s') => (Cancelled, s')
  end.

Definition raise {A} (e : exn) : M A := fun s => (Raises e, s).

Definition record (a : action) (s : env) : env :=
  {| user_data := user_data s; files := files s; trace := trace s ++ [a] |}.

(** A call outside the [try] statement, and [logger.exception] inside it:
    an output of the machine, which completes. *)
Definition emit (a : action) : M unit := fun s => (Returns tt, record a s).

(** A call inside the [try] statement: it is issued, and the world
    decides whether it returns, raises or is cancelled. *)
Definition guarded (w : world) (a : action) : M unit :=
  fun s => (fault w (trace s) a, record a s).

(** [context.user_data.get(k)] *)
Definition user_data_get (k : string) : M (option string) :=
  fun s => (Returns (user_data s !! k), s).

(** [context.user_data[k] = v] *)
Definition user_data_set (k v : string) : M unit :=
  fun s => (Returns tt,
            {| user_data := <[k := v]> (user_data s);
               files := files s; trace := trace s |}).

(** [p] is [d] or lies below it. *)
Definition inside (d p : string) : bool :=
  String.eqb p d || PyStr.startswith p (d +:+ "/").

(** [tempfile.mkdtemp()] *)
Definition mkdtemp (w : world) : M string := fun s =>
  let d := mkdtemp_name w (files s) in
  (Returns d,
   {| user_data := user_data s; files := {[ d ]} ∪ files s;
      trace := trace s ++ [Mkdtemp d] |}).

(** [shutil.rmtree(d, ignore_errors=True)]: removes the tree, or leaves it
    when the removal fails; it never raises. *)
Definition rmtree (w : world) (d : string) : M unit := fun s =>
  (Returns tt,
   {| user_data := user_data s;
      files := if rmtree_fails w then files s
               else filter (fun p => inside d p = false) (files s);
      trace := trace s ++ [Rmtree d] |}).

(** [await loop.run_in_executor(None, download_media, url, d, fmt)] *)
Definition run_in_executor (w : world) (url d fmt : string) : M string := fun s =>
  let '(r, fs') := download_media (ydl w) url d fmt (files s) in
  (r, {| user_data := user_data s; files := fs';
         trace := trace s ++ [RunInExecutor url d fmt] |}).

(** The error of [open] on a path that does not exist. *)
Definition file_not_found (w : world) (path : string) : exn :=
  Exn "FileNotFoundError"
      ("[Errno 2] No such file or directory: " +:+ repr w path).

(** [open(path, 'rb')]. On a path that is on disk the world decides: the
    call returns for a file that can be read and raises for a directory
    ([IsADirectoryError]) or a file that may not be read
    ([PermissionError]). On a path that is not on disk the call never
    returns: it raises [FileNotFoundError], or the error the world names
    in its place ([NotADirectoryError] when a component of the path is a
    file, [ValueError] for a NUL character in the path). *)
Definition open (w : world) (path : string) : M unit := fun s =>
  if bool_decide (path ∈ files s)
  then guarded w (Open path) s
  else (Raises match fault w (trace s) (Open path) with
               | Raises e => e
               | _ => file_not_found w path
               end,
        record (Open path) s).

(** [for x in l: body(x)] *)
Fixpoint for_each {A} (l : list A) (body : A -> M unit) : M unit :=
  match l with
  | [] => mret tt
  | x :: l' => body x ;; for_each l' body
  end.

(** [try: body  except Exception as e: handler(e)  finally: final] *)
Definition try_except_finally {A} (body : M A) (handler : exn -> M A)
    (final : M unit) : M A := fun s =>
  let '(r, s1) := body s in
  let '(r', s2) := match r with
                   | Raises e => handler e s1
                   | _ => (r, s1)
                   end in
  match final s2 with
  | (Returns _, s3) => (r', s3)
  | (Raises e, s3) => (Raises e, s3)
  | (Cancelled, s3) => (Cancelled, s3)
  end.

(** ** The conversation *)

(** [ASK_LINK, ASK_FORMAT = range(2)] and [ConversationHandler.END]. A
    conversation whose handler returned [END] is forgotten by the
    framework, like one that was never started. *)
Inductive state : Type := ASK_LINK | ASK_FORMAT | END.

(** A message, as the filters and the handlers of [main] tell messages
    apart: one that begins with the bot command /name addressed to this
    bot ([name] is the command as it was typed, without the slash, a
    trailing @botname and the arguments that follow), a text message that
    does not begin with a bot command, or another message. [Media] stands
    for a message without text (a photo, a sticker, a file) and, as far as
    the dispatch goes, for a command addressed to another bot, which the
    same handlers take. *)
Inductive message : Type :=
| Command (name : string)
| Text (text : string)
| Media.

(** What the framework delivers: a new message ([update.message]), a
    message that was edited ([update.edited_message]), a post in a channel,
    new or edited, or the press of an inline button
    ([update.callback_query]). *)
Inductive update : Type :=
| NewMessage (m : message)
| EditedMessage (m : message)
| ChannelPost (m : message)
| CallbackQuery (data : string).

Coercion NewMessage : message >-> update.

(** [update.message]: [None] unless the update is a new message. *)
Definition update_message (u : update) : option message :=
  match u with
  | NewMessage m => Some m
  | _ => None
  end.

(** [message.text]. The text of a command is kept up to the end of the
    command: [ask_format], the one handler that reads the text, is given
    text messages that are no commands. *)
Definition message_text (m : message) : option string :=
  match m with
  | Command name => Some ("/" +:+ name)
  | Text text => Some text
  | Media => None
  end.

Definition no_attribute (attr : string) : exn :=
  Exn "AttributeError"
      ("'NoneType' object has no attribute '" +:+ attr +:+ "'").

Definition greeting : string :=
  "👋 Hi! Send me the link of the video you want to download.".

Definition invalid_url : string :=
  "❗️ Please send a valid URL (must start with http:// or https://).".

Definition choose_format : string := "Great! Do you want audio or video?".

Definition keyboard : list (list button) :=
  [ [ InlineKeyboardButton "Audio 🎵" "audio";
      InlineKeyboardButton "Video 🎥" "video" ] ].

Definition missing_url : string :=
  "❌ Something went wrong (missing URL). Please /start again.".

Definition downloading (choice : string) : string :=
  "🔄 Downloading your " +:+ choice +:+ "…".

Definition sending (choice : string) (sec : Z) : string :=
  "🚀 Sending your " +:+ choice +:+ " in " +:+ PyStr.str_of_int sec
  +:+ " second" +:+ (if 1 <? sec then "s" else "") +:+ "…".

Definition done_text : string :=
  "✅ Done! Send me another link (or /cancel to stop).".

Definition download_error (e : exn) : string :=
  "❌ Error during download: " +:+ exn_text e.

Definition cancelled_text : string :=
  "👋 Operation cancelled. Use /start to download again.".

(** Handler for /start command: ask user for a link. *)
Definition start (u : update) : M state :=
  match update_message u with
  | None => raise (no_attribute "reply_text")
  | Some _ => emit (ReplyText greeting None) ;; mret ASK_LINK
  end.

(** The test of [ask_format]:
    [url.lower().startswith(("http://", "https://"))]. *)
Definition has_scheme (url : string) : bool :=
  PyStr.startswith_any (PyStr.lower url) ["http://"; "https://"].

(** Handler for receiving a URL: validate and ask format choice. *)
Definition ask_format (u : update) : M state :=
  match update_message u with
  | None => raise (no_attribute "text")
  | Some m =>
      match message_text m with
      | None => raise (no_attribute "strip")
      | Some text =>
          let url := PyStr.strip text in
          if negb (has_scheme url) then
            emit (ReplyText invalid_url None) ;; mret ASK_LINK
          else
            user_data_set "url" url ;;
            emit (ReplyText choose_format (Some keyboard)) ;;
            mret ASK_FORMAT
      end
  end.

(** [not url] for the result of [user_data.get('url')]. *)
Definition falsy (url : option string) : bool :=
  match url with
  | None => true
  | Some s => String.eqb s ""
  end.

(** The countdown loop of [handle_format_choice]. *)
Definition countdown (w : world) (choice : string) : M unit :=
  for_each (PyStr.range 5 0 (-1)) (fun sec =>
    guarded w (EditText (sending choice sec)) ;;
    guarded w (Sleep 1)).

(** The body of the [try] block of [handle_format_choice]. *)
Definition deliver (w : world) (url temp_dir choice : string) : M state :=
  file_path ← run_in_executor w url temp_dir choice ;
  countdown w choice ;;
  open w file_path ;;
  (if String.eqb choice "video"
   then guarded w (ReplyVideo file_path)
   else guarded w (ReplyAudio file_path)) ;;
  guarded w (ReplyText done_text None) ;;
  mret ASK_LINK.

(** The [except Exception as e] clause of [handle_format_choice]: the
    reply is a call like those of the [try] block, and an exception it
    raises leaves the handler once the [finally] clause has run. *)
Definition report (w : world) (e : exn) : M state :=
  emit (LogException "Download error" e) ;;
  guarded w (ReplyText (download_error e) None) ;;
  mret ASK_LINK.

(** Handler for format choice buttons: download, countdown, send, and loop. *)
Definition handle_format_choice (w : world) (u : update) : M state :=
  match u with
  | CallbackQuery choice =>
      emit Answer ;;
      url ← user_data_get "url" ;
      if falsy url then
        emit (EditMessageText missing_url) ;; mret END
      else
        let url := default "" url in
        emit (EditMessageText (downloading choice)) ;;
        temp_dir ← mkdtemp w ;
        try_except_finally
          (deliver w url temp_dir choice)
          (report w)
          (rmtree w temp_dir)
  | _ => raise (no_attribute "answer")
  end.

(** Handler for /cancel: end conversation. *)
Definition cancel (u : update) : M state :=
  match update_message u with
  | None => raise (no_attribute "reply_text")
  | Some _ => emit (ReplyText cancelled_text None) ;; mret END
  end.

(** ** The [ConversationHandler] of [main] *)

Inductive callback : Type :=
| cb_start | cb_ask_format | cb_handle_format_choice | cb_cancel.

Inductive message_filter : Type := TEXT_and_not_COMMAND | ALL.

Inductive handler : Type :=
| CommandHandler (command : string) (cb : callback)
| MessageHandler (f : message_filter) (cb : callback)
| CallbackQueryHandler (cb : callback).

Definition handler_callback (h : handler) : callback :=
  match h with
  | CommandHandler _ cb | MessageHandler _ cb | CallbackQueryHandler cb => cb
  end.

(** The test of a [CommandHandler]: a message, new or edited, that begins
    with the command; the names are compared in lower case. *)
Definition command_matches (command : string) (u : update) : bool :=
  match u with
  | NewMessage (Command name) | EditedMessage (Command name) =>
      String.eqb (PyStr.lower name) (PyStr.lower command)
  | _ => false
  end.

(** A message filter on the message of an update. *)
Definition filter_matches (f : message_filter) (m : message) : bool :=
  match f, m with
  | TEXT_and_not_COMMAND, Text _ => true
  | TEXT_and_not_COMMAND, _ => false
  | ALL, _ => true
  end.

(** [handler.check_update(update)]. A message filter looks at the message
    the update carries, new or edited, in a chat or in a channel. *)
Definition check_update (h : handler) (u : update) : bool :=
  match h, u with
  | CommandHandler command _, _ => command_matches command u
  | MessageHandler f _, (NewMessage m | EditedMessage m | ChannelPost m) =>
      filter_matches f m
  | CallbackQueryHandler _, CallbackQuery _ => true
  | _, _ => false
  end.

Record ConversationHandler := {
  entry_points : list handler;
  states : state -> list handler;
  fallbacks : list handler;
  allow_reentry : bool }.

(** The handler [main] registers. *)
Definition conv : ConversationHandler :=
  {| entry_points := [CommandHandler "start" cb_start];
     states := fun st =>
       match st with
       | ASK_LINK => [MessageHandler TEXT_and_not_COMMAND cb_ask_format]
       | ASK_FORMAT => [CallbackQueryHandler cb_handle_format_choice]
       | END => []
       end;
     fallbacks := [CommandHandler "cancel" cb_cancel; MessageHandler ALL cb_start];
     allow_reentry := true |}.

Definition first_match (hs : list handler) (u : update) : option callback :=
  handler_callback <$> find (fun h => check_update h u) hs.

(** The framework's choice of a handler. Posts in channels are ignored;
    otherwise the entry points are tried when no conversation runs or
    re-entry is allowed, then the handlers of the current state, then the
    fallbacks. *)
Definition select (c : ConversationHandler) (st : state) (u : update)
    : option callback :=
  match u with
  | ChannelPost _ => None
  | _ =>
      let running := match st with END => false | _ => true end in
      let entry :=
        if negb running || allow_reentry c then first_match (entry_points c) u
        else None in
      match entry with
      | Some cb => Some cb
      | None =>
          if running then
            match first_match (states c st) u with
            | Some cb => Some cb
            | None => first_match (fallbacks c) u
            end
          else None
      end
  end.

Definition run (w : world) (cb : callback) (u : update) : M state :=
  match cb with
  | cb_start => start u
  | cb_ask_format => ask_format u
  | cb_handle_format_choice => handle_format_choice w u
  | cb_cancel => cancel u
  end.

(** One session: the conversation state and what the handlers see. *)
Record session := { current : state; context : env }.

(** One update through the conversation: the state changes to what the
    handler returns; an update that no handler takes, or a handler that
    raises or is cancelled, leaves it as it was. *)
Definition step (w : world) (ss : session) (u : update) : session :=
  match select conv (current ss) u with
  | None => ss
  | Some cb =>
      match run w cb u (context ss) with
      | (Returns st, s') => {| current := st; context := s' |}
      | (_, s') => {| current := current ss; context := s' |}
      end
  end.

(** The calls issued by a step: what [after] adds to [before]. *)
Definition issued (before after : env) : list action :=
  drop (length (trace before)) (trace after).

(** ** Words of the specification *)

(** [p] is a prefix of [s] up to the case of ASCII letters. *)
Inductive ci_prefix : string -> string -> Prop :=
| ci_prefix_nil s : ci_prefix "" s
| ci_prefix_cons a b p s :
    PyStr.ascii_lower a = PyStr.ascii_lower b ->
    ci_prefix p s ->
    ci_prefix (String a p) (String b s).

(** "starts, case-insensitively, with http:// or https://" *)
Definition url_like (s : string) : Prop :=
  ci_prefix "http://" s \/ ci_prefix "https://" s.

(** A world in which the tool finds nothing and no call fails. *)
Definition calm_ydl : YoutubeDL :=
  {| extract_info := fun _ _ fs =>
       (Raises (Exn "DownloadError" "Unsupported URL"), fs);
     prepare_filename := fun o i => "" |}.

Definition calm : world :=
  {| ydl := calm_ydl;
     mkdtemp_name := fun _ => "/tmp/tmpq1w2e3";
     fault := fun _ _ => Returns tt;
     rmtree_fails := false;
     repr := PyStr.repr_ascii |}.

Definition fresh_env : env :=
  {| user_data := ∅; files := ∅; trace := [] |}.

(** The reading of C7 as it is written: after /start the greeting was
    sent, the state is [ASK_LINK] and no ['url'] is stored. *)
Definition restart_discards (w : world) (ss : session) : Prop :=
  let ss' := step w ss (Command "start") in
  issued (context ss) (context ss') = [ReplyText greeting None]
  /\ current ss' = ASK_LINK
  /\ user_data (context ss') !! "url" = None.

Definition mid_format : session :=
  {| current := ASK_FORMAT;
     context := {| user_data := {[ "url" := "https://example.com/v" ]};
                   files := ∅; trace := [] |} |}.

(** The environment at the entry of the [try] block of
    [handle_format_choice]: the callback is answered, the status message
    is shown and the temporary directory exists. *)
Definition at_try (w : world) (choice : string) (s : env) : env :=
  let d := mkdtemp_name w (files s) in
  {| user_data := user_data s;
     files := {[ d ]} ∪ files s;
     trace := trace s ++ [Answer; EditMessageText (downloading choice); Mkdtemp d] |}.

(** How the [except] clause ends, from how its reply ended. *)
Definition after_reply (o : outcome unit) : outcome state :=
  match o with
  | Returns _ => Returns ASK_LINK
  | Raises e => Raises e
  | Cancelled => Cancelled
  end.

(** The same world with another answer to "does the removal fail?". *)
Definition with_rmtree_fails (b : bool) (w : world) : world :=
  {| ydl := ydl w; mkdtemp_name := mkdtemp_name w; fault := fault w;
     rmtree_fails := b; repr := repr w |}.

(** The media attachments. *)
Definition is_media (a : action) : bool :=
  match a with
  | ReplyVideo _ | ReplyAudio _ => true
  | _ => false
  end.

Definition send_media (choice path : string) : action :=
  if String.eqb choice "video" then ReplyVideo path else ReplyAudio path.

(** What the docstring of [download_media] promises: a path that it
    returns is the path of a file on disk. *)
Definition returns_existing_file (y : YoutubeDL) (url download_dir fmt : string)
    (fs : gset string) : Prop :=
  forall path fs',
    download_media y url download_dir fmt fs = (Returns path, fs') ->
    path ∈ fs'.

(** ** Sample worlds *)

(** The directory part of the output template. *)
Definition template_root (o : options) : string :=
  PyStr.slice_to
    (String.length (outtmpl o) - String.length "%(title)s.%(ext)s")
    (outtmpl o).

Definition expand_template (o : options) (i : info_dict) : string :=
  template_root o +:+ title i +:+ "." +:+ ext i.

(** A tool that downloads "clip.webm" and leaves the file it reports, or
    the mp3 made from it when the audio post-processor is configured. *)
Definition studio : YoutubeDL :=
  {| extract_info := fun o _ fs =>
       let i := {| title := "clip"; ext := "webm" |} in
       let made := match postprocessors o with
                   | Some _ => template_root o +:+ "clip.mp3"
                   | None => expand_template o i
                   end in
       (Returns i, {[ made ]} ∪ fs);
     prepare_filename := expand_template |}.

(** A tool that could not merge the two streams it fetched: both stay on
    disk under their own names and the reported name is the merged one. *)
Definition unmerged : YoutubeDL :=
  {| extract_info := fun o _ fs =>
       (Returns {| title := "clip"; ext := "mp4" |},
        {[ template_root o +:+ "clip.f137.mp4";
           template_root o +:+ "clip.f140.m4a" ]} ∪ fs);
     prepare_filename := expand_template |}.

Definition sunny : world :=
  {| ydl := studio;
     mkdtemp_name := fun _ => "/tmp/tmpq1w2e3";
     fault := fun _ _ => Returns tt;
     rmtree_fails := false;
     repr := PyStr.repr_ascii |}.

(** The third countdown edit times out. *)
Definition flaky : world :=
  {| ydl := studio;
     mkdtemp_name := fun _ => "/tmp/tmpq1w2e3";
     fault := fun _ a =>
       match a with
       | EditText text =>
           if String.eqb text (sending "video" 3)
           then Raises (Exn "TimedOut" "Timed out")
           else Returns tt
       | _ => Returns tt
       end;
     rmtree_fails := false;
     repr := PyStr.repr_ascii |}.

(** The upload of the attachment is refused. *)
Definition refusing : world :=
  {| ydl := studio;
     mkdtemp_name := fun _ => "/tmp/tmpq1w2e3";
     fault := fun _ a =>
       if is_media a
       then Raises (Exn "BadRequest" "Request Entity Too Large")
       else Returns tt;
     rmtree_fails := false;
     repr := PyStr.repr_ascii |}.

(** The reported file is not there. *)
Definition split_streams : world :=
  {| ydl := unmerged;
     mkdtemp_name := fun _ => "/tmp/tmpq1w2e3";
     fault := fun _ _ => Returns tt;
     rmtree_fails := false;
     repr := PyStr.repr_ascii |}.

(** The tool finds nothing and the user has blocked the bot: the reply of
    the [except] clause is refused. *)
Definition blocked : world :=
  {| ydl := calm_ydl;
     mkdtemp_name := fun _ => "/tmp/tmpq1w2e3";
     fault := fun _ a =>
       match a with
       | ReplyText _ _ =>
           Raises (Exn "Forbidden" "Forbidden: bot was blocked by the user")
       | _ => Returns tt
       end;
     rmtree_fails := false;
     repr := PyStr.repr_ascii |}.

(** The task is cancelled during the third pause of the countdown. *)
Definition interrupted : world :=
  {| ydl := studio;
     mkdtemp_name := fun _ => "/tmp/tmpq1w2e3";
     fault := fun h a =>
       match a with
       | Sleep _ => if (8 <=? length h)%nat then Cancelled else Returns tt
       | _ => Returns tt
       end;
     rmtree_fails := true;
     repr := PyStr.repr_ascii |}.

Definition with_url (url : string) : env :=
  {| user_data := {[ "url" := url ]}; files := ∅; trace := [] |}.

(** What [shutil.rmtree] leaves. *)
Definition swept (w : world) (d : string) (fs : gset string) : gset string :=
  if rmtree_fails w then fs else filter (fun p => inside d p = false) fs.

(** A computation that leaves [user_data] alone and only adds to the
    calls issued. *)
Definition tidy {A} (m : M A) : Prop :=
  forall s r s',
    m s = (r, s') ->
    user_data s' = user_data s /\ exists l, trace s' = (trace s ++ l)%list.

(** The calls of the countdown: five edits, each followed by its pause. *)
Definition ticks (choice : string) : list action :=
  flat_map (fun sec => [EditText (sending choice sec); Sleep 1])
           (PyStr.range 5 0 (-1)).

(** The calls of the [try] block when the download returned [path], in
    the order the block issues them. *)
Definition script (url d choice path : string) : list action :=
  (RunInExecutor url d choice :: ticks choice
   ++ [Open path; send_media choice path; ReplyText done_text None])%list.

(** A list of calls made inside the [try] block, one after the other. *)
Fixpoint play (w : world) (l : list action) : M unit :=
  match l with
  | [] => mret tt
  | a :: l' => guarded w a ;; play w l'
  end.

Definition add_calls (l : list action) (s : env) : env :=
  {| user_data := user_data s; files := files s; trace := trace s ++ l |}.

(** The edits of the status message made by the countdown. *)
Definition is_edit (a : action) : bool :=
  match a with
  | EditText _ => true
  | _ => false
  end.

(** ** Runs of the conversation *)

(** A sequence of updates, each met by its own world. *)
Definition run_all (ss : session) (l : list (world * update)) : session :=
  fold_left (fun ss wu => step (fst wu) ss (snd wu)) l ss.

(** A computation all of whose calls satisfy [P]. *)
Definition issues {A} (P : action -> Prop) (m : M A) : Prop :=
  forall s r s',
    m s = (r, s') -> exists l, trace s' = (trace s ++ l)%list /\ Forall P l.

(** The seconds [asyncio.sleep] was asked for. *)
Definition pause (l : list action) : Z :=
  fold_right (fun a acc => match a with Sleep n => n + acc | _ => acc end) 0 l.

(** The path [p] with what lies at or below [d] taken out of view. *)
Definition outside (d : string) (fs : gset string) : gset string :=
  filter (fun p => inside d p = false) fs.

(** ** A stored URL that is no longer awaited *)

(** The session with the stored URL deleted. *)
Definition forget_url (ss : session) : session :=
  {| current := current ss;
     context := {| user_data := delete "url" (user_data (context ss));
                   files := files (context ss);
                   trace := trace (context ss) |} |}.

(** Two sessions that differ at most in the value stored under ['url'],
    and not even in that while a format is awaited: the same state, the
    same disk, the same calls issued, the same user data otherwise. *)
Definition same_but_stale_url (a b : session) : Prop :=
  current a = current b
  /\ files (context a) = files (context b)
  /\ trace (context a) = trace (context b)
  /\ (forall k, k <> "url" ->
        user_data (context a) !! k = user_data (context b) !! k)
  /\ (current a = ASK_FORMAT ->
      user_data (context a) !! "url" = user_data (context b) !! "url").

(** ** The rest of [main.py]: start-up and the application *)

(** What the module does when it is run as a script. *)
Inductive startup_action : Type :=
| LoggingError (msg : string)
| SysExit (code : Z)
| BasicConfig (fmt : string)
| BuildApplication (token : string)
| AddConversationHandler (c : ConversationHandler)
| AddCommandHandler (command : string)
| LoggerInfo (msg : string)
| RunPolling.

(** [load_dotenv()]: the entries of the .env file are added to the
    environment; a variable that is already set keeps its value. *)
Definition load_dotenv (dotenv environ : gmap string string) : gmap string string :=
  environ ∪ dotenv.

(** [main()] *)
Definition main (TELEGRAM_TOKEN : string) : list startup_action :=
  [ BuildApplication TELEGRAM_TOKEN;
    AddConversationHandler conv;
    AddCommandHandler "help";
    LoggerInfo "Bot is starting up…";
    RunPolling ].

(** The module body, from [load_dotenv()] to the call of [main()]. *)
Definition module_body (dotenv environ : gmap string string) : list startup_action :=
  let environ := load_dotenv dotenv environ in
  let TELEGRAM_TOKEN := environ !! "TELEGRAM_TOKEN" in
  if falsy TELEGRAM_TOKEN then
    [ LoggingError "No TELEGRAM_TOKEN set in environment."; SysExit 1 ]
  else
    BasicConfig "%(asctime)s - %(name)s - %(levelname)s - %(message)s"
    :: main (default "" TELEGRAM_TOKEN).

Definition help_text : string := "/start – begin download
/cancel – stop".

(** The callback of the /help handler. *)
Definition help (u : update) : M unit :=
  match update_message u with
  | None => raise (no_attribute "reply_text")
  | Some _ => emit (ReplyText help_text None)
  end.

(** The application of [main] on one update: the conversation handler
    was added first; the /help handler sees what the conversation does not
    take. *)
Definition process_update (w : world) (ss : session) (u : update) : session :=
  match select conv (current ss) u with
  | Some _ => step w ss u
  | None =>
      if command_matches "help" u
      then {| current := current ss; context := snd (help u (context ss)) |}
      else ss
  end.

(** ** The sessions a step leads to *)

(** After the greeting. *)
Definition restarted (ss : session) : session :=
  {| current := ASK_LINK;
     context := record (ReplyText greeting None) (context ss) |}.

(** After the farewell. *)
Definition ended (ss : session) : session :=
  {| current := END;
     context := record (ReplyText cancelled_text None) (context ss) |}.

(** The updates that, in a running conversation, fall through to the
    catch-all fallback: a message without text, a command other than
    /cancel, a text message while a format is awaited. *)
Definition stray (st : state) (u : update) : bool :=
  match u with
  | NewMessage Media => true
  | NewMessage (Command name) => negb (String.eqb (PyStr.lower name) "cancel")
  | NewMessage (Text _) => match st with ASK_FORMAT => true | _ => false end
  | _ => false
  end.

(** What holds of the sessions reached from a start of the bot: while a
    format is awaited, a URL with an accepted scheme is stored. *)
Definition url_pending (ss : session) : Prop :=
  current ss = ASK_FORMAT ->
  exists url, user_data (context ss) !! "url" = Some url /\ has_scheme url = true.

(** The calls the [try] statement of [handle_format_choice] can issue. *)
Definition delivery_call (a : action) : bool :=
  match a with
  | RunInExecutor _ _ _ | EditText _ | Sleep 1 | Open _
  | ReplyVideo _ | ReplyAudio _ | ReplyText _ None
  | LogException _ _ | Rmtree _ => true
  | _ => false
  end.

(** A session on a disk that holds a file of its own. *)
Definition at_home : env :=
  {| user_data := {[ "url" := "https://example.com/v" ]};
     files := {[ "/home/bot/main.py" ]};
     trace := [] |}.

(** Pauses are not negative. *)
Definition sane_pause (a : action) : Prop :=
  match a with
  | Sleep n => 0 <= n
  | _ => True
  end.

(** A string that does not begin with a whitespace character. *)
Definition head_clean (t : string) : Prop :=
  match t with
  | EmptyString => True
  | String a t1 =>
      PyStr.is_ascii_space a = false
      /\ match t1 with
         | EmptyString => True
         | String b t2 =>
             PyStr.is_space2 a b = false
             /\ match t2 with
                | EmptyString => True
                | String c _ => PyStr.is_space3 a b c = false
                end
         end
  end.

(** * Properties *)

(** ** Strings *)

Lemma prefix_lower (p s : string) :
  PyStr.lower p = p ->
  String.prefix p (PyStr.lower s) = true <-> ci_prefix p s.
Proof.
  revert s. induction p as [|a p IH]; intros s Hp.
  - split; [intros _; apply ci_prefix_nil | intros _; destruct s; reflexivity].
  - simpl in Hp. injection Hp as Ha Hp'.
    destruct s as [|b s]; simpl.
    + split; [discriminate | inversion 1].
    + destruct (ascii_dec a (PyStr.ascii_lower b)) as [E|N].
      * rewrite (IH s Hp'). split.
        -- intros H. apply ci_prefix_cons; [congruence | exact H].
        -- inversion 1; assumption.
      * split; [discriminate |].
        inversion 1; subst. congruence.
Qed.

Lemma has_scheme_spec (url : string) : has_scheme url = true <-> url_like url.
Proof.
  unfold has_scheme, url_like, PyStr.startswith_any, PyStr.startswith.
  cbn [existsb]. rewrite orb_false_r, orb_true_iff.
  rewrite !prefix_lower by reflexivity. reflexivity.
Qed.

Example strip_ex : PyStr.strip "  https://example.com/v
" = "https://example.com/v".
Proof. reflexivity. Qed.

Example url_like_ex : url_like "HtTpS://Example.com".
Proof. apply has_scheme_spec. reflexivity. Qed.

Example not_url_like_ex : ~ url_like "ftp://x.com/a".
Proof. rewrite <- has_scheme_spec. discriminate. Qed.

Example range_ex : PyStr.range 5 0 (-1) = [5; 4; 3; 2; 1].
Proof. reflexivity. Qed.

Example join_ex :
  OsPath.join "/tmp/tmpab12" "%(title)s.%(ext)s" = "/tmp/tmpab12/%(title)s.%(ext)s".
Proof. reflexivity. Qed.

Example splitext_ex :
  OsPath.splitext "/tmp/tmp.x/clip.v2.webm" = ("/tmp/tmp.x/clip.v2", ".webm").
Proof. reflexivity. Qed.

Example splitext_hidden :
  OsPath.splitext "/tmp/d.x/.bashrc" = ("/tmp/d.x/.bashrc", "").
Proof. reflexivity. Qed.

(** ** The scenarios of the specification *)

Example scenario_A :
  step calm {| current := END; context := fresh_env |} (Command "start")
  = {| current := ASK_LINK;
       context := {| user_data := ∅; files := ∅;
                     trace := [ReplyText greeting None] |} |}.
Proof. reflexivity. Qed.

Example scenario_B :
  step calm {| current := ASK_LINK; context := fresh_env |} (Text "ftp://x.com/a")
  = {| current := ASK_LINK;
       context := {| user_data := ∅; files := ∅;
                     trace := [ReplyText invalid_url None] |} |}.
Proof. reflexivity. Qed.

Example scenario_C :
  let ss1 := step sunny {| current := ASK_LINK; context := fresh_env |}
                  (Text "https://example.com/v") in
  let ss2 := step sunny ss1 (CallbackQuery "video") in
  current ss1 = ASK_FORMAT
  /\ current ss2 = ASK_LINK
  /\ RunInExecutor "https://example.com/v" "/tmp/tmpq1w2e3" "video"
       ∈ trace (context ss2)
  /\ ReplyVideo "/tmp/tmpq1w2e3/clip.webm" ∈ trace (context ss2)
  /\ files (context ss2) = ∅.
Proof.
  cbn zeta. repeat split; try (vm_compute; reflexivity);
    apply list_elem_of_In; vm_compute; tauto.
Qed.

Example scenario_D :
  step calm {| current := ASK_FORMAT; context := fresh_env |} (CallbackQuery "audio")
  = {| current := END;
       context := {| user_data := ∅; files := ∅;
                     trace := [Answer; EditMessageText missing_url] |} |}.
Proof. reflexivity. Qed.

(** An update that no handler takes leaves the session as it is: a
    button press while the bot waits for a link. *)
Example stray_button :
  step sunny {| current := ASK_LINK;
                context := with_url "https://example.com/v" |}
       (CallbackQuery "video")
  = {| current := ASK_LINK; context := with_url "https://example.com/v" |}.
Proof. reflexivity. Qed.

(** ** The link prompt *)

(** A text message in [ASK_LINK] runs [ask_format]. *)
Lemma step_text (w : world) (ss : session) (text : string) :
  current ss = ASK_LINK ->
  step w ss (Text text) =
  if has_scheme (PyStr.strip text)
  then {| current := ASK_FORMAT;
          context := {| user_data := <["url" := PyStr.strip text]>
                                       (user_data (context ss));
                        files := files (context ss);
                        trace := trace (context ss)
                                 ++ [ReplyText choose_format (Some keyboard)] |} |}
  else {| current := ASK_LINK;
          context := {| user_data := user_data (context ss);
                        files := files (context ss);
                        trace := trace (context ss)
                                 ++ [ReplyText invalid_url None] |} |}.
Proof.
  intros Hst. unfold step. rewrite Hst. cbn [select conv first_match entry_points
    states fallbacks allow_reentry negb orb find check_update command_matches
    filter_matches fmap option_fmap option_map handler_callback run].
  unfold ask_format. cbn [update_message message_text].
  destruct (has_scheme (PyStr.strip text)); reflexivity.
Qed.

(** C2. In [ASK_LINK], a text message whose stripped text does not start,
    up to case, with http:// or https:// is answered with the validation
    error, and the state and [user_data] stay as they were; any other text
    message stores exactly the stripped text under ['url'], shows the
    keyboard with the two buttons audio and video, and moves to
    [ASK_FORMAT]. *)
Theorem ask_format_validates (w : world) (ss : session) (text : string) :
  current ss = ASK_LINK ->
  keyboard = [ [ InlineKeyboardButton "Audio 🎵" "audio";
                 InlineKeyboardButton "Video 🎥" "video" ] ]
  /\ (~ url_like (PyStr.strip text) ->
      step w ss (Text text) =
      {| current := ASK_LINK;
         context := {| user_data := user_data (context ss);
                       files := files (context ss);
                       trace := trace (context ss)
                                ++ [ReplyText invalid_url None] |} |})
  /\ (url_like (PyStr.strip text) ->
      step w ss (Text text) =
      {| current := ASK_FORMAT;
         context := {| user_data := <["url" := PyStr.strip text]>
                                      (user_data (context ss));
                       files := files (context ss);
                       trace := trace (context ss)
                                ++ [ReplyText choose_format (Some keyboard)] |} |}
      /\ user_data (context (step w ss (Text text))) !! "url"
         = Some (PyStr.strip text)).
Proof.
  intros Hst. split; [reflexivity |].
  rewrite (step_text _ _ _ Hst).
  split; intros H.
  - destruct (has_scheme (PyStr.strip text)) eqn:E.
    + exfalso. apply H, has_scheme_spec, E.
    + reflexivity.
  - apply has_scheme_spec in H. rewrite H. cbn [context user_data].
    split; [reflexivity | apply lookup_insert_eq].
Qed.

Lemma ask_format_validates_witness :
  current {| current := ASK_LINK; context := fresh_env |} = ASK_LINK
  /\ step calm {| current := ASK_LINK; context := fresh_env |}
          (Text "  HTTPS://example.com/v ")
     = {| current := ASK_FORMAT;
          context := {| user_data := <["url" := "HTTPS://example.com/v"]> ∅;
                        files := ∅;
                        trace := [ReplyText choose_format (Some keyboard)] |} |}.
Proof.
  split; [reflexivity |].
  apply (ask_format_validates calm {| current := ASK_LINK; context := fresh_env |}
           "  HTTPS://example.com/v " eq_refl).
  apply has_scheme_spec. reflexivity.
Defined.

(** ** Lost context *)

(** C4. In [ASK_FORMAT], a button press that finds no ['url'] in
    [user_data] is answered by the missing-URL message, which tells the
    user to /start again, and ends the conversation; the only calls issued
    are the callback answer and that message, so no temporary directory is
    made and the download is not run, and the file system is untouched. *)
Theorem lost_context_ends (w : world) (ss : session) (choice : string) :
  current ss = ASK_FORMAT ->
  user_data (context ss) !! "url" = None ->
  step w ss (CallbackQuery choice) =
  {| current := END;
     context := {| user_data := user_data (context ss);
                   files := files (context ss);
                   trace := trace (context ss)
                            ++ [Answer; EditMessageText missing_url] |} |}
  /\ issued (context ss) (context (step w ss (CallbackQuery choice)))
     = [Answer;
        EditMessageText
          "❌ Something went wrong (missing URL). Please /start again."].
Proof.
  intros Hst Hurl.
  assert (E : step w ss (CallbackQuery choice) =
    {| current := END;
       context := {| user_data := user_data (context ss);
                     files := files (context ss);
                     trace := trace (context ss)
                              ++ [Answer; EditMessageText missing_url] |} |}).
  { unfold step. rewrite Hst. cbn [select conv first_match entry_points states
      fallbacks allow_reentry negb orb find check_update command_matches
      filter_matches fmap option_fmap option_map handler_callback run].
    unfold handle_format_choice, mbind, M_bind, emit, user_data_get, record.
    cbn [user_data files trace]. rewrite Hurl. cbn.
    rewrite <- app_assoc. reflexivity. }
  split; [exact E |].
  rewrite E. unfold issued. cbn [context trace].
  rewrite drop_app_length. reflexivity.
Qed.

Lemma lost_context_ends_witness :
  step calm {| current := ASK_FORMAT; context := fresh_env |} (CallbackQuery "audio")
  = {| current := END;
       context := {| user_data := ∅; files := ∅;
                     trace := [Answer; EditMessageText missing_url] |} |}.
Proof.
  apply (lost_context_ends calm {| current := ASK_FORMAT; context := fresh_env |}
           "audio" eq_refl).
  reflexivity.
Defined.

(** ** Restart *)

(** C7, as written, fails: /start in [ASK_FORMAT] leaves the stored URL in
    [user_data]. *)
Lemma restart_keeps_url : ~ restart_discards calm mid_format.
Proof.
  unfold restart_discards. intros (_ & _ & H). vm_compute in H. discriminate H.
Qed.

(** C7, amended. From every state, /start sends the greeting and moves to
    [ASK_LINK]; [user_data] is left as it is, so a stored URL stays
    stored; a second /start changes neither the state nor [user_data]. *)
Theorem restart_resets_state (w : world) (ss : session) :
  step w ss (Command "start") =
  {| current := ASK_LINK;
     context := {| user_data := user_data (context ss);
                   files := files (context ss);
                   trace := trace (context ss) ++ [ReplyText greeting None] |} |}
  /\ (let ss1 := step w ss (Command "start") in
      let ss2 := step w ss1 (Command "start") in
      current ss2 = current ss1
      /\ user_data (context ss2) = user_data (context ss1)
      /\ files (context ss2) = files (context ss1)).
Proof.
  assert (E : forall t, step w t (Command "start") =
    {| current := ASK_LINK;
       context := {| user_data := user_data (context t);
                     files := files (context t);
                     trace := trace (context t) ++ [ReplyText greeting None] |} |}).
  { intros t. unfold step. destruct (current t); reflexivity. }
  split; [apply E |].
  cbn zeta. rewrite !E. cbn. auto.
Qed.

(** ** The download configuration *)


(** ** Running the handlers *)

Lemma bind_assoc {A B C} (m : M A) (f : A -> M B) (g : B -> M C) (s : env) :
  ((m ≫= f) ≫= g) s = (m ≫= (fun x => f x ≫= g)) s.
Proof.
  unfold mbind, M_bind. destruct (m s) as [[a|e|] s1]; reflexivity.
Qed.

Lemma emit_bind {B} (a : action) (k : unit -> M B) (s : env) :
  (emit a ≫= k) s = k tt (record a s).
Proof. reflexivity. Qed.

Lemma guarded_bind {B} (w : world) (a : action) (k : unit -> M B) (s : env) :
  (guarded w a ≫= k) s =
  match fault w (trace s) a with
  | Returns _ => k tt (record a s)
  | Raises e => (Raises e, record a s)
  | Cancelled => (Cancelled, record a s)
  end.
Proof.
  unfold mbind, M_bind, guarded.
  destruct (fault w (trace s) a) as [[]|e|]; reflexivity.
Qed.

Lemma open_bind {B} (w : world) (path : string) (k : unit -> M B) (s : env) :
  (open w path ≫= k) s =
  if bool_decide (path ∈ files s)
  then (guarded w (Open path) ≫= k) s
  else (Raises match fault w (trace s) (Open path) with
               | Raises e => e
               | _ => file_not_found w path
               end,
        record (Open path) s).
Proof.
  unfold mbind, M_bind, open. destruct (bool_decide (path ∈ files s)); reflexivity.
Qed.

Lemma falsy_stored (url : string) : url <> "" -> falsy (Some url) = false.
Proof.
  intros H. unfold falsy. destruct (String.eqb_spec url ""); congruence.
Qed.

(** With a URL stored, the handler is the [try] statement run from
    [at_try]. *)
Lemma handle_with_url (w : world) (s : env) (choice url : string) :
  user_data s !! "url" = Some url ->
  url <> "" ->
  handle_format_choice w (CallbackQuery choice) s =
  try_except_finally
    (deliver w url (mkdtemp_name w (files s)) choice)
    (report w)
    (rmtree w (mkdtemp_name w (files s)))
    (at_try w choice s).
Proof.
  intros Hurl Hne.
  unfold handle_format_choice, mbind, M_bind, emit, user_data_get, mkdtemp,
    record, at_try.
  cbn [user_data files trace]. rewrite Hurl, (falsy_stored _ Hne).
  cbn [user_data files trace default from_option id].
  rewrite <- !app_assoc. reflexivity.
Qed.

(** The button press in [ASK_FORMAT] runs [handle_format_choice]. *)
Lemma step_format (w : world) (ss : session) (choice : string) :
  current ss = ASK_FORMAT ->
  step w ss (CallbackQuery choice) =
  match handle_format_choice w (CallbackQuery choice) (context ss) with
  | (Returns st, s') => {| current := st; context := s' |}
  | (_, s') => {| current := ASK_FORMAT; context := s' |}
  end.
Proof.
  intros H. unfold step. rewrite H. reflexivity.
Qed.

Lemma issued_app (s s' : env) (l : list action) :
  trace s' = (trace s ++ l)%list -> issued s s' = l.
Proof.
  intros H. unfold issued. rewrite H. apply drop_app_length.
Qed.

Lemma swept_gone (w : world) (d : string) (fs : gset string) (p : string) :
  rmtree_fails w = false -> p ∈ swept w d fs -> inside d p = false.
Proof.
  unfold swept. intros ->. rewrite elem_of_filter. tauto.
Qed.

Lemma inside_self (d : string) : inside d d = true.
Proof. unfold inside. rewrite String.eqb_refl. reflexivity. Qed.

(** ** A failed download *)

(** A download that does not return ends the [try] block. *)
Lemma deliver_fetch_raises (w : world) (url d choice : string) (s : env)
    (e : exn) (fs1 : gset string) :
  download_media (ydl w) url d choice (files s) = (Raises e, fs1) ->
  deliver w url d choice s =
  (Raises e, {| user_data := user_data s; files := fs1;
                trace := trace s ++ [RunInExecutor url d choice] |}).
Proof.
  intros Hdl. unfold deliver. unfold mbind at 1. unfold M_bind at 1.
  unfold run_in_executor. rewrite Hdl. reflexivity.
Qed.

Lemma deliver_fetch_cancelled (w : world) (url d choice : string) (s : env)
    (fs1 : gset string) :
  download_media (ydl w) url d choice (files s) = (Cancelled, fs1) ->
  deliver w url d choice s =
  (Cancelled, {| user_data := user_data s; files := fs1;
                 trace := trace s ++ [RunInExecutor url d choice] |}).
Proof.
  intros Hdl. unfold deliver. unfold mbind at 1. unfold M_bind at 1.
  unfold run_in_executor. rewrite Hdl. reflexivity.
Qed.

(** What the [except] clause does with the exception [e]: the log entry
    and the reply are issued, and the clause ends as the reply ends. *)
Lemma report_run (w : world) (e : exn) (s : env) :
  report w e s =
  (after_reply (fault w (trace s ++ [LogException "Download error" e])
                  (ReplyText (download_error e) None)),
   {| user_data := user_data s; files := files s;
      trace := trace s ++ [LogException "Download error" e;
                           ReplyText (download_error e) None] |}).
Proof.
  unfold report. rewrite emit_bind, guarded_bind.
  unfold record, mret, M_ret. cbn [user_data files trace].
  rewrite <- !app_assoc.
  destruct (fault w _ (ReplyText (download_error e) None)) as [[]|e2|];
    reflexivity.
Qed.

(** C3. When the download fails with the exception [e], the handler
    answers the callback, shows the status, makes the directory, runs the
    download, logs the exception, replies with "❌ Error during download: "
    followed by the text of [e], and removes the directory: these are all
    its calls, so no countdown edit is made and no attachment is sent.
    When that reply completes, the handler returns and the session is in
    [ASK_LINK]; when sending it fails, the directory is removed all the
    same, the failure leaves the handler and the session stays in
    [ASK_FORMAT]. *)
Theorem failed_download_reported (w : world) (ss : session)
    (choice url : string) (e : exn) (fs' : gset string) :
  current ss = ASK_FORMAT ->
  user_data (context ss) !! "url" = Some url ->
  url <> "" ->
  download_media (ydl w) url (mkdtemp_name w (files (context ss))) choice
    ({[ mkdtemp_name w (files (context ss)) ]} ∪ files (context ss))
  = (Raises e, fs') ->
  let d := mkdtemp_name w (files (context ss)) in
  let ss' := step w ss (CallbackQuery choice) in
  let reply := ReplyText ("❌ Error during download: " +:+ exn_text e) None in
  let reply_ends :=
    fault w (trace (context ss)
             ++ [ Answer; EditMessageText (downloading choice); Mkdtemp d;
                  RunInExecutor url d choice; LogException "Download error" e ])
          reply in
  issued (context ss) (context ss') =
    [ Answer;
      EditMessageText (downloading choice);
      Mkdtemp d;
      RunInExecutor url d choice;
      LogException "Download error" e;
      reply;
      Rmtree d ]
  /\ files (context ss') = swept w d fs'
  /\ user_data (context ss') = user_data (context ss)
  /\ (reply_ends = Returns tt -> current ss' = ASK_LINK)
  /\ (reply_ends <> Returns tt -> current ss' = ASK_FORMAT).
Proof.
  intros Hst Hurl Hne Hdl d ss' reply reply_ends. subst ss' reply_ends reply d.
  rewrite (step_format _ _ _ Hst), (handle_with_url _ _ _ _ Hurl Hne).
  unfold try_except_finally.
  rewrite (deliver_fetch_raises w url _ choice (at_try w choice (context ss))
             e fs' Hdl).
  rewrite report_run. unfold at_try, rmtree.
  cbn [files user_data trace]. rewrite <- !app_assoc. cbn [app].
  change (download_error e) with ("❌ Error during download: " +:+ exn_text e).
  destruct (fault w _ (ReplyText ("❌ Error during download: " +:+ exn_text e) None))
    as [[]|e2|]; cbn [after_reply current context files user_data trace];
    (split; [apply issued_app; cbn [trace]; rewrite <- ?app_assoc; reflexivity |]);
    (split; [reflexivity |]); (split; [reflexivity |]);
    split; intros H; first [reflexivity | congruence | discriminate H].
Qed.

Lemma failed_download_reported_witness :
  (let ss' := step calm mid_format (CallbackQuery "audio") in
   issued (context mid_format) (context ss') =
     [ Answer;
       EditMessageText "🔄 Downloading your audio…";
       Mkdtemp "/tmp/tmpq1w2e3";
       RunInExecutor "https://example.com/v" "/tmp/tmpq1w2e3" "audio";
       LogException "Download error" (Exn "DownloadError" "Unsupported URL");
       ReplyText "❌ Error during download: Unsupported URL" None;
       Rmtree "/tmp/tmpq1w2e3" ]
   /\ files (context ss') = swept calm "/tmp/tmpq1w2e3" ({[ "/tmp/tmpq1w2e3" ]} ∪ ∅)
   /\ current ss' = ASK_LINK)
  /\ current (step blocked mid_format (CallbackQuery "audio")) = ASK_FORMAT.
Proof.
  split.
  - destruct (failed_download_reported calm mid_format "audio"
                "https://example.com/v" (Exn "DownloadError" "Unsupported URL")
                ({[ "/tmp/tmpq1w2e3" ]} ∪ ∅)
                eq_refl eq_refl ltac:(discriminate) eq_refl)
      as (H1 & H2 & _ & H4 & _).
    split; [exact H1 |]. split; [exact H2 | exact (H4 eq_refl)].
  - destruct (failed_download_reported blocked mid_format "audio"
                "https://example.com/v" (Exn "DownloadError" "Unsupported URL")
                ({[ "/tmp/tmpq1w2e3" ]} ∪ ∅)
                eq_refl eq_refl ltac:(discriminate) eq_refl)
      as (_ & _ & _ & _ & H5).
    apply H5. discriminate.
Defined.

(** ** The invariant of the delivery steps *)

Lemma tidy_mret {A} (a : A) : tidy (mret a).
Proof.
  intros s r s' H. injection H as <- <-. split; [reflexivity |].
  exists []. symmetry. apply app_nil_r.
Qed.

Lemma tidy_bind {A B} (m : M A) (f : A -> M B) :
  tidy m -> (forall a, tidy (f a)) -> tidy (m ≫= f).
Proof.
  intros Hm Hf s r s' H. unfold mbind, M_bind in H.
  destruct (m s) as [o s1] eqn:E. destruct (Hm _ _ _ E) as [Hu [l Hl]].
  destruct o as [a|e|].
  - destruct (Hf a _ _ _ H) as [Hu' [l' Hl']]. split; [congruence |].
    exists (l ++ l')%list. rewrite Hl', Hl. symmetry. apply app_assoc.
  - injection H as <- <-. split; [exact Hu | exists l; exact Hl].
  - injection H as <- <-. split; [exact Hu | exists l; exact Hl].
Qed.

Lemma tidy_emit (a : action) : tidy (emit a).
Proof.
  intros s r s' H. injection H as <- <-. split; [reflexivity | exists [a]; reflexivity].
Qed.

Lemma tidy_guarded (w : world) (a : action) : tidy (guarded w a).
Proof.
  intros s r s' H. injection H as <- <-. split; [reflexivity | exists [a]; reflexivity].
Qed.

Lemma tidy_open (w : world) (path : string) : tidy (open w path).
Proof.
  intros s r s' H. unfold open in H. destruct (bool_decide (path ∈ files s)).
  - exact (tidy_guarded w (Open path) s r s' H).
  - injection H as <- <-. split; [reflexivity | exists [Open path]; reflexivity].
Qed.

Lemma tidy_run_in_executor (w : world) (url d fmt : string) :
  tidy (run_in_executor w url d fmt).
Proof.
  intros s r s' H. unfold run_in_executor in H.
  destruct (download_media (ydl w) url d fmt (files s)) as [o fs1].
  injection H as <- <-. split; [reflexivity |].
  exists [RunInExecutor url d fmt]. reflexivity.
Qed.

Lemma tidy_for_each {A} (l : list A) (body : A -> M unit) :
  (forall x, tidy (body x)) -> tidy (for_each l body).
Proof.
  intros Hb. induction l as [|x l IH]; cbn [for_each].
  - apply tidy_mret.
  - apply tidy_bind; [apply Hb | intros _; exact IH].
Qed.

Lemma tidy_deliver (w : world) (url d choice : string) :
  tidy (deliver w url d choice).
Proof.
  unfold deliver, countdown.
  apply tidy_bind; [apply tidy_run_in_executor | intros path].
  apply tidy_bind; [| intros _].
  { apply tidy_for_each. intros sec.
    apply tidy_bind; [apply tidy_guarded | intros _; apply tidy_guarded]. }
  apply tidy_bind; [apply tidy_open | intros _].
  apply tidy_bind; [destruct (String.eqb choice "video"); apply tidy_guarded | intros _].
  apply tidy_bind; [apply tidy_guarded | intros _; apply tidy_mret].
Qed.

(** The delivery steps return [ASK_LINK] or do not return. *)
Lemma deliver_returns (w : world) (url d choice : string) (s s' : env) (st : state) :
  deliver w url d choice s = (Returns st, s') -> st = ASK_LINK.
Proof.
  unfold deliver. unfold mbind at 1 2 3 4 5. unfold M_bind. intros H.
  destruct (run_in_executor w url d choice s) as [[path|e|] s1]; try discriminate.
  destruct (countdown w choice s1) as [[[]|e|] s2]; try discriminate.
  destruct (open w path s2) as [[[]|e|] s3]; try discriminate.
  destruct ((if String.eqb choice "video" then guarded w (ReplyVideo path)
             else guarded w (ReplyAudio path)) s3) as [[[]|e|] s4];
    try discriminate.
  destruct (guarded w (ReplyText done_text None) s4) as [[[]|e|] s5];
    try discriminate.
  injection H as <- _. reflexivity.
Qed.

(** The ways the [try] statement of the handler ends: after the block
    has returned, after the [except] clause has dealt with an exception of
    the block, after a cancellation. *)
Lemma try_cases (w : world) (url d choice : string) (s : env) :
  let body := deliver w url d choice s in
  let out := try_except_finally (deliver w url d choice) (report w) (rmtree w d) s in
  (exists s1, body = (Returns ASK_LINK, s1)
     /\ out = (Returns ASK_LINK,
               {| user_data := user_data s1; files := swept w d (files s1);
                  trace := trace s1 ++ [Rmtree d] |}))
  \/ (exists e s1, body = (Raises e, s1)
     /\ out = (after_reply
                 (fault w (trace s1 ++ [LogException "Download error" e])
                    (ReplyText (download_error e) None)),
               {| user_data := user_data s1; files := swept w d (files s1);
                  trace := trace s1 ++ [LogException "Download error" e;
                                        ReplyText (download_error e) None;
                                        Rmtree d] |}))
  \/ (exists s1, body = (Cancelled, s1)
     /\ out = (Cancelled,
               {| user_data := user_data s1; files := swept w d (files s1);
                  trace := trace s1 ++ [Rmtree d] |})).
Proof.
  cbn zeta. unfold try_except_finally.
  destruct (deliver w url d choice s) as [[st|e|] s1] eqn:E.
  - left. exists s1. rewrite (deliver_returns _ _ _ _ _ _ _ E). split; reflexivity.
  - right; left. exists e, s1. split; [reflexivity |].
    rewrite report_run. unfold rmtree, swept.
    cbn [user_data files trace]. rewrite <- !app_assoc. reflexivity.
  - right; right. exists s1. split; reflexivity.
Qed.

(** What a run with a stored URL leaves: what the [try] block left, then
    the report when an exception was caught, then the removal. *)
Lemma handle_shape (w : world) (s : env) (choice url : string)
    (r : outcome state) (s' : env) :
  user_data s !! "url" = Some url ->
  url <> "" ->
  handle_format_choice w (CallbackQuery choice) s = (r, s') ->
  let d := mkdtemp_name w (files s) in
  let s1 := snd (deliver w url d choice (at_try w choice s)) in
  exists tail,
    (tail = [] \/ exists e, tail = [LogException "Download error" e;
                                    ReplyText (download_error e) None])
    /\ s' = {| user_data := user_data s1; files := swept w d (files s1);
               trace := trace s1 ++ tail ++ [Rmtree d] |}
    /\ (r = Returns ASK_LINK \/ r = Cancelled \/ exists e, r = Raises e).
Proof.
  intros Hurl Hne Hrun d s1. subst s1.
  rewrite (handle_with_url _ _ _ _ Hurl Hne) in Hrun. fold d in Hrun.
  destruct (try_cases w url d choice (at_try w choice s))
    as [(s1 & B & O) | [(e & s1 & B & O) | (s1 & B & O)]];
    rewrite O in Hrun; injection Hrun as <- <-; rewrite B; cbn [snd].
  - exists []. split; [now left |]. split; [reflexivity | now left].
  - exists [LogException "Download error" e; ReplyText (download_error e) None].
    split; [right; exists e; reflexivity |]. split; [reflexivity |].
    destruct (fault w _ (ReplyText (download_error e) None)) as [[]|e2|];
      cbn [after_reply]; eauto.
  - exists []. split; [now left |]. split; [reflexivity | right; now left].
Qed.

(** The [finally] clause by itself: whatever the body and the [except]
    clause do, and however they end, the removal is the last call and,
    when it works, nothing at or below the directory is left. *)
Lemma finally_runs_last {A} (w : world) (d : string) (body : M A)
    (handler : exn -> M A) (s : env) :
  let out := try_except_finally body handler (rmtree w d) s in
  last (trace (snd out)) = Some (Rmtree d)
  /\ (rmtree_fails w = false ->
      forall p, p ∈ files (snd out) -> inside d p = false).
Proof.
  cbn zeta. unfold try_except_finally.
  destruct (body s) as [o s1].
  destruct (match o with
            | Raises e => handler e s1
            | _ => (o, s1)
            end) as [o' s2].
  unfold rmtree. cbn [snd trace files]. split.
  - apply last_snoc.
  - intros Hrm p. rewrite Hrm. rewrite elem_of_filter. tauto.
Qed.

(** ** Exceptions in the delivery steps *)

(** C10. Whatever step of the [try] block raises the exception [e] — the
    download, a countdown edit or pause, opening the file, sending the
    attachment or the closing prompt — the handler logs it, replies with
    "❌ Error during download: " followed by the text of [e] and removes
    the temporary directory; [user_data] is left as it was. When that
    reply completes, the handler returns and the session is in [ASK_LINK];
    when sending it fails, the directory is removed all the same, the
    failure leaves the handler and the session stays in [ASK_FORMAT]. *)
Theorem any_exception_reported (w : world) (ss : session)
    (choice url : string) (e : exn) (s1 : env) :
  current ss = ASK_FORMAT ->
  user_data (context ss) !! "url" = Some url ->
  url <> "" ->
  deliver w url (mkdtemp_name w (files (context ss))) choice
    (at_try w choice (context ss)) = (Raises e, s1) ->
  let d := mkdtemp_name w (files (context ss)) in
  let ss' := step w ss (CallbackQuery choice) in
  let reply := ReplyText ("❌ Error during download: " +:+ exn_text e) None in
  let reply_ends :=
    fault w (trace s1 ++ [LogException "Download error" e]) reply in
  trace (context ss') =
    (trace s1 ++ [ LogException "Download error" e; reply; Rmtree d ])%list
  /\ user_data (context ss') = user_data (context ss)
  /\ files (context ss') = swept w d (files s1)
  /\ (rmtree_fails w = false -> d ∉ files (context ss'))
  /\ (reply_ends = Returns tt -> current ss' = ASK_LINK)
  /\ (reply_ends <> Returns tt -> current ss' = ASK_FORMAT).
Proof.
  intros Hst Hurl Hne Hbody d ss' reply reply_ends. subst ss' reply_ends reply d.
  rewrite (step_format _ _ _ Hst), (handle_with_url _ _ _ _ Hurl Hne).
  destruct (try_cases w url (mkdtemp_name w (files (context ss))) choice
              (at_try w choice (context ss)))
    as [(s2 & B & O) | [(e2 & s2 & B & O) | (s2 & B & O)]];
    rewrite Hbody in B; try discriminate B.
  injection B as <- <-. rewrite O.
  change (download_error e) with ("❌ Error during download: " +:+ exn_text e).
  assert (Hgone : rmtree_fails w = false ->
            mkdtemp_name w (files (context ss))
              ∉ swept w (mkdtemp_name w (files (context ss))) (files s1)).
  { intros Hrm Hin. apply (swept_gone _ _ _ _ Hrm) in Hin.
    rewrite inside_self in Hin. discriminate Hin. }
  pose proof (proj1 (tidy_deliver _ _ _ _ _ _ _ Hbody)) as Hud.
  destruct (fault w _ (ReplyText ("❌ Error during download: " +:+ exn_text e) None))
    as [[]|e2|]; cbn [after_reply current context trace files user_data];
    (split; [reflexivity |]); (split; [exact Hud |]); (split; [reflexivity |]);
    (split; [exact Hgone |]);
    split; intros H; first [reflexivity | congruence | discriminate H].
Qed.

Lemma any_exception_reported_witness :
  (* a countdown edit times out *)
  (let ss' := step flaky {| current := ASK_FORMAT;
                            context := with_url "https://example.com/v" |}
                   (CallbackQuery "video") in
   current ss' = ASK_LINK
   /\ trace (context ss') =
      [ Answer;
        EditMessageText "🔄 Downloading your video…";
        Mkdtemp "/tmp/tmpq1w2e3";
        RunInExecutor "https://example.com/v" "/tmp/tmpq1w2e3" "video";
        EditText "🚀 Sending your video in 5 seconds…"; Sleep 1;
        EditText "🚀 Sending your video in 4 seconds…"; Sleep 1;
        EditText "🚀 Sending your video in 3 seconds…";
        LogException "Download error" (Exn "TimedOut" "Timed out");
        ReplyText "❌ Error during download: Timed out" None;
        Rmtree "/tmp/tmpq1w2e3" ]
   /\ files (context ss') = ∅)
  (* the file the tool reports is not on disk *)
  /\ (let ss' := step split_streams
                   {| current := ASK_FORMAT;
                      context := with_url "https://example.com/v" |}
                   (CallbackQuery "video") in
      current ss' = ASK_LINK
      /\ drop 14 (trace (context ss')) =
         [ Open "/tmp/tmpq1w2e3/clip.mp4";
           LogException "Download error"
             (Exn "FileNotFoundError"
                "[Errno 2] No such file or directory: '/tmp/tmpq1w2e3/clip.mp4'");
           ReplyText
             "❌ Error during download: [Errno 2] No such file or directory: '/tmp/tmpq1w2e3/clip.mp4'"
             None;
           Rmtree "/tmp/tmpq1w2e3" ])
  (* the attachment is refused *)
  /\ (let ss' := step refusing
                   {| current := ASK_FORMAT;
                      context := with_url "https://example.com/a" |}
                   (CallbackQuery "audio") in
      current ss' = ASK_LINK
      /\ drop 14 (trace (context ss')) =
         [ Open "/tmp/tmpq1w2e3/clip.mp3";
           ReplyAudio "/tmp/tmpq1w2e3/clip.mp3";
           LogException "Download error"
             (Exn "BadRequest" "Request Entity Too Large");
           ReplyText "❌ Error during download: Request Entity Too Large" None;
           Rmtree "/tmp/tmpq1w2e3" ]).
Proof.
  split; [| split].
  - pose proof (any_exception_reported flaky
      {| current := ASK_FORMAT; context := with_url "https://example.com/v" |}
      "video" "https://example.com/v" (Exn "TimedOut" "Timed out")
      (snd (deliver flaky "https://example.com/v" "/tmp/tmpq1w2e3" "video"
              (at_try flaky "video" (with_url "https://example.com/v"))))
      eq_refl eq_refl ltac:(discriminate) ltac:(vm_compute; reflexivity))
      as (H2 & _ & H4 & _ & H5 & _).
    split; [exact (H5 eq_refl) |]. split; [rewrite H2; vm_compute; reflexivity |].
    rewrite H4. vm_compute. reflexivity.
  - pose proof (any_exception_reported split_streams
      {| current := ASK_FORMAT; context := with_url "https://example.com/v" |}
      "video" "https://example.com/v"
      (Exn "FileNotFoundError"
         "[Errno 2] No such file or directory: '/tmp/tmpq1w2e3/clip.mp4'")
      (snd (deliver split_streams "https://example.com/v" "/tmp/tmpq1w2e3" "video"
              (at_try split_streams "video" (with_url "https://example.com/v"))))
      eq_refl eq_refl ltac:(discriminate) ltac:(vm_compute; reflexivity))
      as (H2 & _ & _ & _ & H5 & _).
    split; [exact (H5 eq_refl) | rewrite H2; vm_compute; reflexivity].
  - pose proof (any_exception_reported refusing
      {| current := ASK_FORMAT; context := with_url "https://example.com/a" |}
      "audio" "https://example.com/a"
      (Exn "BadRequest" "Request Entity Too Large")
      (snd (deliver refusing "https://example.com/a" "/tmp/tmpq1w2e3" "audio"
              (at_try refusing "audio" (with_url "https://example.com/a"))))
      eq_refl eq_refl ltac:(discriminate) ltac:(vm_compute; reflexivity))
      as (H2 & _ & _ & _ & H5 & _).
    split; [exact (H5 eq_refl) | rewrite H2; vm_compute; reflexivity].
Defined.

(** ** Cleanup *)

Lemma with_rmtree_fails_run (b : bool) (w : world) (s : env) (choice url : string) :
  user_data s !! "url" = Some url ->
  url <> "" ->
  let d := mkdtemp_name w (files s) in
  let out := handle_format_choice w (CallbackQuery choice) s in
  let out' := handle_format_choice (with_rmtree_fails b w) (CallbackQuery choice) s in
  fst out' = fst out
  /\ trace (snd out') = trace (snd out)
  /\ user_data (snd out') = user_data (snd out).
Proof.
  intros Hurl Hne. cbn zeta.
  rewrite !(handle_with_url _ _ _ _ Hurl Hne).
  change (mkdtemp_name (with_rmtree_fails b w)) with (mkdtemp_name w).
  change (at_try (with_rmtree_fails b w) choice s) with (at_try w choice s).
  change (deliver (with_rmtree_fails b w)) with (deliver w).
  change (report (with_rmtree_fails b w)) with (report w).
  unfold try_except_finally.
  destruct (deliver w url (mkdtemp_name w (files s)) choice (at_try w choice s))
    as [[st|e|] s1]; [| destruct (report w e s1) as [o2 s2] |];
    repeat split; reflexivity.
Qed.

(** C1. Every run of [handle_format_choice] with a stored URL — whether
    it ends by returning after the send, by returning after an exception of
    the download or of any later step, by the failure of the error reply
    itself, or by being cancelled — issues [rmtree] on the directory it
    made as its last call; when the removal works neither the directory nor
    anything below it is left; and whether the removal works or fails
    changes neither the result of the handler nor the calls it issues nor
    [user_data]. *)
Theorem cleanup_on_every_path (w : world) (s : env) (choice url : string)
    (r : outcome state) (s' : env) :
  user_data s !! "url" = Some url ->
  url <> "" ->
  handle_format_choice w (CallbackQuery choice) s = (r, s') ->
  let d := mkdtemp_name w (files s) in
  (exists steps,
     issued s s' =
     ([Answer; EditMessageText (downloading choice); Mkdtemp d]
      ++ steps ++ [Rmtree d])%list)
  /\ (rmtree_fails w = false -> forall p, p ∈ files s' -> inside d p = false)
  /\ (rmtree_fails w = false -> d ∉ files s')
  /\ (forall b,
        let out := handle_format_choice (with_rmtree_fails b w)
                     (CallbackQuery choice) s in
        fst out = r
        /\ trace (snd out) = trace s'
        /\ user_data (snd out) = user_data s')
  /\ (r = Returns ASK_LINK \/ r = Cancelled \/ exists e, r = Raises e).
Proof.
  intros Hurl Hne Hrun d.
  assert (Hind : forall b,
    let out := handle_format_choice (with_rmtree_fails b w)
                 (CallbackQuery choice) s in
    fst out = r /\ trace (snd out) = trace s' /\ user_data (snd out) = user_data s').
  { intros b. pose proof (with_rmtree_fails_run b w s choice url Hurl Hne) as H.
    cbn zeta in H |- *. rewrite Hrun in H. exact H. }
  destruct (handle_shape w s choice url r s' Hurl Hne Hrun)
    as (tail & _ & Hs' & Hr). fold d in Hs'.
  destruct (deliver w url d choice (at_try w choice s)) as [o s1] eqn:B.
  destruct (tidy_deliver _ _ _ _ _ _ _ B) as [_ [l Hl]].
  cbn [snd] in Hs'. subst s'. cbn [files trace].
  split.
  { exists (l ++ tail)%list. apply issued_app. cbn [trace]. rewrite Hl.
    unfold at_try. cbn [trace]. fold d. rewrite <- !app_assoc. reflexivity. }
  split; [intros Hrm p; apply swept_gone; exact Hrm |].
  split.
  { intros Hrm Hin. apply (swept_gone _ _ _ _ Hrm) in Hin.
    rewrite inside_self in Hin. discriminate Hin. }
  split; [exact Hind | exact Hr].
Qed.

Lemma cleanup_on_every_path_witness :
  (let out := handle_format_choice sunny (CallbackQuery "video")
                (with_url "https://example.com/v") in
   fst out = Returns ASK_LINK
   /\ ("/tmp/tmpq1w2e3" ∉ files (snd out))
   /\ last (trace (snd out)) = Some (Rmtree "/tmp/tmpq1w2e3"))
  /\ (let out := handle_format_choice interrupted (CallbackQuery "video")
                   (with_url "https://example.com/v") in
      fst out = Cancelled
      /\ last (trace (snd out)) = Some (Rmtree "/tmp/tmpq1w2e3")
      /\ fst (handle_format_choice (with_rmtree_fails false interrupted)
                (CallbackQuery "video") (with_url "https://example.com/v"))
         = Cancelled)
  /\ (let out := handle_format_choice blocked (CallbackQuery "video")
                   (with_url "https://example.com/v") in
      fst out = Raises (Exn "Forbidden" "Forbidden: bot was blocked by the user")
      /\ ("/tmp/tmpq1w2e3" ∉ files (snd out))
      /\ last (trace (snd out)) = Some (Rmtree "/tmp/tmpq1w2e3")).
Proof.
  split; [| split].
  - pose proof (cleanup_on_every_path sunny (with_url "https://example.com/v")
      "video" "https://example.com/v" (Returns ASK_LINK)
      (snd (handle_format_choice sunny (CallbackQuery "video")
              (with_url "https://example.com/v")))
      eq_refl ltac:(discriminate) ltac:(vm_compute; reflexivity)) as (_ & _ & H & _).
    split; [vm_compute; reflexivity |]. split; [exact (H eq_refl) | vm_compute; reflexivity].
  - pose proof (cleanup_on_every_path interrupted (with_url "https://example.com/v")
      "video" "https://example.com/v" Cancelled
      (snd (handle_format_choice interrupted (CallbackQuery "video")
              (with_url "https://example.com/v")))
      eq_refl ltac:(discriminate) ltac:(vm_compute; reflexivity)) as (_ & _ & _ & H & _).
    split; [vm_compute; reflexivity |]. split; [vm_compute; reflexivity |].
    exact (proj1 (H false)).
  - pose proof (cleanup_on_every_path blocked (with_url "https://example.com/v")
      "video" "https://example.com/v"
      (Raises (Exn "Forbidden" "Forbidden: bot was blocked by the user"))
      (snd (handle_format_choice blocked (CallbackQuery "video")
              (with_url "https://example.com/v")))
      eq_refl ltac:(discriminate) ltac:(vm_compute; reflexivity)) as (_ & _ & H & _).
    split; [vm_compute; reflexivity |]. split; [exact (H eq_refl) | vm_compute; reflexivity].
Defined.

(** ** The countdown *)

Lemma play_trace (w : world) (l : list action) (s : env) :
  exists n, (n <= length l)%nat
    /\ snd (play w l s) = add_calls (take n l) s
    /\ (fst (play w l s) = Returns tt -> n = length l).
Proof.
  revert s. induction l as [|a l IH]; intros s.
  - exists 0%nat. cbn. unfold add_calls. rewrite app_nil_r.
    destruct s; repeat split; reflexivity || lia.
  - cbn [play]. rewrite guarded_bind.
    destruct (fault w (trace s) a) as [[]|e|].
    + destruct (IH (record a s)) as (n & Hn & Hs & Hr).
      exists (S n). split; [cbn; lia |]. split.
      * rewrite Hs. unfold add_calls, record. cbn [user_data files trace take].
        rewrite <- app_assoc. reflexivity.
      * intros H. cbn. f_equal. exact (Hr H).
    + exists 1%nat. split; [cbn; lia |]. split; [reflexivity | discriminate].
    + exists 1%nat. split; [cbn; lia |]. split; [reflexivity | discriminate].
Qed.

Lemma play_calm (w : world) (l : list action) (s : env) :
  (forall h a, fault w h a = Returns tt) ->
  play w l s = (Returns tt, add_calls l s).
Proof.
  intros Hw. revert s. induction l as [|a l IH]; intros s.
  - cbn. unfold add_calls. rewrite app_nil_r. destruct s; reflexivity.
  - cbn [play]. rewrite guarded_bind, Hw, IH.
    unfold add_calls, record. cbn [user_data files trace].
    rewrite <- app_assoc. reflexivity.
Qed.

Lemma for_each_play {A} (w : world) (f g : A -> action) (l : list A) (s : env) :
  for_each l (fun x => (guarded w (f x) ;; guarded w (g x))) s
  = play w (flat_map (fun x => [f x; g x]) l) s.
Proof.
  revert s. induction l as [|x l IH]; intros s; [reflexivity |].
  cbn [for_each flat_map app play].
  rewrite bind_assoc, !guarded_bind.
  destruct (fault w (trace s) (f x)) as [[]|e|]; try reflexivity.
  destruct (fault w (trace (record (f x) s)) (g x)) as [[]|e|]; try reflexivity.
  apply IH.
Qed.

Lemma countdown_play (w : world) (choice : string) (s : env) :
  countdown w choice s = play w (ticks choice) s.
Proof.
  unfold countdown, ticks.
  apply (for_each_play w (fun sec => EditText (sending choice sec))
                         (fun _ => Sleep 1)).
Qed.

(** The five edits, in order, with their texts. *)
Lemma ticks_texts (choice : string) :
  ticks choice =
  [ EditText ("🚀 Sending your " +:+ choice +:+ " in 5 seconds…"); Sleep 1;
    EditText ("🚀 Sending your " +:+ choice +:+ " in 4 seconds…"); Sleep 1;
    EditText ("🚀 Sending your " +:+ choice +:+ " in 3 seconds…"); Sleep 1;
    EditText ("🚀 Sending your " +:+ choice +:+ " in 2 seconds…"); Sleep 1;
    EditText ("🚀 Sending your " +:+ choice +:+ " in 1 second…"); Sleep 1 ].
Proof.
  unfold ticks. cbn [PyStr.range flat_map app]. reflexivity.
Qed.

(** After a download that returned [path], the rest of the [try] block. *)
Lemma deliver_after_fetch (w : world) (url d choice path : string)
    (s : env) (fs1 : gset string) :
  download_media (ydl w) url d choice (files s) = (Returns path, fs1) ->
  deliver w url d choice s =
  (countdown w choice ≫= fun _ =>
   open w path ≫= fun _ =>
   guarded w (send_media choice path) ≫= fun _ =>
   guarded w (ReplyText done_text None) ≫= fun _ =>
   mret ASK_LINK)
    {| user_data := user_data s; files := fs1;
       trace := trace s ++ [RunInExecutor url d choice] |}.
Proof.
  intros Hdl. unfold deliver. unfold mbind at 1. unfold M_bind at 1.
  unfold run_in_executor. rewrite Hdl. unfold send_media.
  destruct (String.eqb choice "video"); reflexivity.
Qed.

Lemma ticks_length (choice : string) : length (ticks choice) = 10%nat.
Proof. reflexivity. Qed.

(** The calls of the [try] block are an initial part of its script. *)
Lemma deliver_script (w : world) (url d choice path : string)
    (s : env) (fs1 : gset string) :
  download_media (ydl w) url d choice (files s) = (Returns path, fs1) ->
  exists n, (1 <= n <= 14)%nat
    /\ snd (deliver w url d choice s) =
       {| user_data := user_data s; files := fs1;
          trace := trace s ++ take n (script url d choice path) |}.
Proof.
  intros Hdl. rewrite (deliver_after_fetch _ _ _ _ _ _ _ Hdl).
  set (s1 := {| user_data := user_data s; files := fs1;
                trace := trace s ++ [RunInExecutor url d choice] |}).
  unfold mbind at 1. unfold M_bind at 1. rewrite countdown_play.
  destruct (play_trace w (ticks choice) s1) as (n & Hn & Hs & Hr).
  rewrite ticks_length in Hn, Hr.
  assert (Hearly : (n <= 10)%nat ->
    add_calls (take n (ticks choice)) s1 =
    {| user_data := user_data s; files := fs1;
       trace := trace s ++ take (S n) (script url d choice path) |}).
  { intros Hle. unfold add_calls, s1, script. cbn [user_data files trace take].
    rewrite take_app_le by (rewrite ticks_length; exact Hle).
    rewrite <- app_assoc. reflexivity. }
  destruct (play w (ticks choice) s1) as [[[]|e|] s2]; cbn [fst snd] in Hs, Hr.
  - specialize (Hr eq_refl). subst n s2.
    rewrite take_ge by (rewrite ticks_length; lia).
    unfold add_calls, s1. cbn [user_data files trace].
    rewrite open_bind. cbn [files].
    destruct (bool_decide (path ∈ fs1)).
    + rewrite guarded_bind. cbn [trace].
      destruct (fault w _ (Open path)) as [[]|e|];
        [| exists 12%nat; split; [lia |]; unfold record, script;
           cbn [fst snd user_data files trace];
           f_equal; rewrite <- !app_assoc; reflexivity ..].
      rewrite guarded_bind.
      destruct (fault w _ (send_media choice path)) as [[]|e|];
        [| exists 13%nat; split; [lia |]; unfold record, script;
           cbn [fst snd user_data files trace];
           f_equal; rewrite <- !app_assoc; reflexivity ..].
      rewrite guarded_bind.
      destruct (fault w _ (ReplyText done_text None)) as [[]|e|];
        exists 14%nat; (split; [lia |]); unfold record, script;
        cbn [fst snd user_data files trace mret M_ret];
        f_equal; rewrite <- !app_assoc; reflexivity.
    + exists 12%nat. split; [lia |]. unfold record, script.
      cbn [fst snd user_data files trace].
      f_equal. rewrite <- !app_assoc. reflexivity.
  - exists (S n). split; [lia |]. subst s2. cbn [snd]. apply Hearly. exact Hn.
  - exists (S n). split; [lia |]. subst s2. cbn [snd]. apply Hearly. exact Hn.
Qed.

Lemma is_media_send (choice path : string) : is_media (send_media choice path) = true.
Proof. unfold send_media. destruct (String.eqb choice "video"); reflexivity. Qed.

Lemma is_edit_send (choice path : string) : is_edit (send_media choice path) = false.
Proof. unfold send_media. destruct (String.eqb choice "video"); reflexivity. Qed.

(** A media attachment among the calls of the [try] statement is the one
    of the script, and the script was played up to it. *)
Lemma media_in_script (url d choice path : string) (n : nat)
    (tail : list action) (m : action) :
  (n <= 14)%nat ->
  (forall a, a ∈ tail -> is_media a = false) ->
  m ∈ (take n (script url d choice path) ++ tail ++ [Rmtree d])%list ->
  is_media m = true ->
  m = send_media choice path
  /\ exists k, take n (script url d choice path)
       = ((RunInExecutor url d choice :: ticks choice ++ [Open path; m])
          ++ take k [ReplyText done_text None])%list.
Proof.
  intros Hn Htail Hm Hmedia.
  rewrite !elem_of_app in Hm. destruct Hm as [Hm | [Hm | Hm]].
  - do 13 (destruct n as [|n];
           [ cbn in Hm;
             repeat (apply elem_of_cons in Hm as [-> | Hm]; [discriminate Hmedia |]);
             inversion Hm | ]).
    destruct n as [|n]; [| destruct n as [|n]; [| lia]].
    + cbn in Hm.
      repeat (apply elem_of_cons in Hm as [-> | Hm];
              [first [discriminate Hmedia | idtac] |]); [| inversion Hm].
      split; [reflexivity |]. exists 0%nat. reflexivity.
    + cbn in Hm.
      repeat (apply elem_of_cons in Hm as [-> | Hm];
              [first [discriminate Hmedia | idtac] |]); [| inversion Hm].
      split; [reflexivity |]. exists 1%nat. reflexivity.
  - rewrite (Htail _ Hm) in Hmedia. discriminate Hmedia.
  - apply list_elem_of_singleton in Hm. subst m. discriminate Hmedia.
Qed.

(** The calls of a run whose download returned [path]: the three calls
    before the [try], an initial part of the script, the report when an
    exception was caught, and the removal. *)
Lemma handle_script (w : world) (s : env) (choice url path : string)
    (fs1 : gset string) (r : outcome state) (s' : env) :
  user_data s !! "url" = Some url ->
  url <> "" ->
  download_media (ydl w) url (mkdtemp_name w (files s)) choice
    ({[ mkdtemp_name w (files s) ]} ∪ files s) = (Returns path, fs1) ->
  handle_format_choice w (CallbackQuery choice) s = (r, s') ->
  let d := mkdtemp_name w (files s) in
  exists n tail,
    (1 <= n <= 14)%nat
    /\ (tail = [] \/ exists e, tail = [LogException "Download error" e;
                                      ReplyText (download_error e) None])
    /\ issued s s' =
       ([Answer; EditMessageText (downloading choice); Mkdtemp d]
        ++ take n (script url d choice path) ++ tail ++ [Rmtree d])%list.
Proof.
  intros Hurl Hne Hdl Hrun d. fold d in Hdl.
  destruct (deliver_script w url d choice path (at_try w choice s) fs1 Hdl)
    as (n & Hn & Hsnd).
  destruct (handle_shape w s choice url r s' Hurl Hne Hrun)
    as (tail & Htail & Hs' & _). fold d in Hs'.
  exists n, tail. split; [exact Hn |]. split; [exact Htail |].
  apply issued_app. rewrite Hs', Hsnd.
  unfold at_try. cbn [trace]. fold d. rewrite <- !app_assoc. reflexivity.
Qed.

(** A run in which no call fails and the file is there. *)
Lemma handle_calm (w : world) (s : env) (choice url path : string)
    (fs1 : gset string) :
  user_data s !! "url" = Some url ->
  url <> "" ->
  download_media (ydl w) url (mkdtemp_name w (files s)) choice
    ({[ mkdtemp_name w (files s) ]} ∪ files s) = (Returns path, fs1) ->
  (forall h a, fault w h a = Returns tt) ->
  path ∈ fs1 ->
  let d := mkdtemp_name w (files s) in
  handle_format_choice w (CallbackQuery choice) s =
  (Returns ASK_LINK,
   {| user_data := user_data s;
      files := swept w d fs1;
      trace := trace s ++ [Answer; EditMessageText (downloading choice); Mkdtemp d]
               ++ script url d choice path ++ [Rmtree d] |}).
Proof.
  intros Hurl Hne Hdl Hcalm Hin d.
  rewrite (handle_with_url _ _ _ _ Hurl Hne). fold d. fold d in Hdl.
  unfold try_except_finally.
  rewrite (deliver_after_fetch w url d choice path (at_try w choice s) fs1 Hdl).
  unfold mbind at 1. unfold M_bind at 1.
  rewrite countdown_play, (play_calm _ _ _ Hcalm).
  rewrite open_bind. unfold add_calls at 1. cbn [files].
  rewrite (bool_decide_eq_true_2 _ Hin).
  repeat (rewrite guarded_bind, Hcalm; cbv beta iota).
  unfold rmtree, record, add_calls, at_try, script, swept, mret, M_ret.
  cbn [user_data files trace]. fold d.
  f_equal. f_equal. rewrite <- !app_assoc. reflexivity.
Qed.

(** C5. After a download that returned [path]: when a media attachment
    is among the calls of the handler, it is the attachment for [path], and
    the calls between the download and the opening of the file are exactly
    the five edits "🚀 Sending your <choice> in <n> second(s)…" for
    n = 5, 4, 3, 2, 1, with "seconds" for 5 to 2 and "second" for 1, each
    followed by a pause of one second; no other edit and no other
    attachment follows. When no call fails and the file is there, the
    whole sequence is issued and the handler returns [ASK_LINK]. *)
Theorem countdown_before_media (w : world) (s : env) (choice url path : string)
    (fs1 : gset string) (r : outcome state) (s' : env) :
  user_data s !! "url" = Some url ->
  url <> "" ->
  download_media (ydl w) url (mkdtemp_name w (files s)) choice
    ({[ mkdtemp_name w (files s) ]} ∪ files s) = (Returns path, fs1) ->
  handle_format_choice w (CallbackQuery choice) s = (r, s') ->
  let d := mkdtemp_name w (files s) in
  let before :=
    [ Answer; EditMessageText (downloading choice); Mkdtemp d;
      RunInExecutor url d choice;
      EditText ("🚀 Sending your " +:+ choice +:+ " in 5 seconds…"); Sleep 1;
      EditText ("🚀 Sending your " +:+ choice +:+ " in 4 seconds…"); Sleep 1;
      EditText ("🚀 Sending your " +:+ choice +:+ " in 3 seconds…"); Sleep 1;
      EditText ("🚀 Sending your " +:+ choice +:+ " in 2 seconds…"); Sleep 1;
      EditText ("🚀 Sending your " +:+ choice +:+ " in 1 second…"); Sleep 1;
      Open path ] in
  (forall m, m ∈ issued s s' -> is_media m = true ->
     m = send_media choice path
     /\ exists rest,
          issued s s' = (before ++ m :: rest)%list
          /\ forall a, a ∈ rest -> is_edit a = false /\ is_media a = false)
  /\ ((forall h a, fault w h a = Returns tt) -> path ∈ fs1 ->
      r = Returns ASK_LINK
      /\ issued s s' =
         (before ++ [send_media choice path; ReplyText done_text None; Rmtree d])%list).
Proof.
  intros Hurl Hne Hdl Hrun d before. split.
  - intros m Hm Hmedia.
    destruct (handle_script w s choice url path fs1 r s' Hurl Hne Hdl Hrun)
      as (n & tail & Hn & Htail & Hiss). fold d in Hiss.
    assert (Hquiet : forall a, a ∈ (tail ++ [Rmtree d])%list ->
              is_edit a = false /\ is_media a = false).
    { intros a Ha. apply elem_of_app in Ha as [Ha | Ha].
      - destruct Htail as [-> | [e ->]]; [inversion Ha |].
        repeat (apply elem_of_cons in Ha as [-> | Ha]; [split; reflexivity |]).
        inversion Ha.
      - apply list_elem_of_singleton in Ha. subst a. split; reflexivity. }
    rewrite Hiss in Hm. apply elem_of_app in Hm as [Hm | Hm].
    { repeat (apply elem_of_cons in Hm as [-> | Hm]; [discriminate Hmedia |]).
      inversion Hm. }
    destruct (media_in_script url d choice path n tail m) as (-> & k & Hk);
      [lia | | exact Hm | exact Hmedia |].
    { intros a Ha. apply (Hquiet a). apply elem_of_app. left. exact Ha. }
    split; [reflexivity |].
    exists (take k [ReplyText done_text None] ++ tail ++ [Rmtree d])%list.
    split.
    + rewrite Hiss, Hk. subst before. rewrite ticks_texts.
      cbn [app]. rewrite <- ?app_assoc. reflexivity.
    + intros a Ha. apply elem_of_app in Ha as [Ha | Ha]; [| exact (Hquiet a Ha)].
      apply subseteq_take in Ha. apply list_elem_of_singleton in Ha. subst a.
      split; reflexivity.
  - intros Hcalm Hin.
    rewrite (handle_calm w s choice url path fs1 Hurl Hne Hdl Hcalm Hin) in Hrun.
    injection Hrun as <- <-. split; [reflexivity |].
    apply issued_app. cbn [trace]. fold d. subst before. reflexivity.
Qed.

Lemma countdown_before_media_witness :
  let out := handle_format_choice sunny (CallbackQuery "audio")
               (with_url "https://example.com/a") in
  fst out = Returns ASK_LINK
  /\ issued (with_url "https://example.com/a") (snd out) =
     [ Answer; EditMessageText "🔄 Downloading your audio…";
       Mkdtemp "/tmp/tmpq1w2e3";
       RunInExecutor "https://example.com/a" "/tmp/tmpq1w2e3" "audio";
       EditText "🚀 Sending your audio in 5 seconds…"; Sleep 1;
       EditText "🚀 Sending your audio in 4 seconds…"; Sleep 1;
       EditText "🚀 Sending your audio in 3 seconds…"; Sleep 1;
       EditText "🚀 Sending your audio in 2 seconds…"; Sleep 1;
       EditText "🚀 Sending your audio in 1 second…"; Sleep 1;
       Open "/tmp/tmpq1w2e3/clip.mp3";
       ReplyAudio "/tmp/tmpq1w2e3/clip.mp3";
       ReplyText "✅ Done! Send me another link (or /cancel to stop)." None;
       Rmtree "/tmp/tmpq1w2e3" ].
Proof.
  pose proof (countdown_before_media sunny (with_url "https://example.com/a")
    "audio" "https://example.com/a" "/tmp/tmpq1w2e3/clip.mp3"
    ({[ "/tmp/tmpq1w2e3/clip.mp3" ]} ∪ ({[ "/tmp/tmpq1w2e3" ]} ∪ ∅))
    (Returns ASK_LINK)
    (snd (handle_format_choice sunny (CallbackQuery "audio")
            (with_url "https://example.com/a")))
    eq_refl ltac:(discriminate) ltac:(vm_compute; reflexivity)
    ltac:(vm_compute; reflexivity)) as [_ H].
  cbn zeta. split; [vm_compute; reflexivity |].
  refine (proj2 (H (fun _ _ => eq_refl) _)).
  vm_compute. reflexivity.
Defined.

(** ** What [handle_format_choice] leaves alone *)

Lemma tidy_raise {A} (e : exn) : tidy (@raise A e).
Proof.
  intros s r s' H. injection H as <- <-. split; [reflexivity |].
  exists []. symmetry. apply app_nil_r.
Qed.

Lemma tidy_user_data_get (k : string) : tidy (user_data_get k).
Proof.
  intros s r s' H. injection H as <- <-. split; [reflexivity |].
  exists []. symmetry. apply app_nil_r.
Qed.

Lemma tidy_mkdtemp (w : world) : tidy (mkdtemp w).
Proof.
  intros s r s' H. injection H as <- <-. split; [reflexivity |].
  exists [Mkdtemp (mkdtemp_name w (files s))]. reflexivity.
Qed.

Lemma tidy_rmtree (w : world) (d : string) : tidy (rmtree w d).
Proof.
  intros s r s' H. injection H as <- <-. split; [reflexivity |].
  exists [Rmtree d]. reflexivity.
Qed.

Lemma tidy_report (w : world) (e : exn) : tidy (report w e).
Proof.
  unfold report.
  apply tidy_bind; [apply tidy_emit | intros _].
  apply tidy_bind; [apply tidy_guarded | intros _; apply tidy_mret].
Qed.

Lemma tidy_try {A} (body : M A) (handler : exn -> M A) (final : M unit) :
  tidy body -> (forall e, tidy (handler e)) -> tidy final ->
  tidy (try_except_finally body handler final).
Proof.
  intros Hb Hh Hf s r s' H. unfold try_except_finally in H.
  destruct (body s) as [o s1] eqn:B. destruct (Hb _ _ _ B) as [U1 [l1 L1]].
  assert (Hmid : forall (o2 : outcome A) s2,
    user_data s2 = user_data s ->
    (exists l, trace s2 = (trace s ++ l)%list) ->
    match final s2 with
    | (Returns _, s3) => (o2, s3)
    | (Raises e, s3) => (Raises e, s3)
    | (Cancelled, s3) => (Cancelled, s3)
    end = (r, s') ->
    user_data s' = user_data s /\ exists l, trace s' = (trace s ++ l)%list).
  { intros o2 s2 U2 [l2 L2] E. destruct (final s2) as [o3 s3] eqn:F.
    destruct (Hf _ _ _ F) as [U3 [l3 L3]].
    assert (s3 = s') as <- by (destruct o3; injection E; auto).
    split; [congruence |]. exists (l2 ++ l3)%list.
    rewrite L3, L2. symmetry. apply app_assoc. }
  destruct o as [a|e|].
  - apply (Hmid (Returns a) s1 U1); [exists l1; exact L1 | exact H].
  - destruct (handler e s1) as [o2 s2] eqn:Hd.
    destruct (Hh e _ _ _ Hd) as [U2 [l2 L2]].
    apply (Hmid o2 s2); [congruence | | exact H].
    exists (l1 ++ l2)%list. rewrite L2, L1. symmetry. apply app_assoc.
  - apply (Hmid Cancelled s1 U1); [exists l1; exact L1 | exact H].
Qed.

(** [handle_format_choice] never writes [user_data]. *)
Lemma tidy_handle_format_choice (w : world) (u : update) :
  tidy (handle_format_choice w u).
Proof.
  unfold handle_format_choice. destruct u; try apply tidy_raise.
  apply tidy_bind; [apply tidy_emit | intros _].
  apply tidy_bind; [apply tidy_user_data_get | intros url].
  destruct (falsy url).
  - apply tidy_bind; [apply tidy_emit | intros _; apply tidy_mret].
  - apply tidy_bind; [apply tidy_emit | intros _].
    apply tidy_bind; [apply tidy_mkdtemp | intros d].
    apply tidy_try; [apply tidy_deliver | apply tidy_report | apply tidy_rmtree].
Qed.

(** ** The dispatch of [main]'s conversation handler *)

Lemma session_eta (ss : session) :
  {| current := current ss; context := context ss |} = ss.
Proof. destruct ss; reflexivity. Qed.

(** A command while a conversation runs: /start restarts it, /cancel ends
    it, every other command is answered by [start]; the case of the
    letters does not count. *)
Lemma step_command (w : world) (ss : session) (name : string) :
  current ss <> END ->
  step w ss (Command name) =
  if String.eqb (PyStr.lower name) "start"
  then {| current := ASK_LINK;
          context := record (ReplyText greeting None) (context ss) |}
  else if String.eqb (PyStr.lower name) "cancel"
  then {| current := END;
          context := record (ReplyText cancelled_text None) (context ss) |}
  else {| current := ASK_LINK;
          context := record (ReplyText greeting None) (context ss) |}.
Proof.
  intros Hst. unfold step, select, first_match.
  destruct (current ss); [| | congruence];
    cbn [conv entry_points states fallbacks allow_reentry negb orb find
         check_update command_matches filter_matches
         fmap option_fmap option_map handler_callback];
    change (PyStr.lower "start") with "start";
    change (PyStr.lower "cancel") with "cancel";
    (destruct (String.eqb (PyStr.lower name) "start"); [reflexivity |]);
    destruct (String.eqb (PyStr.lower name) "cancel"); reflexivity.
Qed.

Lemma step_running_command (w : world) (ss : session) (name : string) :
  current ss <> END ->
  step w ss (Command name) =
  if String.eqb (PyStr.lower name) "start" then restarted ss
  else if String.eqb (PyStr.lower name) "cancel" then ended ss
  else restarted ss.
Proof. apply step_command. Qed.

(** An edited message has no [update.message]: the handler it is given to
    raises before its first call. *)
Lemma run_edited (w : world) (cb : callback) (m : message) (s : env) :
  run w cb (EditedMessage m) s =
  (Raises (no_attribute match cb with
                        | cb_start | cb_cancel => "reply_text"
                        | cb_ask_format => "text"
                        | cb_handle_format_choice => "answer"
                        end), s).
Proof. destruct cb; reflexivity. Qed.

Lemma step_edited (w : world) (ss : session) (m : message) :
  step w ss (EditedMessage m) = ss.
Proof.
  unfold step.
  destruct (select conv (current ss) (EditedMessage m)) as [cb|]; [| reflexivity].
  rewrite run_edited. apply session_eta.
Qed.

Lemma step_channel (w : world) (ss : session) (m : message) :
  step w ss (ChannelPost m) = ss.
Proof. reflexivity. Qed.

Lemma step_idle (w : world) (ss : session) (u : update) :
  current ss = END ->
  step w ss u =
  match u with
  | NewMessage (Command name) =>
      if String.eqb (PyStr.lower name) "start" then restarted ss else ss
  | _ => ss
  end.
Proof.
  intros Hst.
  destruct u as [[name | text |] | m | m | data];
    [| | | apply step_edited | reflexivity |];
    unfold step, select, first_match; rewrite Hst; try reflexivity.
  cbn [conv entry_points states fallbacks allow_reentry negb orb find
       check_update command_matches filter_matches
       fmap option_fmap option_map handler_callback].
  change (PyStr.lower "start") with "start".
  destruct (String.eqb (PyStr.lower name) "start"); reflexivity.
Qed.

Lemma step_media (w : world) (ss : session) :
  current ss <> END -> step w ss Media = restarted ss.
Proof.
  intros Hst. unfold step, select, first_match.
  destruct (current ss); [reflexivity | reflexivity | congruence].
Qed.

Lemma step_text_in_format (w : world) (ss : session) (text : string) :
  current ss = ASK_FORMAT -> step w ss (Text text) = restarted ss.
Proof.
  intros Hst. unfold step, select, first_match. rewrite Hst. reflexivity.
Qed.

Lemma step_button_elsewhere (w : world) (ss : session) (data : string) :
  current ss <> ASK_FORMAT -> step w ss (CallbackQuery data) = ss.
Proof.
  intros Hst. unfold step, select, first_match.
  destruct (current ss); [reflexivity | congruence | reflexivity].
Qed.

Lemma step_format_user_data (w : world) (ss : session) (data : string) :
  current ss = ASK_FORMAT ->
  user_data (context (step w ss (CallbackQuery data))) = user_data (context ss).
Proof.
  intros Hst. rewrite (step_format _ _ _ Hst).
  destruct (handle_format_choice w (CallbackQuery data) (context ss))
    as [o s'] eqn:E.
  destruct (tidy_handle_format_choice _ _ _ _ _ E) as [U _].
  destruct o; exact U.
Qed.

(** What a step writes: nothing, or — for a text message in [ASK_LINK]
    whose stripped form has an accepted scheme — that stripped text under
    ['url']; and the disk is left alone by every step but a button press in
    [ASK_FORMAT]. *)
Lemma step_writes (w : world) (ss : session) (u : update) :
  (user_data (context (step w ss u)) = user_data (context ss)
   /\ (files (context (step w ss u)) = files (context ss)
       \/ exists data, u = CallbackQuery data /\ current ss = ASK_FORMAT))
  \/ (files (context (step w ss u)) = files (context ss)
      /\ exists text,
        u = Text text /\ current ss = ASK_LINK
        /\ has_scheme (PyStr.strip text) = true
        /\ current (step w ss u) = ASK_FORMAT
        /\ user_data (context (step w ss u))
           = <["url" := PyStr.strip text]> (user_data (context ss))).
Proof.
  assert (Hcmd : forall name, current ss <> END ->
            user_data (context (step w ss (Command name))) = user_data (context ss)
            /\ files (context (step w ss (Command name))) = files (context ss)).
  { intros name Hst. rewrite (step_running_command _ _ _ Hst).
    destruct (String.eqb (PyStr.lower name) "start"); [split; reflexivity |].
    destruct (String.eqb (PyStr.lower name) "cancel"); split; reflexivity. }
  destruct u as [m | m | m | data].
  - destruct (current ss) eqn:Hst.
    + (* ASK_LINK *)
      destruct m as [name | text |].
      * left. destruct (Hcmd name) as [U F]; [discriminate |]. auto.
      * rewrite (step_text _ _ _ Hst).
        destruct (has_scheme (PyStr.strip text)) eqn:E.
        -- right. split; [reflexivity |]. exists text. auto.
        -- left. split; [reflexivity | left; reflexivity].
      * left. rewrite step_media by (rewrite Hst; discriminate).
        split; [reflexivity | left; reflexivity].
    + (* ASK_FORMAT *)
      left. destruct m as [name | text |].
      * destruct (Hcmd name) as [U F]; [discriminate |]. auto.
      * rewrite (step_text_in_format _ _ _ Hst).
        split; [reflexivity | left; reflexivity].
      * rewrite step_media by (rewrite Hst; discriminate).
        split; [reflexivity | left; reflexivity].
    + (* no conversation *)
      left. rewrite (step_idle _ _ _ Hst).
      destruct m as [name | text |];
        try (split; [reflexivity | left; reflexivity]).
      destruct (String.eqb (PyStr.lower name) "start");
        split; try reflexivity; left; reflexivity.
  - left. rewrite step_edited. split; [reflexivity | left; reflexivity].
  - left. rewrite step_channel. split; [reflexivity | left; reflexivity].
  - left. destruct (current ss) eqn:Hst.
    + rewrite step_button_elsewhere by (rewrite Hst; discriminate).
      split; [reflexivity | left; reflexivity].
    + split; [apply step_format_user_data; exact Hst |].
      right. exists data. split; reflexivity.
    + rewrite step_button_elsewhere by (rewrite Hst; discriminate).
      split; [reflexivity | left; reflexivity].
Qed.

(** ** The stored URL once the flow is over *)

(** A format is awaited after a step from another state only when the
    step was a text message in [ASK_LINK] with an accepted scheme, whose
    stripped text is then the stored URL. *)
Lemma step_enters_format (w : world) (ss : session) (u : update) :
  current ss <> ASK_FORMAT ->
  current (step w ss u) = ASK_FORMAT ->
  exists text,
    u = Text text
    /\ current ss = ASK_LINK
    /\ has_scheme (PyStr.strip text) = true
    /\ user_data (context (step w ss u)) !! "url" = Some (PyStr.strip text).
Proof.
  intros Hne Hin.
  destruct (current ss) eqn:Hst; [| congruence |].
  - (* ASK_LINK *)
    destruct u as [[name | text |] | m | m | data].
    + exfalso. revert Hin.
      rewrite (step_command w ss name) by (rewrite Hst; discriminate).
      destruct (String.eqb (PyStr.lower name) "start"); [discriminate |].
      destruct (String.eqb (PyStr.lower name) "cancel"); discriminate.
    + exists text. split; [reflexivity |]. split; [reflexivity |].
      rewrite (step_text _ _ _ Hst) in Hin |- *.
      destruct (has_scheme (PyStr.strip text)) eqn:E.
      * split; [reflexivity |]. apply lookup_insert_eq.
      * cbn in Hin. congruence.
    + exfalso. rewrite step_media in Hin by (rewrite Hst; discriminate).
      discriminate Hin.
    + exfalso. rewrite step_edited in Hin. congruence.
    + exfalso. rewrite step_channel in Hin. congruence.
    + exfalso. rewrite step_button_elsewhere in Hin by (rewrite Hst; discriminate).
      congruence.
  - (* no conversation *)
    exfalso. rewrite (step_idle _ _ _ Hst) in Hin.
    destruct u as [[name | text |] | m | m | data]; try congruence.
    destruct (String.eqb (PyStr.lower name) "start"); [discriminate Hin | congruence].
Qed.

Lemma same_but_stale_url_refl (a : session) : same_but_stale_url a a.
Proof. repeat split. Qed.

(** While a format is awaited, the two sessions are one. *)
Lemma same_in_format (a b : session) :
  same_but_stale_url a b -> current a = ASK_FORMAT -> a = b.
Proof.
  intros (Hc & Hf & Ht & Hk & Hu) Hst.
  destruct a as [ca [uda fa ta]], b as [cb [udb fb tb]].
  cbn [current context user_data files trace] in *.
  subst cb fb tb. f_equal. f_equal.
  apply map_eq. intros k.
  destruct (decide (k = "url")) as [-> | Hne]; [apply Hu; exact Hst | apply Hk; exact Hne].
Qed.

(** No step looks at a URL that is stored while no format is awaited. *)
Lemma step_same (w : world) (a b : session) (u : update) :
  same_but_stale_url a b ->
  same_but_stale_url (step w a u) (step w b u).
Proof.
  intros Hab.
  destruct (current a) eqn:Hst.
  - (* ASK_LINK *)
    pose proof Hab as (Hc & Hf & Ht & Hk & _).
    assert (Hstb : current b = ASK_LINK) by congruence.
    assert (Hfresh : forall (x : action) (st : state),
      same_but_stale_url
        {| current := st; context := record x (context a) |}
        {| current := st; context := record x (context b) |}
        \/ st = ASK_FORMAT).
    { intros x st. destruct st; [left | right; reflexivity | left];
        (split; [reflexivity |]); cbn [current context record files trace user_data];
        (split; [exact Hf |]); (split; [rewrite Ht; reflexivity |]);
        (split; [exact Hk | discriminate]). }
    destruct u as [[name | text |] | m | m | data].
    + rewrite !step_running_command by (rewrite ?Hst, ?Hstb; discriminate).
      unfold restarted, ended.
      destruct (String.eqb (PyStr.lower name) "start");
        [| destruct (String.eqb (PyStr.lower name) "cancel")];
        match goal with
        | |- same_but_stale_url {| current := ?st; context := record ?x _ |} _ =>
            destruct (Hfresh x st) as [H | H]; [exact H | discriminate H]
        end.
    + rewrite (step_text _ _ _ Hst), (step_text _ _ _ Hstb).
      destruct (has_scheme (PyStr.strip text)).
      * split; [reflexivity |]. cbn [current context files trace user_data].
        split; [exact Hf |]. split; [rewrite Ht; reflexivity |].
        split.
        -- intros k Hne. rewrite !lookup_insert_ne by congruence. apply Hk, Hne.
        -- intros _. rewrite !lookup_insert_eq. reflexivity.
      * split; [reflexivity |]. cbn [current context files trace user_data].
        split; [exact Hf |]. split; [rewrite Ht; reflexivity |].
        split; [exact Hk | discriminate].
    + rewrite !step_media by (rewrite ?Hst, ?Hstb; discriminate).
      unfold restarted.
      destruct (Hfresh (ReplyText greeting None) ASK_LINK) as [H | H];
        [exact H | discriminate H].
    + rewrite !step_edited. exact Hab.
    + rewrite !step_channel. exact Hab.
    + rewrite !step_button_elsewhere by (rewrite ?Hst, ?Hstb; discriminate).
      exact Hab.
  - (* ASK_FORMAT *)
    rewrite <- (same_in_format a b Hab Hst). apply same_but_stale_url_refl.
  - (* no conversation *)
    pose proof Hab as (Hc & Hf & Ht & Hk & _).
    assert (Hstb : current b = END) by congruence.
    rewrite (step_idle _ _ _ Hst), (step_idle _ _ _ Hstb).
    destruct u as [[name | text |] | m | m | data]; try exact Hab.
    destruct (String.eqb (PyStr.lower name) "start"); [| exact Hab].
    split; [reflexivity |]. cbn [restarted current context record files trace user_data].
    split; [exact Hf |]. split; [rewrite Ht; reflexivity |].
    split; [exact Hk | discriminate].
Qed.

Lemma run_all_same (l : list (world * update)) (a b : session) :
  same_but_stale_url a b ->
  same_but_stale_url (run_all a l) (run_all b l).
Proof.
  revert a b. induction l as [|[w u] l IH]; intros a b Hab; [exact Hab |].
  cbn [run_all fold_left fst snd]. apply IH, step_same, Hab.
Qed.

Lemma forget_url_same (ss : session) :
  current ss <> ASK_FORMAT -> same_but_stale_url ss (forget_url ss).
Proof.
  intros Hst. unfold forget_url. repeat split.
  - intros k Hne. cbn [context user_data]. rewrite lookup_delete_ne by congruence.
    reflexivity.
  - intros H. congruence.
Qed.

Lemma run_all_snoc (ss : session) (l : list (world * update)) (w : world) (u : update) :
  run_all ss (l ++ [(w, u)]) = step w (run_all ss l) u.
Proof. unfold run_all. rewrite fold_left_app. reflexivity. Qed.

(** Along a run from a state in which no format is awaited: whenever a
    format is awaited, an accepted text message was sent in [ASK_LINK],
    and its stripped text is the stored URL. *)
Lemma run_enters_format (l : list (world * update)) (ss : session) :
  current ss <> ASK_FORMAT ->
  current (run_all ss l) = ASK_FORMAT ->
  exists l1 w1 text l2,
    l = (l1 ++ (w1, NewMessage (Text text)) :: l2)%list
    /\ current (run_all ss l1) = ASK_LINK
    /\ has_scheme (PyStr.strip text) = true
    /\ user_data (context (run_all ss l)) !! "url" = Some (PyStr.strip text).
Proof.
  intros Hst. induction l as [|[w u] l IH] using rev_ind; intros Hin.
  - cbn in Hin. congruence.
  - rewrite run_all_snoc in Hin |- *.
    destruct (current (run_all ss l)) eqn:E.
    + destruct (step_enters_format w (run_all ss l) u)
        as (text & -> & Hlink & Hs & Hurl);
        [rewrite E; discriminate | exact Hin |].
      exists l, w, text, []. auto.
    + destruct (IH eq_refl) as (l1 & w1 & text & l2 & -> & H1 & Hs & Hurl).
      exists l1, w1, text, (l2 ++ [(w, u)])%list.
      split; [rewrite <- app_assoc; reflexivity |].
      split; [exact H1 |]. split; [exact Hs |].
      destruct (step_writes w (run_all ss (l1 ++ (w1, NewMessage (Text text)) :: l2)) u)
        as [[U _] | [_ (t & _ & Hlink & _)]].
      * rewrite U. exact Hurl.
      * congruence.
    + destruct (step_enters_format w (run_all ss l) u)
        as (text & -> & Hlink & Hs & Hurl);
        [rewrite E; discriminate | exact Hin |].
      exists l, w, text, []. auto.
Qed.

(** C8. Once the download flow has reported its outcome and the session
    is back in [ASK_LINK], the stored URL is cleared in effect. The value
    itself stays in [user_data] ([handle_format_choice] never writes it),
    but nothing that follows depends on it: along every sequence of
    updates, in whatever worlds, the session goes through the same states,
    issues the same calls and leaves the same disk and the same other user
    data as the session from which ['url'] was deleted, and whenever a
    format is awaited the two hold the same URL. A format is awaited again
    only after a new text message with an accepted scheme was sent in
    [ASK_LINK], and the stored URL is then the stripped text of that
    message. *)
Theorem url_logically_cleared (w : world) (ss : session) (choice : string)
    (l : list (world * update)) :
  current ss = ASK_FORMAT ->
  let ss1 := step w ss (CallbackQuery choice) in
  current ss1 = ASK_LINK ->
  user_data (context ss1) = user_data (context ss)
  /\ same_but_stale_url (run_all ss1 l) (run_all (forget_url ss1) l)
  /\ (current (run_all ss1 l) = ASK_FORMAT ->
      user_data (context (run_all ss1 l))
      = user_data (context (run_all (forget_url ss1) l))
      /\ exists l1 w1 text l2,
           l = (l1 ++ (w1, NewMessage (Text text)) :: l2)%list
           /\ current (run_all ss1 l1) = ASK_LINK
           /\ url_like (PyStr.strip text)
           /\ user_data (context (run_all ss1 l)) !! "url"
              = Some (PyStr.strip text)).
Proof.
  intros Hst ss1 Hback.
  assert (Hne : current ss1 <> ASK_FORMAT) by congruence.
  pose proof (run_all_same l ss1 (forget_url ss1) (forget_url_same ss1 Hne)) as Hsame.
  split; [apply step_format_user_data; exact Hst |].
  split; [exact Hsame |].
  intros Hin. split.
  - rewrite <- (same_in_format _ _ Hsame Hin). reflexivity.
  - destruct (run_enters_format l ss1 Hne Hin) as (l1 & w1 & text & l2 & H1 & H2 & H3 & H4).
    exists l1, w1, text, l2. split; [exact H1 |]. split; [exact H2 |].
    split; [apply has_scheme_spec, H3 | exact H4].
Qed.

Lemma url_logically_cleared_witness :
  let ss1 := step calm mid_format (CallbackQuery "video") in
  let l := [ (calm, NewMessage (Command "help"));
             (sunny, NewMessage (Text " https://example.org/new "));
             (sunny, CallbackQuery "audio") ] in
  current ss1 = ASK_LINK
  /\ user_data (context ss1) !! "url" = Some "https://example.com/v"
  /\ user_data (context (forget_url ss1)) !! "url" = None
  /\ trace (context (run_all ss1 l)) = trace (context (run_all (forget_url ss1) l))
  /\ RunInExecutor "https://example.org/new" "/tmp/tmpq1w2e3" "audio"
       ∈ trace (context (run_all (forget_url ss1) l)).
Proof.
  cbn zeta.
  assert (Hback : current (step calm mid_format (CallbackQuery "video")) = ASK_LINK)
    by (vm_compute; reflexivity).
  destruct (url_logically_cleared calm mid_format "video"
              [ (calm, NewMessage (Command "help"));
                (sunny, NewMessage (Text " https://example.org/new "));
                (sunny, CallbackQuery "audio") ] eq_refl Hback)
    as (Hkeep & (_ & _ & Htrace & _) & _).
  split; [exact Hback |].
  split; [rewrite Hkeep; reflexivity |].
  split; [vm_compute; reflexivity |].
  split; [exact Htrace |].
  apply list_elem_of_In. vm_compute. tauto.
Defined.

(** ** The returned path *)

Lemma slice_join (n : nat) (p : string) :
  PyStr.slice_to n p +:+ PyStr.slice_from n p = p.
Proof.
  revert p. induction n as [|n IH]; intros p; [reflexivity |].
  destruct p as [|c p]; [reflexivity |].
  cbn [PyStr.slice_to PyStr.slice_from].
  change (String c (PyStr.slice_to n p) +:+ PyStr.slice_from n p)
    with (String c (PyStr.slice_to n p +:+ PyStr.slice_from n p)).
  rewrite IH. reflexivity.
Qed.

Lemma app_empty_r (p : string) : p +:+ "" = p.
Proof.
  induction p as [|c p IH]; [reflexivity |].
  change (String c p +:+ "") with (String c (p +:+ "")).
  rewrite IH. reflexivity.
Qed.

(** [root + ext == p] for [root, ext = os.path.splitext(p)]. *)
Lemma splitext_join (p : string) :
  fst (OsPath.splitext p) +:+ snd (OsPath.splitext p) = p.
Proof.
  unfold OsPath.splitext.
  destruct (PyStr.rfind "/" p <? PyStr.rfind "." p).
  - destruct (OsPath.has_stem _); cbn [fst snd].
    + apply slice_join.
    + apply app_empty_r.
  - cbn [fst snd]. apply app_empty_r.
Qed.

(** C9. [download_media] returns the name the tool reports and never
    looks at the disk, so the path it returns need not be the path of a
    file. Here the tool has fetched the two streams of a video and could
    not merge them: it leaves "clip.f137.mp4" and "clip.f140.m4a" and
    reports "clip.mp4". [download_media] returns that name although no file
    of that name exists, against its docstring ("Returns the path to the
    downloaded file"); the handler then fails at [open] and what the user
    is sent is the text of the [FileNotFoundError]. *)
Theorem returned_path_not_on_disk :
  let left_by_tool : gset string :=
    {[ "/tmp/tmpq1w2e3/clip.f137.mp4"; "/tmp/tmpq1w2e3/clip.f140.m4a" ]}
    ∪ {[ "/tmp/tmpq1w2e3" ]} in
  download_media unmerged "https://example.com/v" "/tmp/tmpq1w2e3" "video"
    {[ "/tmp/tmpq1w2e3" ]}
  = (Returns "/tmp/tmpq1w2e3/clip.mp4", left_by_tool)
  /\ ("/tmp/tmpq1w2e3/clip.mp4" ∉ left_by_tool)
  /\ ~ returns_existing_file unmerged "https://example.com/v" "/tmp/tmpq1w2e3"
         "video" {[ "/tmp/tmpq1w2e3" ]}
  /\ (let ss' := step split_streams mid_format (CallbackQuery "video") in
      current ss' = ASK_LINK
      /\ (ReplyText
            "❌ Error during download: [Errno 2] No such file or directory: '/tmp/tmpq1w2e3/clip.mp4'"
            None) ∈ trace (context ss')
      /\ forall a, a ∈ trace (context ss') -> is_media a = false).
Proof.
  cbn zeta.
  assert (E : download_media unmerged "https://example.com/v" "/tmp/tmpq1w2e3"
                "video" {[ "/tmp/tmpq1w2e3" ]}
              = (Returns "/tmp/tmpq1w2e3/clip.mp4",
                 {[ "/tmp/tmpq1w2e3/clip.f137.mp4";
                    "/tmp/tmpq1w2e3/clip.f140.m4a" ]} ∪ {[ "/tmp/tmpq1w2e3" ]}))
    by (vm_compute; reflexivity).
  assert (N : bool_decide
            ("/tmp/tmpq1w2e3/clip.mp4"
               ∈ ({[ "/tmp/tmpq1w2e3/clip.f137.mp4";
                     "/tmp/tmpq1w2e3/clip.f140.m4a" ]} ∪ {[ "/tmp/tmpq1w2e3" ]}
                  : gset string)) = false)
    by (vm_compute; reflexivity).
  apply bool_decide_eq_false in N.
  split; [exact E |]. split; [exact N |]. split.
  - intros H. exact (N (H _ _ E)).
  - split; [vm_compute; reflexivity |]. split.
    + apply list_elem_of_In. vm_compute. tauto.
    + intros a Ha. apply list_elem_of_In in Ha. vm_compute in Ha.
      repeat (destruct Ha as [<- | Ha]; [reflexivity |]). destruct Ha.
Qed.

(** * Further properties of the handlers *)

(** ** Commands and buttons *)

(** X1. While a conversation runs, in [ASK_LINK] as in [ASK_FORMAT],
    /cancel sends the farewell and ends the conversation; the user data
    (a stored URL included) and the file system stay as they are. When no
    conversation runs, /cancel is not taken at all: nothing is sent. *)
Theorem cancel_ends_conversation (w : world) (ss : session) :
  (current ss <> END ->
   step w ss (Command "cancel") =
   {| current := END;
      context := {| user_data := user_data (context ss);
                    files := files (context ss);
                    trace := trace (context ss)
                             ++ [ReplyText cancelled_text None] |} |})
  /\ (current ss = END -> step w ss (Command "cancel") = ss).
Proof.
  split; intros Hst.
  - rewrite (step_running_command _ _ _ Hst). reflexivity.
  - rewrite (step_idle _ _ _ Hst). reflexivity.
Qed.

Lemma cancel_ends_conversation_witness :
  step calm mid_format (Command "cancel") =
  {| current := END;
     context := {| user_data := {[ "url" := "https://example.com/v" ]};
                   files := ∅;
                   trace := [ReplyText cancelled_text None] |} |}
  /\ step calm {| current := END; context := fresh_env |} (Command "cancel")
     = {| current := END; context := fresh_env |}.
Proof.
  destruct (cancel_ends_conversation calm mid_format) as [H _].
  destruct (cancel_ends_conversation calm {| current := END; context := fresh_env |})
    as [_ H'].
  split; [apply H; discriminate | apply H'; reflexivity].
Defined.

(** X2. When no conversation runs (before the first /start, after
    /cancel, after the lost-context end), the conversation takes /start —
    in whatever case the command is typed — and nothing else: a link, a
    button press, a file, an edited message or any other command leaves
    the session as it is and nothing is sent. *)
Theorem idle_takes_only_start (w : world) (ss : session) (u : update) :
  current ss = END ->
  ((forall name, u = Command name -> PyStr.lower name <> "start") ->
   step w ss u = ss)
  /\ (forall name, PyStr.lower name = "start" ->
      step w ss (Command name) =
      {| current := ASK_LINK;
         context := {| user_data := user_data (context ss);
                       files := files (context ss);
                       trace := trace (context ss) ++ [ReplyText greeting None] |} |}).
Proof.
  intros Hst. split.
  - intros Hu. rewrite (step_idle _ _ _ Hst).
    destruct u as [[name | text |] | m | m | data]; try reflexivity.
    destruct (String.eqb_spec (PyStr.lower name) "start") as [E | _];
      [| reflexivity].
    exfalso. exact (Hu name eq_refl E).
  - intros name E. rewrite (step_idle _ _ _ Hst), E. reflexivity.
Qed.

Lemma idle_takes_only_start_witness :
  step sunny (step calm mid_format (Command "cancel")) (Text "https://example.com/v")
  = step calm mid_format (Command "cancel")
  /\ current (step sunny (step calm mid_format (Command "cancel")) (Command "START"))
     = ASK_LINK.
Proof.
  destruct (idle_takes_only_start sunny (step calm mid_format (Command "cancel"))
              (Text "https://example.com/v") eq_refl) as [H H'].
  split.
  - apply H. intros name E. discriminate E.
  - rewrite (H' "START" eq_refl). reflexivity.
Defined.

(** X3. While a conversation runs, a new message that the state's own
    handler does not take — a message without text, any command other
    than /cancel (in whatever case it is typed), or a text message (a valid
    link too) while the format is awaited — is answered by the greeting of
    /start and leads to [ASK_LINK]; nothing is stored and a URL stored
    before stays. *)
Theorem fallback_restarts (w : world) (ss : session) (u : update) :
  current ss <> END ->
  stray (current ss) u = true ->
  step w ss u =
  {| current := ASK_LINK;
     context := {| user_data := user_data (context ss);
                   files := files (context ss);
                   trace := trace (context ss) ++ [ReplyText greeting None] |} |}.
Proof.
  intros Hst Hu.
  destruct u as [[name | text |] | m | m | data]; cbn [stray] in Hu;
    try discriminate Hu.
  - rewrite (step_running_command _ _ _ Hst).
    destruct (String.eqb (PyStr.lower name) "start"); [reflexivity |].
    destruct (String.eqb (PyStr.lower name) "cancel"); [discriminate Hu | reflexivity].
  - destruct (current ss) eqn:E; try discriminate Hu.
    apply step_text_in_format. exact E.
  - apply step_media. exact Hst.
Qed.

Lemma fallback_restarts_witness :
  step sunny mid_format (Text "https://example.org/other") =
  {| current := ASK_LINK;
     context := {| user_data := {[ "url" := "https://example.com/v" ]};
                   files := ∅;
                   trace := [ReplyText greeting None] |} |}.
Proof.
  apply (fallback_restarts sunny mid_format (Text "https://example.org/other")).
  - discriminate.
  - reflexivity.
Defined.

(** X4. A button press is taken in [ASK_FORMAT] only: in [ASK_LINK] and
    when no conversation runs it changes nothing and is not even
    answered. So once the handler of a press has returned, a second press
    of the (old) keyboard starts no second download. *)
Theorem button_only_in_format (w w' : world) (ss : session) (data data' : string) :
  (current ss <> ASK_FORMAT -> step w ss (CallbackQuery data) = ss)
  /\ (current ss = ASK_FORMAT ->
      current (step w ss (CallbackQuery data)) <> ASK_FORMAT ->
      step w' (step w ss (CallbackQuery data)) (CallbackQuery data')
      = step w ss (CallbackQuery data)).
Proof.
  split.
  - apply step_button_elsewhere.
  - intros _ Hback. apply step_button_elsewhere. exact Hback.
Qed.

Lemma button_only_in_format_witness :
  step sunny (step sunny mid_format (CallbackQuery "video")) (CallbackQuery "video")
  = step sunny mid_format (CallbackQuery "video").
Proof.
  destruct (button_only_in_format sunny sunny mid_format "video" "video") as [_ H].
  apply H; [reflexivity |]. vm_compute. discriminate.
Defined.

(** X5. From every state, /start followed by a text whose stripped form
    has an accepted scheme leads to [ASK_FORMAT] with exactly that
    stripped text stored: a user can always begin again. *)
Theorem start_then_link (w w' : world) (ss : session) (text : string) :
  has_scheme (PyStr.strip text) = true ->
  let ss' := step w' (step w ss (Command "start")) (Text text) in
  current ss' = ASK_FORMAT
  /\ user_data (context ss') !! "url" = Some (PyStr.strip text)
  /\ issued (context ss) (context ss') =
     [ReplyText greeting None; ReplyText choose_format (Some keyboard)].
Proof.
  intros Hurl. cbn zeta.
  assert (E : step w ss (Command "start") = restarted ss).
  { destruct (current ss) eqn:Hst.
    - rewrite step_running_command by (rewrite Hst; discriminate). reflexivity.
    - rewrite step_running_command by (rewrite Hst; discriminate). reflexivity.
    - rewrite (step_idle _ _ _ Hst). reflexivity. }
  rewrite E, (step_text w' (restarted ss) text eq_refl), Hurl.
  cbn [current context user_data trace restarted record].
  split; [reflexivity |]. split; [apply lookup_insert_eq |].
  apply issued_app. cbn [trace]. rewrite <- app_assoc. reflexivity.
Qed.

Lemma start_then_link_witness :
  let ss' := step calm (step calm mid_format (Command "start"))
                  (Text " https://example.org/new ") in
  current ss' = ASK_FORMAT
  /\ user_data (context ss') !! "url" = Some "https://example.org/new".
Proof.
  destruct (start_then_link calm calm mid_format " https://example.org/new " eq_refl)
    as (H1 & H2 & _).
  split; [exact H1 | exact H2].
Defined.

(** ** What the handlers write *)

(** X6. A step writes the user data in one case only: a text message in
    [ASK_LINK] whose stripped form has an accepted scheme, which sets
    ['url'] to that stripped text. Every other step leaves the user data
    as it is, and no step ever touches another key. The file system is
    left as it is by every step but a button press in [ASK_FORMAT]. *)
Theorem only_url_written (w : world) (ss : session) (u : update) :
  let ss' := step w ss u in
  (user_data (context ss') = user_data (context ss)
   \/ exists text,
        u = Text text /\ current ss = ASK_LINK
        /\ has_scheme (PyStr.strip text) = true
        /\ user_data (context ss')
           = <["url" := PyStr.strip text]> (user_data (context ss)))
  /\ (forall k, k <> "url" ->
        user_data (context ss') !! k = user_data (context ss) !! k)
  /\ (files (context ss') = files (context ss)
      \/ exists data, u = CallbackQuery data /\ current ss = ASK_FORMAT).
Proof.
  cbn zeta.
  destruct (step_writes w ss u) as [[U F] | [F (text & Hu & Hst & Hs & _ & U)]].
  - split; [left; exact U |]. split; [| exact F].
    intros k _. rewrite U. reflexivity.
  - split; [right; exists text; auto |]. split; [| left; exact F].
    intros k Hk. rewrite U. apply lookup_insert_ne. congruence.
Qed.

Lemma only_url_written_witness :
  let ss := {| current := ASK_LINK;
               context := {| user_data := {[ "lang" := "en" ]};
                             files := ∅; trace := [] |} |} in
  user_data (context (step calm ss (Text "https://example.com/v"))) !! "lang"
  = Some "en".
Proof.
  cbn zeta.
  destruct (only_url_written calm
              {| current := ASK_LINK;
                 context := {| user_data := {[ "lang" := "en" ]};
                               files := ∅; trace := [] |} |}
              (Text "https://example.com/v")) as (_ & H & _).
  rewrite (H "lang") by discriminate. reflexivity.
Defined.

(** ** The calls of the [try] statement *)

Lemma issues_mret {A} (P : action -> Prop) (a : A) : issues P (mret a).
Proof.
  intros s r s' H. injection H as <- <-. exists []. split; [| constructor].
  symmetry. apply app_nil_r.
Qed.

Lemma issues_bind {A B} (P : action -> Prop) (m : M A) (f : A -> M B) :
  issues P m -> (forall a, issues P (f a)) -> issues P (m ≫= f).
Proof.
  intros Hm Hf s r s' H. unfold mbind, M_bind in H.
  destruct (m s) as [o s1] eqn:E. destruct (Hm _ _ _ E) as (l & Hl & Pl).
  destruct o as [a|e|].
  - destruct (Hf a _ _ _ H) as (l' & Hl' & Pl').
    exists (l ++ l')%list. split; [| apply Forall_app; auto].
    rewrite Hl', Hl. symmetry. apply app_assoc.
  - injection H as <- <-. exists l. auto.
  - injection H as <- <-. exists l. auto.
Qed.

Lemma issues_one {A} (P : action -> Prop) (a : action) (m : M A) :
  P a ->
  (forall s r s', m s = (r, s') -> trace s' = (trace s ++ [a])%list) ->
  issues P m.
Proof.
  intros Pa Hm s r s' H. exists [a]. split; [exact (Hm _ _ _ H) |].
  constructor; [exact Pa | constructor].
Qed.

Lemma issues_emit (P : action -> Prop) (a : action) : P a -> issues P (emit a).
Proof.
  intros Pa. apply (issues_one P a); [exact Pa |].
  intros s r s' H. injection H as <- <-. reflexivity.
Qed.

Lemma issues_guarded (P : action -> Prop) (w : world) (a : action) :
  P a -> issues P (guarded w a).
Proof.
  intros Pa. apply (issues_one P a); [exact Pa |].
  intros s r s' H. injection H as <- <-. reflexivity.
Qed.

Lemma issues_open (P : action -> Prop) (w : world) (path : string) :
  P (Open path) -> issues P (open w path).
Proof.
  intros Pa. apply (issues_one P (Open path)); [exact Pa |].
  intros s r s' H. unfold open, guarded in H.
  destruct (bool_decide (path ∈ files s)); injection H as <- <-; reflexivity.
Qed.

Lemma issues_run_in_executor (P : action -> Prop) (w : world) (url d fmt : string) :
  P (RunInExecutor url d fmt) -> issues P (run_in_executor w url d fmt).
Proof.
  intros Pa. apply (issues_one P (RunInExecutor url d fmt)); [exact Pa |].
  intros s r s' H. unfold run_in_executor in H.
  destruct (download_media (ydl w) url d fmt (files s)) as [o fs1].
  injection H as <- <-. reflexivity.
Qed.

Lemma issues_rmtree (P : action -> Prop) (w : world) (d : string) :
  P (Rmtree d) -> issues P (rmtree w d).
Proof.
  intros Pa. apply (issues_one P (Rmtree d)); [exact Pa |].
  intros s r s' H. injection H as <- <-. reflexivity.
Qed.

Lemma issues_for_each {A} (P : action -> Prop) (l : list A) (body : A -> M unit) :
  (forall x, issues P (body x)) -> issues P (for_each l body).
Proof.
  intros Hb. induction l as [|x l IH]; cbn [for_each].
  - apply issues_mret.
  - apply issues_bind; [apply Hb | intros _; exact IH].
Qed.

Lemma issues_try {A} (P : action -> Prop) (body : M A) (handler : exn -> M A)
    (final : M unit) :
  issues P body -> (forall e, issues P (handler e)) -> issues P final ->
  issues P (try_except_finally body handler final).
Proof.
  intros Hb Hh Hf s r s' H. unfold try_except_finally in H.
  destruct (body s) as [o s1] eqn:B. destruct (Hb _ _ _ B) as (l1 & L1 & P1).
  assert (Hmid : forall (o2 : outcome A) s2 l2,
    trace s2 = (trace s ++ l2)%list -> Forall P l2 ->
    match final s2 with
    | (Returns _, s3) => (o2, s3)
    | (Raises e, s3) => (Raises e, s3)
    | (Cancelled, s3) => (Cancelled, s3)
    end = (r, s') ->
    exists l, trace s' = (trace s ++ l)%list /\ Forall P l).
  { intros o2 s2 l2 L2 P2 E. destruct (final s2) as [o3 s3] eqn:F.
    destruct (Hf _ _ _ F) as (l3 & L3 & P3).
    assert (s3 = s') as <- by (destruct o3; injection E; auto).
    exists (l2 ++ l3)%list. split; [| apply Forall_app; auto].
    rewrite L3, L2. symmetry. apply app_assoc. }
  destruct o as [a|e|].
  - apply (Hmid (Returns a) s1 l1 L1 P1 H).
  - destruct (handler e s1) as [o2 s2] eqn:Hd.
    destruct (Hh e _ _ _ Hd) as (l2 & L2 & P2).
    apply (Hmid o2 s2 (l1 ++ l2)%list); [| apply Forall_app; auto | exact H].
    rewrite L2, L1. symmetry. apply app_assoc.
  - apply (Hmid Cancelled s1 l1 L1 P1 H).
Qed.

(** Between the creation of the directory and its removal, the handler
    issues delivery calls only. *)
Lemma issues_try_statement (w : world) (url d choice : string) :
  issues (fun a => delivery_call a = true)
    (try_except_finally (deliver w url d choice) (report w) (rmtree w d)).
Proof.
  apply issues_try.
  - unfold deliver, countdown.
    apply issues_bind; [apply issues_run_in_executor; reflexivity | intros path].
    apply issues_bind; [| intros _].
    { apply issues_for_each. intros sec.
      apply issues_bind; [apply issues_guarded; reflexivity | intros _].
      apply issues_guarded; reflexivity. }
    apply issues_bind; [apply issues_open; reflexivity | intros _].
    apply issues_bind;
      [destruct (String.eqb choice "video"); apply issues_guarded; reflexivity
      | intros _].
    apply issues_bind; [apply issues_guarded; reflexivity | intros _].
    apply issues_mret.
  - intros e. unfold report.
    apply issues_bind; [apply issues_emit; reflexivity | intros _].
    apply issues_bind; [apply issues_guarded; reflexivity | intros _].
    apply issues_mret.
  - apply issues_rmtree. reflexivity.
Qed.

(** An accepted URL is not empty. *)
Lemma has_scheme_nonempty (url : string) : has_scheme url = true -> url <> "".
Proof. intros H ->. discriminate H. Qed.

(** ** The stored URL while a format is awaited *)

Lemma downloading_not_missing (choice : string) :
  EditMessageText (downloading choice) <> EditMessageText missing_url.
Proof. unfold downloading, missing_url. cbn. discriminate. Qed.

Lemma delivery_call_not_missing (a : action) :
  delivery_call a = true -> a <> EditMessageText missing_url.
Proof. intros H ->. discriminate H. Qed.

Lemma url_pending_step (w : world) (ss : session) (u : update) :
  url_pending ss ->
  url_pending (step w ss u)
  /\ exists l, trace (context (step w ss u)) = (trace (context ss) ++ l)%list
               /\ Forall (fun a => a <> EditMessageText missing_url) l.
Proof.
  intros Inv.
  assert (Hrestart : url_pending (restarted ss)
    /\ exists l, trace (context (restarted ss)) = (trace (context ss) ++ l)%list
                 /\ Forall (fun a => a <> EditMessageText missing_url) l).
  { split; [intros H; discriminate H |].
    exists [ReplyText greeting None]. split; [reflexivity |].
    constructor; [discriminate | constructor]. }
  assert (Hend : url_pending (ended ss)
    /\ exists l, trace (context (ended ss)) = (trace (context ss) ++ l)%list
                 /\ Forall (fun a => a <> EditMessageText missing_url) l).
  { split; [intros H; discriminate H |].
    exists [ReplyText cancelled_text None]. split; [reflexivity |].
    constructor; [discriminate | constructor]. }
  assert (Hsame : url_pending ss
    /\ exists l, trace (context ss) = (trace (context ss) ++ l)%list
                 /\ Forall (fun a => a <> EditMessageText missing_url) l).
  { split; [exact Inv |]. exists []. split; [| constructor].
    symmetry. apply app_nil_r. }
  assert (Hcmd : forall name, current ss <> END ->
    url_pending (step w ss (Command name))
    /\ exists l, trace (context (step w ss (Command name)))
                 = (trace (context ss) ++ l)%list
                 /\ Forall (fun a => a <> EditMessageText missing_url) l).
  { intros name Hst. rewrite (step_running_command _ _ _ Hst).
    destruct (String.eqb (PyStr.lower name) "start"); [exact Hrestart |].
    destruct (String.eqb (PyStr.lower name) "cancel"); [exact Hend | exact Hrestart]. }
  destruct u as [m | m | m | data];
    [| rewrite step_edited; exact Hsame | rewrite step_channel; exact Hsame |].
  { destruct (current ss) eqn:Hst.
    - (* ASK_LINK *)
      destruct m as [name | text |].
      + apply Hcmd. discriminate.
      + rewrite (step_text _ _ _ Hst).
        destruct (has_scheme (PyStr.strip text)) eqn:E.
        * split.
          -- intros _. exists (PyStr.strip text). cbn [context user_data].
             split; [apply lookup_insert_eq | exact E].
          -- exists [ReplyText choose_format (Some keyboard)].
             split; [reflexivity |]. constructor; [discriminate | constructor].
        * split; [intros H; discriminate H |].
          exists [ReplyText invalid_url None].
          split; [reflexivity |]. constructor; [discriminate | constructor].
      + rewrite step_media by (rewrite Hst; discriminate). exact Hrestart.
    - (* ASK_FORMAT *)
      destruct m as [name | text |].
      + apply Hcmd. discriminate.
      + rewrite (step_text_in_format _ _ _ Hst). exact Hrestart.
      + rewrite step_media by (rewrite Hst; discriminate). exact Hrestart.
    - (* no conversation *)
      rewrite (step_idle _ _ _ Hst).
      destruct m as [name | text |]; try exact Hsame.
      destruct (String.eqb (PyStr.lower name) "start"); [exact Hrestart | exact Hsame]. }
  destruct (current ss) eqn:Hst.
  - (* ASK_LINK *)
    rewrite step_button_elsewhere by (rewrite Hst; discriminate). exact Hsame.
  - (* ASK_FORMAT *)
    destruct (Inv Hst) as (url & Hurl & Hs).
    split.
    + intros _. exists url.
      rewrite (step_format_user_data _ _ _ Hst). auto.
    + rewrite (step_format _ _ _ Hst),
        (handle_with_url _ _ _ _ Hurl (has_scheme_nonempty _ Hs)).
      destruct (try_except_finally
                  (deliver w url (mkdtemp_name w (files (context ss))) data)
                  (report w) (rmtree w (mkdtemp_name w (files (context ss))))
                  (at_try w data (context ss))) as [o s'] eqn:E.
      destruct (issues_try_statement _ _ _ _ _ _ _ E) as (l & Hl & Pl).
      exists ([Answer; EditMessageText (downloading data);
               Mkdtemp (mkdtemp_name w (files (context ss)))] ++ l)%list.
      split.
      * assert (trace s' = (trace (context ss)
                   ++ [Answer; EditMessageText (downloading data);
                       Mkdtemp (mkdtemp_name w (files (context ss)))] ++ l)%list)
           as Ht by (rewrite Hl; unfold at_try; cbn [trace];
                     rewrite <- app_assoc; reflexivity).
        destruct o; exact Ht.
      * repeat (constructor; [first [discriminate | apply downloading_not_missing] |]).
        eapply Forall_impl; [exact Pl |]. apply delivery_call_not_missing.
  - (* no conversation *)
    rewrite step_button_elsewhere by (rewrite Hst; discriminate). exact Hsame.
Qed.

(** X7. Along every sequence of updates, in whatever worlds, from a
    session in which no format is awaited (a fresh one in particular):
    whenever the bot awaits the format, ['url'] holds a URL with an accepted
    scheme; so the lost-context branch of [handle_format_choice] is never
    taken and its message is never sent. *)
Theorem lost_context_unreachable (l : list (world * update)) (ss : session) :
  current ss <> ASK_FORMAT ->
  url_pending (run_all ss l)
  /\ Forall (fun a => a <> EditMessageText missing_url)
            (issued (context ss) (context (run_all ss l))).
Proof.
  intros Hst.
  assert (H : forall l ss1,
    url_pending ss1 ->
    (exists k, trace (context ss1) = (trace (context ss) ++ k)%list
               /\ Forall (fun a => a <> EditMessageText missing_url) k) ->
    url_pending (run_all ss1 l)
    /\ exists k, trace (context (run_all ss1 l)) = (trace (context ss) ++ k)%list
                 /\ Forall (fun a => a <> EditMessageText missing_url) k).
  { clear l. intros l. induction l as [|[w u] l IH]; intros ss1 Inv (k & Hk & Pk).
    - split; [exact Inv | exists k; auto].
    - cbn [run_all fold_left fst snd].
      destruct (url_pending_step w ss1 u Inv) as (Inv' & k' & Hk' & Pk').
      apply IH; [exact Inv' |].
      exists (k ++ k')%list. split; [| apply Forall_app; auto].
      rewrite Hk', Hk. symmetry. apply app_assoc. }
  destruct (H l ss) as (Inv & k & Hk & Pk).
  - intros E. congruence.
  - exists []. split; [symmetry; apply app_nil_r | constructor].
  - split; [exact Inv |]. rewrite (issued_app _ _ _ Hk). exact Pk.
Qed.

Lemma lost_context_unreachable_witness :
  let l := [ (calm, NewMessage (Command "start"));
             (calm, NewMessage (Text "https://example.com/v"));
             (calm, CallbackQuery "audio"); (sunny, CallbackQuery "audio");
             (calm, EditedMessage (Text "https://example.com/w"));
             (calm, NewMessage (Text " HTTP://example.org/w "));
             (calm, NewMessage Media);
             (calm, CallbackQuery "video") ] in
  let ss := {| current := END; context := fresh_env |} in
  Forall (fun a => a <> EditMessageText missing_url)
         (issued (context ss) (context (run_all ss l))).
Proof.
  cbn zeta.
  apply (lost_context_unreachable
           [ (calm, NewMessage (Command "start"));
             (calm, NewMessage (Text "https://example.com/v"));
             (calm, CallbackQuery "audio"); (sunny, CallbackQuery "audio");
             (calm, EditedMessage (Text "https://example.com/w"));
             (calm, NewMessage (Text " HTTP://example.org/w "));
             (calm, NewMessage Media);
             (calm, CallbackQuery "video") ]
           {| current := END; context := fresh_env |}).
  discriminate.
Defined.

(** ** Edited messages and channel posts *)

Lemma select_edited (st : state) (m : message) :
  select conv st (EditedMessage m) = select conv st (NewMessage m).
Proof. reflexivity. Qed.

(** X8. An edited message is routed like a new one with the same content
    (the command and message handlers of [main] do not filter edits out),
    but the handlers read [update.message], which only a new message has:
    the handler raises [AttributeError] before its first call — on
    [reply_text] in [start] and [cancel], on [text] in [ask_format] — so
    nothing is sent or stored and the conversation stays in its state. A
    post in a channel is taken by no handler. *)
Theorem edited_message_raises (w : world) (ss : session) (m : message) :
  select conv (current ss) (EditedMessage m) = select conv (current ss) (NewMessage m)
  /\ (forall cb,
        select conv (current ss) (EditedMessage m) = Some cb ->
        cb <> cb_handle_format_choice
        /\ run w cb (EditedMessage m) (context ss) =
           (Raises (Exn "AttributeError"
                      ("'NoneType' object has no attribute '"
                       +:+ match cb with
                           | cb_ask_format => "text"
                           | _ => "reply_text"
                           end +:+ "'")),
            context ss))
  /\ step w ss (EditedMessage m) = ss
  /\ select conv (current ss) (ChannelPost m) = None
  /\ step w ss (ChannelPost m) = ss.
Proof.
  split; [apply select_edited |].
  split; [| split; [apply step_edited | split; reflexivity]].
  intros cb Hsel. rewrite run_edited.
  assert (Hcb : cb <> cb_handle_format_choice).
  { intros ->. revert Hsel. unfold select, first_match.
    destruct (current ss); destruct m as [name | text |];
      cbn [conv entry_points states fallbacks allow_reentry negb orb find
           check_update command_matches filter_matches
           fmap option_fmap option_map handler_callback];
      change (PyStr.lower "start") with "start";
      change (PyStr.lower "cancel") with "cancel";
      try (destruct (String.eqb (PyStr.lower name) "start");
           cbn [fmap option_fmap option_map handler_callback];
           [| try (destruct (String.eqb (PyStr.lower name) "cancel");
                   cbn [fmap option_fmap option_map handler_callback])]);
      discriminate. }
  split; [exact Hcb |].
  destruct cb; try reflexivity. congruence.
Qed.

Lemma edited_message_raises_witness :
  select conv ASK_LINK (EditedMessage (Text "https://example.com/v"))
  = Some cb_ask_format
  /\ run calm cb_ask_format (EditedMessage (Text "https://example.com/v")) fresh_env
     = (Raises (Exn "AttributeError" "'NoneType' object has no attribute 'text'"),
        fresh_env)
  /\ step calm {| current := ASK_LINK; context := fresh_env |}
          (EditedMessage (Text "https://example.com/v"))
     = {| current := ASK_LINK; context := fresh_env |}.
Proof.
  destruct (edited_message_raises calm {| current := ASK_LINK; context := fresh_env |}
              (Text "https://example.com/v")) as (_ & H & H' & _).
  split; [reflexivity |].
  split; [exact (proj2 (H cb_ask_format eq_refl)) | exact H'].
Defined.

(** ** The file system after a delivery *)

Lemma deliver_files (w : world) (url d choice : string) (s : env) :
  files (snd (deliver w url d choice s))
  = snd (download_media (ydl w) url d choice (files s)).
Proof.
  destruct (download_media (ydl w) url d choice (files s)) as [[path|e|] fs1] eqn:Hdl.
  - destruct (deliver_script w url d choice path s fs1 Hdl) as (n & _ & Hs).
    rewrite Hs. reflexivity.
  - unfold deliver, mbind, M_bind, run_in_executor. rewrite Hdl. reflexivity.
  - unfold deliver, mbind, M_bind, run_in_executor. rewrite Hdl. reflexivity.
Qed.

Lemma handle_files (w : world) (s : env) (choice url : string)
    (r : outcome state) (s' : env) :
  user_data s !! "url" = Some url ->
  url <> "" ->
  handle_format_choice w (CallbackQuery choice) s = (r, s') ->
  files s' =
  swept w (mkdtemp_name w (files s))
    (snd (download_media (ydl w) url (mkdtemp_name w (files s)) choice
            ({[ mkdtemp_name w (files s) ]} ∪ files s))).
Proof.
  intros Hurl Hne Hrun.
  destruct (handle_shape w s choice url r s' Hurl Hne Hrun) as (tail & _ & -> & _).
  cbn [files]. rewrite deliver_files. reflexivity.
Qed.

(** The calls of a run whose download did not return. *)
Lemma handle_failed_calls (w : world) (s : env) (choice url : string)
    (o : outcome string) (fs1 : gset string) (r : outcome state) (s' : env) :
  user_data s !! "url" = Some url ->
  url <> "" ->
  download_media (ydl w) url (mkdtemp_name w (files s)) choice
    ({[ mkdtemp_name w (files s) ]} ∪ files s) = (o, fs1) ->
  (forall path, o <> Returns path) ->
  handle_format_choice w (CallbackQuery choice) s = (r, s') ->
  let d := mkdtemp_name w (files s) in
  exists tail,
    issued s s' =
    ([Answer; EditMessageText (downloading choice); Mkdtemp d;
      RunInExecutor url d choice] ++ tail ++ [Rmtree d])%list
    /\ (tail = [] \/ exists e, tail = [LogException "Download error" e;
                                       ReplyText (download_error e) None])
    /\ Forall (fun a => is_media a = false) tail.
Proof.
  intros Hurl Hne Hdl Ho Hrun d. fold d in Hdl.
  destruct (handle_shape w s choice url r s' Hurl Hne Hrun)
    as (tail & Htail & Hs' & _). fold d in Hs'.
  assert (Hs1 : trace (snd (deliver w url d choice (at_try w choice s)))
                = (trace (at_try w choice s) ++ [RunInExecutor url d choice])%list).
  { destruct o as [path|e|]; [exfalso; exact (Ho path eq_refl) | |].
    - rewrite (deliver_fetch_raises w url d choice (at_try w choice s) e fs1 Hdl).
      reflexivity.
    - rewrite (deliver_fetch_cancelled w url d choice (at_try w choice s) fs1 Hdl).
      reflexivity. }
  exists tail. split; [| split; [exact Htail |]].
  - apply issued_app. rewrite Hs'. cbn [trace]. rewrite Hs1.
    unfold at_try. cbn [trace]. fold d. rewrite <- !app_assoc. reflexivity.
  - destruct Htail as [-> | [e ->]]; repeat constructor.
Qed.

(** X9. The disk after [handle_format_choice] (with a stored URL) is
    what the tool left, less the temporary directory and all below it when
    the removal works; no other step of the handler creates or deletes a
    path. Hence, when the directory is new, the tool changes nothing
    outside it and the removal works, the disk is exactly as it was before
    the button was pressed — after a delivery, after an error and after a
    cancellation alike. *)
Theorem disk_restored (w : world) (s : env) (choice url : string)
    (r : outcome state) (s' : env) :
  user_data s !! "url" = Some url ->
  url <> "" ->
  handle_format_choice w (CallbackQuery choice) s = (r, s') ->
  let d := mkdtemp_name w (files s) in
  let left_by_tool :=
    snd (download_media (ydl w) url d choice ({[ d ]} ∪ files s)) in
  files s' = (if rmtree_fails w then left_by_tool else outside d left_by_tool)
  /\ ((forall p, p ∈ files s -> inside d p = false) ->
      (forall p, inside d p = false -> p ∈ left_by_tool <-> p ∈ files s) ->
      rmtree_fails w = false ->
      files s' = files s).
Proof.
  intros Hurl Hne Hrun d left_by_tool.
  pose proof (handle_files _ _ _ _ _ _ Hurl Hne Hrun) as Hf.
  fold d in Hf. fold left_by_tool in Hf. split; [exact Hf |].
  intros Hnew Hconf Hrm. rewrite Hf. unfold swept. rewrite Hrm.
  apply set_eq. intros p. rewrite elem_of_filter. split.
  - intros [Hout Hin]. apply (Hconf p Hout). exact Hin.
  - intros Hin. split; [exact (Hnew p Hin) |].
    apply (Hconf p (Hnew p Hin)). exact Hin.
Qed.

Lemma disk_restored_witness :
  files (snd (handle_format_choice refusing (CallbackQuery "video") at_home))
  = {[ "/home/bot/main.py" ]}.
Proof.
  destruct (disk_restored refusing at_home "video" "https://example.com/v"
              (fst (handle_format_choice refusing (CallbackQuery "video") at_home))
              (snd (handle_format_choice refusing (CallbackQuery "video") at_home))
              eq_refl ltac:(discriminate)
              (surjective_pairing _)) as [_ H].
  apply H.
  - intros p Hp. cbn [files at_home] in Hp.
    apply elem_of_singleton in Hp. subst p. reflexivity.
  - intros p Hout.
    assert (E : snd (download_media (ydl refusing) "https://example.com/v"
                       (mkdtemp_name refusing (files at_home)) "video"
                       ({[ mkdtemp_name refusing (files at_home) ]} ∪ files at_home))
                = {[ "/tmp/tmpq1w2e3/clip.webm" ]}
                  ∪ ({[ "/tmp/tmpq1w2e3" ]} ∪ {[ "/home/bot/main.py" ]}))
      by (vm_compute; reflexivity).
    rewrite E. cbn [files at_home].
    rewrite !elem_of_union, !elem_of_singleton.
    split; [| tauto].
    intros [-> | [-> | ->]]; [discriminate Hout | discriminate Hout | reflexivity].
  - reflexivity.
Defined.

(** ** The time spent pausing *)

Lemma pause_app (l k : list action) : pause (l ++ k) = pause l + pause k.
Proof.
  induction l as [|a l IH]; [reflexivity |].
  cbn [app pause fold_right]. fold (pause (l ++ k)). fold (pause l).
  rewrite IH. destruct a; lia.
Qed.

Lemma pause_take (n : nat) (l : list action) :
  Forall sane_pause l -> 0 <= pause (take n l) <= pause l.
Proof.
  intros H. revert n. induction H as [|a l Ha Hl IH]; intros n.
  - destruct n; cbn; lia.
  - destruct n as [|n].
    + cbn [take]. change (pause []) with 0.
      specialize (IH 0%nat). cbn [take] in IH. change (pause []) with 0 in IH.
      cbn [pause fold_right]. fold (pause l).
      destruct a; cbn [sane_pause] in Ha; lia.
    + cbn [take pause fold_right]. fold (pause (take n l)). fold (pause l).
      specialize (IH n). destruct a; cbn [sane_pause] in Ha; lia.
Qed.

Lemma script_pause (url d choice path : string) :
  pause (script url d choice path) = 5
  /\ Forall sane_pause (script url d choice path).
Proof.
  split.
  - unfold script, send_media. rewrite ticks_texts.
    destruct (String.eqb choice "video"); reflexivity.
  - unfold script, send_media. rewrite ticks_texts.
    destruct (String.eqb choice "video");
      repeat (constructor; [cbn [sane_pause]; first [exact I | lia] |]);
      constructor.
Qed.

(** X10. Whatever the update, the stored data and the world, one run of
    [handle_format_choice] asks [asyncio.sleep] for at most five seconds in
    all, and for none when no URL is stored or the download did not
    return. *)
Theorem pause_bounded (w : world) (s : env) (u : update)
    (r : outcome state) (s' : env) :
  handle_format_choice w u s = (r, s') ->
  0 <= pause (issued s s') <= 5
  /\ (falsy (user_data s !! "url") = true -> pause (issued s s') = 0)
  /\ (forall data url,
        u = CallbackQuery data ->
        user_data s !! "url" = Some url ->
        (forall path,
           fst (download_media (ydl w) url (mkdtemp_name w (files s)) data
                  ({[ mkdtemp_name w (files s) ]} ∪ files s)) <> Returns path) ->
        pause (issued s s') = 0).
Proof.
  intros Hrun.
  assert (Hnone : trace s' = (trace s ++ [])%list -> pause (issued s s') = 0).
  { intros H. rewrite (issued_app _ _ _ H). reflexivity. }
  destruct u as [m | m | m | data];
    try (injection Hrun as <- <-;
         rewrite Hnone by (symmetry; apply app_nil_r);
         split; [lia |]; split; [reflexivity | intros; discriminate]).
  destruct (falsy (user_data s !! "url")) eqn:Hf.
  - (* no URL *)
    assert (E : issued s s' = [Answer; EditMessageText missing_url]).
    { revert Hrun. unfold handle_format_choice, mbind, M_bind, emit, user_data_get.
      cbn [user_data record]. rewrite Hf. cbn. intros H. injection H as <- <-.
      apply issued_app. unfold record. cbn [trace].
      rewrite <- ?app_assoc. reflexivity. }
    rewrite E. change (pause [Answer; EditMessageText missing_url]) with 0.
    split; [lia |]. split; [reflexivity |]. intros; reflexivity.
  - destruct (user_data s !! "url") as [url|] eqn:Hurl; [| discriminate Hf].
    assert (Hne : url <> "").
    { intros ->. discriminate Hf. }
    set (d := mkdtemp_name w (files s)).
    destruct (download_media (ydl w) url d data ({[ d ]} ∪ files s))
      as [[path|e|] fs1] eqn:Hdl.
    + destruct (handle_script w s data url path fs1 r s' Hurl Hne Hdl Hrun)
        as (n & tail & _ & Htail & Hiss).
      fold d in Hiss. rewrite Hiss.
      destruct (script_pause url d data path) as [H5 Hsane].
      pose proof (pause_take n _ Hsane) as Hn. rewrite H5 in Hn.
      rewrite !pause_app.
      assert (pause tail = 0) as -> by (destruct Htail as [-> | [e ->]]; reflexivity).
      change (pause [Answer; EditMessageText (downloading data); Mkdtemp d]) with 0.
      change (pause [Rmtree d]) with 0.
      split; [lia |]. split; [intros H; discriminate H |].
      intros data' url' Hu Hu' Hfail. exfalso.
      injection Hu as <-. injection Hu' as <-.
      apply (Hfail path). fold d. rewrite Hdl. reflexivity.
    + destruct (handle_failed_calls w s data url _ fs1 r s' Hurl Hne Hdl
                  ltac:(discriminate) Hrun) as (tail & Hiss & Htail & _).
      fold d in Hiss. rewrite Hiss, !pause_app.
      assert (pause tail = 0) as -> by (destruct Htail as [-> | [e' ->]]; reflexivity).
      split; [cbn; lia |]. split; [intros H; discriminate H |].
      intros; reflexivity.
    + destruct (handle_failed_calls w s data url _ fs1 r s' Hurl Hne Hdl
                  ltac:(discriminate) Hrun) as (tail & Hiss & Htail & _).
      fold d in Hiss. rewrite Hiss, !pause_app.
      assert (pause tail = 0) as -> by (destruct Htail as [-> | [e' ->]]; reflexivity).
      split; [cbn; lia |]. split; [intros H; discriminate H |].
      intros; reflexivity.
Qed.

Lemma pause_bounded_witness :
  pause (issued (with_url "https://example.com/v")
           (snd (handle_format_choice interrupted (CallbackQuery "video")
                   (with_url "https://example.com/v")))) = 3
  /\ 0 <= 3 <= 5.
Proof.
  destruct (pause_bounded interrupted (with_url "https://example.com/v")
              (CallbackQuery "video")
              (fst (handle_format_choice interrupted (CallbackQuery "video")
                      (with_url "https://example.com/v")))
              (snd (handle_format_choice interrupted (CallbackQuery "video")
                      (with_url "https://example.com/v")))
              (surjective_pairing _)) as [H _].
  assert (E : pause (issued (with_url "https://example.com/v")
                (snd (handle_format_choice interrupted (CallbackQuery "video")
                        (with_url "https://example.com/v")))) = 3)
    by (vm_compute; reflexivity).
  rewrite E in H. split; [exact E | exact H].
Defined.

(** ** The extension that [download_media] replaces *)

Lemma rfind_ge (c : ascii) (s : string) : -1 <= PyStr.rfind c s.
Proof.
  induction s as [|a s IH]; cbn [PyStr.rfind]; [lia |].
  destruct (0 <=? PyStr.rfind c s) eqn:E; [apply Z.leb_le in E; lia |].
  destruct (Ascii.eqb a c); lia.
Qed.

(** From the last [c] on, the string is [c] followed by a part without
    [c]. *)
Lemma slice_from_rfind (c : ascii) (p : string) :
  0 <= PyStr.rfind c p ->
  exists e, PyStr.slice_from (Z.to_nat (PyStr.rfind c p)) p = String c e
            /\ PyStr.rfind c e = -1.
Proof.
  induction p as [|a p IH]; cbn [PyStr.rfind]; [lia |].
  destruct (0 <=? PyStr.rfind c p) eqn:E.
  - apply Z.leb_le in E. intros _. destruct (IH E) as (e & He & Hr).
    exists e. split; [| exact Hr].
    replace (Z.to_nat (PyStr.rfind c p + 1)) with (S (Z.to_nat (PyStr.rfind c p)))
      by lia.
    exact He.
  - apply Z.leb_gt in E. pose proof (rfind_ge c p) as G.
    destruct (Ascii.eqb_spec a c) as [-> | N]; [| lia].
    intros _. exists p. split; [reflexivity | lia].
Qed.

(** Past the last [c] there is no [c]. *)
Lemma rfind_slice_from (c : ascii) (n : nat) (p : string) :
  PyStr.rfind c p < Z.of_nat n ->
  PyStr.rfind c (PyStr.slice_from n p) = -1.
Proof.
  revert p. induction n as [|n IH]; intros p H.
  - pose proof (rfind_ge c p). destruct p; cbn [PyStr.slice_from]; lia.
  - destruct p as [|a p]; [reflexivity |].
    cbn [PyStr.slice_from]. apply IH.
    cbn [PyStr.rfind] in H. pose proof (rfind_ge c p) as G.
    destruct (0 <=? PyStr.rfind c p) eqn:E; [lia |].
    apply Z.leb_gt in E. lia.
Qed.

Lemma rfind_tail (c a : ascii) (e : string) :
  PyStr.rfind c (String a e) = -1 -> PyStr.rfind c e = -1.
Proof.
  cbn [PyStr.rfind]. pose proof (rfind_ge c e) as G.
  destruct (0 <=? PyStr.rfind c e) eqn:E; [apply Z.leb_le in E; lia |].
  apply Z.leb_gt in E. lia.
Qed.

(** What [os.path.splitext] splits off: nothing, or a dot followed by a
    part with neither dot nor slash. *)
Lemma splitext_ext (p : string) :
  snd (OsPath.splitext p) = ""
  \/ exists e, snd (OsPath.splitext p) = String "." e
               /\ PyStr.rfind "." e = -1 /\ PyStr.rfind "/" e = -1.
Proof.
  unfold OsPath.splitext.
  destruct (PyStr.rfind "/" p <? PyStr.rfind "." p) eqn:L; [| left; reflexivity].
  destruct (OsPath.has_stem _); [| left; reflexivity].
  right. cbn [snd]. apply Z.ltb_lt in L. pose proof (rfind_ge "/" p) as G.
  destruct (slice_from_rfind "." p) as (e & He & Hr); [lia |].
  exists e. split; [exact He |]. split; [exact Hr |].
  apply (rfind_tail "/" "."). rewrite <- He.
  apply rfind_slice_from. lia.
Qed.

Lemma rfind_lt (c : ascii) (s : string) :
  PyStr.rfind c s < Z.of_nat (String.length s).
Proof.
  induction s as [|a s IH]; cbn [PyStr.rfind String.length]; [lia |].
  destruct (0 <=? PyStr.rfind c s); [lia |].
  destruct (Ascii.eqb a c); lia.
Qed.

Lemma rfind_app_absent (c : ascii) (a b : string) :
  PyStr.rfind c b = -1 -> PyStr.rfind c (a +:+ b) = PyStr.rfind c a.
Proof.
  intros Hb. induction a as [|x a IH]; [exact Hb |].
  change (String x a +:+ b) with (String x (a +:+ b)).
  cbn [PyStr.rfind]. rewrite IH. reflexivity.
Qed.

Lemma rfind_app_present (c : ascii) (a b : string) :
  0 <= PyStr.rfind c b ->
  PyStr.rfind c (a +:+ b) = Z.of_nat (String.length a) + PyStr.rfind c b.
Proof.
  intros Hb. induction a as [|x a IH].
  { change ("" +:+ b) with b. cbn [String.length]. lia. }
  change (String x a +:+ b) with (String x (a +:+ b)).
  cbn [PyStr.rfind String.length]. rewrite IH.
  destruct (Z.leb_spec 0 (Z.of_nat (String.length a) + PyStr.rfind c b)); lia.
Qed.

Lemma slice_to_app (a b : string) : PyStr.slice_to (String.length a) (a +:+ b) = a.
Proof.
  induction a as [|x a IH]; [destruct b; reflexivity |].
  change (String x a +:+ b) with (String x (a +:+ b)).
  cbn [String.length PyStr.slice_to]. rewrite IH. reflexivity.
Qed.

Lemma slice_from_app (a b : string) : PyStr.slice_from (String.length a) (a +:+ b) = b.
Proof.
  induction a as [|x a IH]; [destruct b; reflexivity |].
  change (String x a +:+ b) with (String x (a +:+ b)).
  cbn [String.length PyStr.slice_from]. exact IH.
Qed.

Lemma slice_from_app_le (k : nat) (a b : string) :
  (k <= String.length a)%nat ->
  PyStr.slice_from k (a +:+ b) = PyStr.slice_from k a +:+ b.
Proof.
  revert a. induction k as [|k IH]; intros a Hk.
  - destruct a; [destruct b |]; reflexivity.
  - destruct a as [|x a]; [cbn in Hk; lia |].
    change (String x a +:+ b) with (String x (a +:+ b)).
    cbn [PyStr.slice_from]. apply IH. cbn in Hk. lia.
Qed.

Lemma length_slice_from (k : nat) (a : string) :
  String.length (PyStr.slice_from k a) = (String.length a - k)%nat.
Proof.
  revert a. induction k as [|k IH]; intros a.
  - destruct a; cbn; lia.
  - destruct a as [|x a]; [reflexivity |].
    cbn [PyStr.slice_from String.length]. rewrite IH. lia.
Qed.

(** From an index up to the last [c], the last [c] is where it was. *)
Lemma rfind_slice_from_ge (c : ascii) (n : nat) (p : string) :
  Z.of_nat n <= PyStr.rfind c p ->
  PyStr.rfind c (PyStr.slice_from n p) = PyStr.rfind c p - Z.of_nat n.
Proof.
  revert p. induction n as [|n IH]; intros p H.
  - destruct p; cbn [PyStr.slice_from]; lia.
  - destruct p as [|a p]; [cbn in H; lia |].
    cbn [PyStr.slice_from]. cbn [PyStr.rfind] in H |- *.
    destruct (Z.leb_spec 0 (PyStr.rfind c p)).
    + rewrite IH by lia. lia.
    + destruct (Ascii.eqb a c); lia.
Qed.

(** [os.path.splitext] on a name that ends with a dot and a part made of
    neither dots nor slashes: that part is split off, unless the file name
    before the dot is empty or made of dots only. *)
Lemma splitext_dotted (stem e : string) :
  PyStr.rfind "." e = -1 ->
  PyStr.rfind "/" e = -1 ->
  OsPath.splitext (stem +:+ "." +:+ e) =
  if OsPath.has_stem (OsPath.basename stem)
  then (stem, "." +:+ e)
  else (stem +:+ "." +:+ e, "").
Proof.
  intros Hd Hs.
  assert (Hdot : PyStr.rfind "." (stem +:+ "." +:+ e) = Z.of_nat (String.length stem)).
  { rewrite rfind_app_present;
      change ("." +:+ e) with (String "." e); cbn [PyStr.rfind]; rewrite Hd; cbn; lia. }
  assert (Hsep : PyStr.rfind "/" (stem +:+ "." +:+ e) = PyStr.rfind "/" stem).
  { apply rfind_app_absent.
    change ("." +:+ e) with (String "." e). cbn [PyStr.rfind]. rewrite Hs. reflexivity. }
  unfold OsPath.splitext. rewrite Hdot, Hsep.
  pose proof (rfind_lt "/" stem) as Hlt. pose proof (rfind_ge "/" stem) as Hge.
  destruct (Z.ltb_spec (PyStr.rfind "/" stem) (Z.of_nat (String.length stem)));
    [| lia].
  unfold OsPath.basename.
  set (k := Z.to_nat (PyStr.rfind "/" stem + 1)).
  assert (Hk : (k <= String.length stem)%nat) by lia.
  rewrite (slice_from_app_le k stem _ Hk).
  replace (Z.to_nat (Z.of_nat (String.length stem) - (PyStr.rfind "/" stem + 1)))
    with (String.length (PyStr.slice_from k stem))
    by (rewrite length_slice_from; lia).
  rewrite slice_to_app, Nat2Z.id, slice_to_app, slice_from_app.
  reflexivity.
Qed.

(** [os.path.splitext] on a name whose last component has no dot. *)
Lemma splitext_no_dot (p : string) :
  PyStr.rfind "." (OsPath.basename p) = -1 -> OsPath.splitext p = (p, "").
Proof.
  unfold OsPath.basename, OsPath.splitext. intros H.
  pose proof (rfind_ge "/" p) as Hge.
  destruct (Z.ltb_spec (PyStr.rfind "/" p) (PyStr.rfind "." p)); [| reflexivity].
  rewrite rfind_slice_from_ge in H by lia. lia.
Qed.

(** X11. For audio, the path [download_media] returns is the name the
    tool reports with its extension cut off and ".mp3" put in its place.
    The extension is what follows the last dot of the last component: when
    the name is [stem] followed by a dot and a part with neither dot nor
    slash, the path is [stem] followed by ".mp3" — unless the file name
    before that dot is empty or made of dots only (a hidden file), and then
    nothing is cut and ".mp3" is appended, as it is to a name whose last
    component has no dot. The directory part is never touched: a dot in a
    directory name is not taken for an extension. *)
Theorem audio_path_keeps_directory (y : YoutubeDL) (url download_dir : string)
    (fs fs' : gset string) (path : string) :
  download_media y url download_dir "audio" fs = (Returns path, fs') ->
  exists info root ext,
    let name := prepare_filename y (ydl_opts download_dir "audio") info in
    extract_info y (ydl_opts download_dir "audio") url fs = (Returns info, fs')
    /\ name = root +:+ ext
    /\ path = root +:+ ".mp3"
    /\ PyStr.rfind "/" ext = -1
    /\ (ext = ""
        \/ exists e, ext = "." +:+ e /\ PyStr.rfind "." e = -1
                     /\ OsPath.has_stem (OsPath.basename root) = true)
    /\ (forall stem e,
          name = stem +:+ "." +:+ e ->
          PyStr.rfind "." e = -1 ->
          PyStr.rfind "/" e = -1 ->
          if OsPath.has_stem (OsPath.basename stem)
          then path = stem +:+ ".mp3"
          else path = stem +:+ "." +:+ e +:+ ".mp3")
    /\ (PyStr.rfind "." (OsPath.basename name) = -1 -> path = name +:+ ".mp3").
Proof.
  unfold download_media.
  destruct (extract_info y (ydl_opts download_dir "audio") url fs)
    as [[info|e|] fs1]; try discriminate.
  intros H. injection H as <- <-.
  set (name := prepare_filename y (ydl_opts download_dir "audio") info).
  pose proof (splitext_join name) as Hjoin.
  pose proof (splitext_ext name) as Hext.
  destruct (OsPath.splitext name) as [root ext] eqn:S. cbn [fst snd] in *.
  exists info, root, ext. cbn zeta. fold name.
  split; [reflexivity |]. split; [symmetry; exact Hjoin |].
  split; [reflexivity |].
  split; [| split; [| split]].
  - destruct Hext as [-> | (e & -> & Hd & Hs)]; [reflexivity |].
    cbn [PyStr.rfind]. rewrite Hs. reflexivity.
  - destruct Hext as [-> | (e & -> & Hd & Hs)]; [left; reflexivity |].
    right. exists e. split; [reflexivity |]. split; [exact Hd |].
    pose proof (splitext_dotted root e Hd Hs) as D.
    change ("." +:+ e) with (String "." e) in D. rewrite Hjoin, S in D.
    destruct (OsPath.has_stem (OsPath.basename root)); [reflexivity |].
    discriminate D.
  - intros stem e Hname Hd Hs.
    pose proof (splitext_dotted stem e Hd Hs) as D.
    rewrite <- Hname, S in D.
    destruct (OsPath.has_stem (OsPath.basename stem)); injection D as -> _.
    + reflexivity.
    + rewrite Hname. clear. induction stem as [|c stem IH]; [reflexivity |].
      change (String c stem +:+ "." +:+ e +:+ ".mp3")
        with (String c (stem +:+ "." +:+ e +:+ ".mp3")).
      change ((String c stem +:+ "." +:+ e) +:+ ".mp3")
        with (String c ((stem +:+ "." +:+ e) +:+ ".mp3")).
      rewrite IH. reflexivity.
  - intros Hno. rewrite (splitext_no_dot name Hno) in S.
    injection S as <- _. reflexivity.
Qed.

Lemma audio_path_keeps_directory_witness :
  download_media studio "https://example.com/a" "/srv/bot.d/tmp" "audio" ∅
  = (Returns "/srv/bot.d/tmp/clip.mp3", {[ "/srv/bot.d/tmp/clip.mp3" ]} ∪ ∅)
  /\ exists root ext,
       "/srv/bot.d/tmp/clip.webm" = root +:+ ext
       /\ "/srv/bot.d/tmp/clip.mp3" = root +:+ ".mp3"
       /\ PyStr.rfind "/" ext = -1.
Proof.
  assert (E : download_media studio "https://example.com/a" "/srv/bot.d/tmp" "audio" ∅
              = (Returns "/srv/bot.d/tmp/clip.mp3",
                 {[ "/srv/bot.d/tmp/clip.mp3" ]} ∪ ∅))
    by (vm_compute; reflexivity).
  split; [exact E |].
  destruct (audio_path_keeps_directory studio "https://example.com/a"
              "/srv/bot.d/tmp" ∅ ({[ "/srv/bot.d/tmp/clip.mp3" ]} ∪ ∅)
              "/srv/bot.d/tmp/clip.mp3" E)
    as (info & root & ext & Hx & Hn & Hp & Hs & _).
  exists root, ext. split; [| split; [exact Hp | exact Hs]].
  rewrite <- Hn. injection Hx as <-. reflexivity.
Defined.

(** ** A choice that is neither audio nor video *)

(** X12. Callback data other than "audio" and "video" is not rejected:
    the download is configured as for video (video format selector, no
    post-processor, the reported name returned unchanged), and the file is
    then sent with [reply_audio]. *)
Theorem unexpected_choice (w : world) (s : env) (choice url path : string)
    (fs1 : gset string) :
  choice <> "audio" ->
  choice <> "video" ->
  let d := mkdtemp_name w (files s) in
  ydl_opts d choice = ydl_opts d "video"
  /\ download_media (ydl w) url d choice ({[ d ]} ∪ files s)
     = download_media (ydl w) url d "video" ({[ d ]} ∪ files s)
  /\ (user_data s !! "url" = Some url ->
      url <> "" ->
      download_media (ydl w) url d choice ({[ d ]} ∪ files s) = (Returns path, fs1) ->
      (forall h a, fault w h a = Returns tt) ->
      path ∈ fs1 ->
      handle_format_choice w (CallbackQuery choice) s =
      (Returns ASK_LINK,
       {| user_data := user_data s;
          files := swept w d fs1;
          trace := trace s
                   ++ [Answer; EditMessageText (downloading choice); Mkdtemp d;
                       RunInExecutor url d choice]
                   ++ ticks choice
                   ++ [Open path; ReplyAudio path; ReplyText done_text None;
                       Rmtree d] |})).
Proof.
  intros Ha Hv d.
  assert (Ea : String.eqb choice "audio" = false)
    by (destruct (String.eqb_spec choice "audio"); congruence).
  assert (Ev : String.eqb choice "video" = false)
    by (destruct (String.eqb_spec choice "video"); congruence).
  assert (Eo : ydl_opts d choice = ydl_opts d "video").
  { unfold ydl_opts. rewrite Ea. reflexivity. }
  split; [exact Eo |]. split.
  - unfold download_media. rewrite Eo, Ea. reflexivity.
  - intros Hurl Hne Hdl Hcalm Hin.
    rewrite (handle_calm w s choice url path fs1 Hurl Hne Hdl Hcalm Hin).
    fold d. unfold script, send_media. rewrite Ev.
    reflexivity.
Qed.

Lemma unexpected_choice_witness :
  ydl_opts "/tmp/tmpq1w2e3" "document" = ydl_opts "/tmp/tmpq1w2e3" "video"
  /\ In (ReplyAudio "/tmp/tmpq1w2e3/clip.webm")
        (trace (snd (handle_format_choice sunny (CallbackQuery "document")
                       (with_url "https://example.com/v")))).
Proof.
  destruct (unexpected_choice sunny (with_url "https://example.com/v")
              "document" "https://example.com/v" "/tmp/tmpq1w2e3/clip.webm"
              ({[ "/tmp/tmpq1w2e3/clip.webm" ]} ∪ ({[ "/tmp/tmpq1w2e3" ]} ∪ ∅))
              ltac:(discriminate) ltac:(discriminate)) as (H1 & _ & H3).
  split; [exact H1 |].
  rewrite H3.
  - cbn [snd trace]. apply in_or_app. right. apply in_or_app. right.
    apply in_or_app. right. right. left. reflexivity.
  - reflexivity.
  - discriminate.
  - vm_compute. reflexivity.
  - intros h a. reflexivity.
  - apply elem_of_union. left. apply elem_of_singleton. reflexivity.
Defined.

(** ** What the link test looks at *)

Lemma prefix_slice (p t : string) (n : nat) :
  (String.length p <= n)%nat ->
  String.prefix p (PyStr.slice_to n t) = String.prefix p t.
Proof.
  revert t n. induction p as [|a p IH]; intros t n Hn.
  { destruct t, n; reflexivity. }
  destruct n as [|n]; [cbn in Hn; lia |].
  destruct t as [|b t]; [reflexivity |].
  cbn [PyStr.slice_to String.prefix].
  destruct (ascii_dec a b); [| reflexivity].
  apply IH. cbn in Hn. lia.
Qed.

Lemma prefix_app (p s t : string) :
  String.prefix p s = true -> String.prefix p (s +:+ t) = true.
Proof.
  revert s. induction p as [|a p IH]; intros s H.
  { destruct (s +:+ t); reflexivity. }
  destruct s as [|b s]; [discriminate H |].
  change (String b s +:+ t) with (String b (s +:+ t)).
  cbn [String.prefix] in H |- *.
  destruct (ascii_dec a b); [apply IH; exact H | discriminate H].
Qed.

Lemma lower_slice (n : nat) (s : string) :
  PyStr.lower (PyStr.slice_to n s) = PyStr.slice_to n (PyStr.lower s).
Proof.
  revert s. induction n as [|n IH]; intros s; [destruct s; reflexivity |].
  destruct s as [|c s]; [reflexivity |].
  cbn [PyStr.slice_to PyStr.lower]. rewrite IH. reflexivity.
Qed.

Lemma lower_app (s t : string) :
  PyStr.lower (s +:+ t) = PyStr.lower s +:+ PyStr.lower t.
Proof.
  induction s as [|c s IH]; [reflexivity |].
  change (String c s +:+ t) with (String c (s +:+ t)).
  cbn [PyStr.lower]. rewrite IH. reflexivity.
Qed.

(** X13. The link test of [ask_format] is decided by the first eight
    characters of the stripped text, and it accepts whatever follows an
    accepted beginning: nothing after the scheme is looked at (a host, a
    path, spaces or further lines are neither required nor refused). *)
Theorem link_test_reads_the_scheme (url rest : string) :
  has_scheme url = has_scheme (PyStr.slice_to 8 url)
  /\ (has_scheme url = true -> has_scheme (url +:+ rest) = true).
Proof.
  unfold has_scheme, PyStr.startswith_any, PyStr.startswith. cbn [existsb].
  split.
  - rewrite lower_slice.
    rewrite !prefix_slice by (cbn; lia). reflexivity.
  - rewrite !orb_false_r, !orb_true_iff, lower_app.
    intros [H | H]; [left | right]; apply prefix_app; exact H.
Qed.

Lemma link_test_reads_the_scheme_witness :
  has_scheme "https://" = true
  /\ has_scheme ("https://" +:+ " not a host") = true.
Proof.
  split; [reflexivity |].
  apply (link_test_reads_the_scheme "https://" " not a host"). reflexivity.
Defined.

(** ** Start-up *)

(** X14. Run as a script, the module builds the application and polls
    exactly when TELEGRAM_TOKEN, looked up after [load_dotenv()], is a
    non-empty string, and then with that token; otherwise it logs the
    error and exits with status 1 and nothing else happens. A variable
    set in the environment wins over the .env file, also when it is set to
    the empty string: then the bot exits although the file has a token. *)
Theorem token_required (dotenv environ : gmap string string) :
  let token := load_dotenv dotenv environ !! "TELEGRAM_TOKEN" in
  (forall t, environ !! "TELEGRAM_TOKEN" = Some t -> token = Some t)
  /\ (environ !! "TELEGRAM_TOKEN" = None -> token = dotenv !! "TELEGRAM_TOKEN")
  /\ (falsy token = true ->
      module_body dotenv environ =
      [ LoggingError "No TELEGRAM_TOKEN set in environment."; SysExit 1 ])
  /\ (forall t, token = Some t -> t <> "" ->
      module_body dotenv environ =
      [ BasicConfig "%(asctime)s - %(name)s - %(levelname)s - %(message)s";
        BuildApplication t;
        AddConversationHandler conv;
        AddCommandHandler "help";
        LoggerInfo "Bot is starting up…";
        RunPolling ])
  /\ (In RunPolling (module_body dotenv environ)
      <-> exists t, token = Some t /\ t <> "").
Proof.
  cbn zeta. unfold module_body.
  set (token := load_dotenv dotenv environ !! "TELEGRAM_TOKEN").
  split; [| split; [| split; [| split]]].
  - intros t H. subst token. unfold load_dotenv.
    apply lookup_union_Some_l. exact H.
  - intros H. subst token. unfold load_dotenv. apply lookup_union_r. exact H.
  - intros H. rewrite H. reflexivity.
  - intros t H Hne. rewrite H, (falsy_stored _ Hne). reflexivity.
  - destruct token as [t|] eqn:E.
    + destruct (String.eqb_spec t "") as [-> | Hne].
      * cbn. split.
        -- intros [H | [H | []]]; discriminate H.
        -- intros (t & Ht & Hne). congruence.
      * rewrite (falsy_stored _ Hne). split.
        -- intros _. exists t. auto.
        -- intros _. cbn. auto 10.
    + cbn. split.
      * intros [H | [H | []]]; discriminate H.
      * intros (t & Ht & _). discriminate Ht.
Qed.

Lemma token_required_witness :
  module_body {[ "TELEGRAM_TOKEN" := "123:abc" ]} {[ "TELEGRAM_TOKEN" := "" ]}
  = [ LoggingError "No TELEGRAM_TOKEN set in environment."; SysExit 1 ]
  /\ In (BuildApplication "123:abc")
        (module_body {[ "TELEGRAM_TOKEN" := "123:abc" ]} {[ "HOME" := "/root" ]}).
Proof.
  destruct (token_required {[ "TELEGRAM_TOKEN" := "123:abc" ]}
              {[ "TELEGRAM_TOKEN" := "" ]}) as (_ & _ & H & _).
  destruct (token_required {[ "TELEGRAM_TOKEN" := "123:abc" ]}
              {[ "HOME" := "/root" ]}) as (_ & _ & _ & H' & _).
  split.
  - apply H. vm_compute. reflexivity.
  - rewrite (H' "123:abc").
    + right. left. reflexivity.
    + vm_compute. reflexivity.
    + discriminate.
Defined.

(** ** The /help handler *)

(** X15. /help — in whatever case it is typed — is answered with the
    list of commands only when no conversation runs. While a conversation
    runs the conversation's catch-all fallback takes the command first:
    the user gets the greeting of /start and the bot is back in
    [ASK_LINK]. Every other update is handled by the application exactly
    as by the conversation alone. *)
Theorem help_only_when_idle (w : world) (ss : session) (u : update) :
  (current ss = END ->
   forall name, PyStr.lower name = "help" ->
   process_update w ss (Command name) =
   {| current := END;
      context := {| user_data := user_data (context ss);
                    files := files (context ss);
                    trace := trace (context ss) ++ [ReplyText help_text None] |} |})
  /\ (current ss <> END ->
      forall name, PyStr.lower name = "help" ->
      process_update w ss (Command name) =
      {| current := ASK_LINK;
         context := {| user_data := user_data (context ss);
                       files := files (context ss);
                       trace := trace (context ss) ++ [ReplyText greeting None] |} |})
  /\ ((forall name, u = Command name -> PyStr.lower name <> "help") ->
      process_update w ss u = step w ss u).
Proof.
  split; [| split].
  - intros Hst name E. unfold process_update, select, first_match. rewrite Hst.
    cbn [conv entry_points states fallbacks allow_reentry negb orb find
         check_update command_matches filter_matches
         fmap option_fmap option_map handler_callback].
    change (PyStr.lower "start") with "start".
    change (PyStr.lower "help") with "help". rewrite E. reflexivity.
  - intros Hst name E. unfold process_update.
    destruct (select conv (current ss) (Command name)) eqn:S.
    + rewrite (step_running_command _ _ _ Hst), E. reflexivity.
    + exfalso. revert S. unfold select, first_match.
      destruct (current ss); [| | congruence];
        cbn [conv entry_points states fallbacks allow_reentry negb orb find
             check_update command_matches filter_matches
             fmap option_fmap option_map handler_callback];
        change (PyStr.lower "start") with "start";
        change (PyStr.lower "cancel") with "cancel";
        rewrite E; discriminate.
  - intros Hu. unfold process_update.
    destruct (select conv (current ss) u) eqn:S; [reflexivity |].
    unfold step. rewrite S.
    destruct u as [[name | text |] | [name | text |] | m | data]; try reflexivity.
    + cbn [command_matches]. change (PyStr.lower "help") with "help".
      destruct (String.eqb_spec (PyStr.lower name) "help") as [E | _];
        [| reflexivity].
      exfalso. exact (Hu name eq_refl E).
    + cbn [command_matches]. change (PyStr.lower "help") with "help".
      destruct (String.eqb (PyStr.lower name) "help"); [| reflexivity].
      apply session_eta.
Qed.

Lemma help_only_when_idle_witness :
  process_update calm {| current := END; context := fresh_env |} (Command "Help")
  = {| current := END;
       context := {| user_data := ∅; files := ∅;
                     trace := [ReplyText help_text None] |} |}
  /\ process_update calm mid_format (Command "help")
     = {| current := ASK_LINK;
          context := {| user_data := {[ "url" := "https://example.com/v" ]};
                        files := ∅;
                        trace := [ReplyText greeting None] |} |}.
Proof.
  destruct (help_only_when_idle calm {| current := END; context := fresh_env |}
              Media) as (H & _).
  destruct (help_only_when_idle calm mid_format Media) as (_ & H' & _).
  split; [apply H; reflexivity | apply H'; [discriminate | reflexivity]].
Defined.

(** ** What is downloaded and what is sent *)

(** With a stored URL, the first four calls of the handler. *)
Lemma handle_begins (w : world) (s : env) (choice url : string)
    (r : outcome state) (s' : env) :
  user_data s !! "url" = Some url ->
  url <> "" ->
  handle_format_choice w (CallbackQuery choice) s = (r, s') ->
  let d := mkdtemp_name w (files s) in
  exists rest,
    issued s s' =
    ([Answer; EditMessageText (downloading choice); Mkdtemp d;
      RunInExecutor url d choice] ++ rest)%list.
Proof.
  intros Hurl Hne Hrun d.
  destruct (download_media (ydl w) url d choice ({[ d ]} ∪ files s))
    as [o fs1] eqn:Hdl.
  destruct o as [path|e|].
  - destruct (handle_script w s choice url path fs1 r s' Hurl Hne Hdl Hrun)
      as (n & tail & Hn & _ & Hiss).
    fold d in Hiss. destruct n as [|n]; [lia |].
    exists (take n (ticks choice
                    ++ [Open path; send_media choice path; ReplyText done_text None])
            ++ tail ++ [Rmtree d])%list.
    rewrite Hiss. reflexivity.
  - destruct (handle_failed_calls w s choice url _ fs1 r s' Hurl Hne Hdl
                ltac:(discriminate) Hrun) as (tail & Hiss & _).
    exists (tail ++ [Rmtree d])%list. exact Hiss.
  - destruct (handle_failed_calls w s choice url _ fs1 r s' Hurl Hne Hdl
                ltac:(discriminate) Hrun) as (tail & Hiss & _).
    exists (tail ++ [Rmtree d])%list. exact Hiss.
Qed.

(** When the file is not where the download said, the [try] block stops
    at [open]. *)
Lemma deliver_missing_file (w : world) (url d choice path : string)
    (s : env) (fs1 : gset string) :
  download_media (ydl w) url d choice (files s) = (Returns path, fs1) ->
  path ∉ fs1 ->
  exists n, (n <= 12)%nat
    /\ trace (snd (deliver w url d choice s))
       = (trace s ++ take n (script url d choice path))%list.
Proof.
  intros Hdl Hno. rewrite (deliver_after_fetch _ _ _ _ _ _ _ Hdl).
  set (s1 := {| user_data := user_data s; files := fs1;
                trace := trace s ++ [RunInExecutor url d choice] |}).
  unfold mbind at 1. unfold M_bind at 1. rewrite countdown_play.
  destruct (play_trace w (ticks choice) s1) as (n & Hn & Hs & Hr).
  rewrite ticks_length in Hn, Hr.
  assert (Hearly : (n <= 10)%nat ->
    trace (add_calls (take n (ticks choice)) s1)
    = (trace s ++ take (S n) (script url d choice path))%list).
  { intros Hle. unfold add_calls, s1, script. cbn [user_data files trace take].
    rewrite take_app_le by (rewrite ticks_length; exact Hle).
    rewrite <- app_assoc. reflexivity. }
  destruct (play w (ticks choice) s1) as [[[]|e|] s2]; cbn [fst snd] in Hs, Hr.
  - specialize (Hr eq_refl). subst n s2.
    rewrite take_ge by (rewrite ticks_length; lia).
    unfold add_calls, s1. cbn [user_data files trace].
    rewrite open_bind. cbn [files].
    rewrite (bool_decide_eq_false_2 _ Hno).
    exists 12%nat. split; [lia |]. unfold record, script.
    cbn [fst snd user_data files trace].
    rewrite <- !app_assoc. reflexivity.
  - exists (S n). split; [lia |]. subst s2. cbn [snd]. apply Hearly. exact Hn.
  - exists (S n). split; [lia |]. subst s2. cbn [snd]. apply Hearly. exact Hn.
Qed.

(** X16. A media attachment is sent only by a button press with a URL
    stored, only after the download has returned a path, only when a file
    is on disk at that path, and it is that file: as a video when the
    callback data is "video", as audio otherwise. Nothing is attached after
    a failed or cancelled download, and nothing when the reported file is
    missing. *)
Theorem media_only_after_download (w : world) (s : env) (u : update)
    (r : outcome state) (s' : env) (m : action) :
  handle_format_choice w u s = (r, s') ->
  m ∈ issued s s' ->
  is_media m = true ->
  exists data url path fs1,
    u = CallbackQuery data
    /\ user_data s !! "url" = Some url
    /\ download_media (ydl w) url (mkdtemp_name w (files s)) data
         ({[ mkdtemp_name w (files s) ]} ∪ files s) = (Returns path, fs1)
    /\ path ∈ fs1
    /\ m = (if String.eqb data "video" then ReplyVideo path else ReplyAudio path).
Proof.
  intros Hrun Hm Hmedia.
  destruct u as [m0 | m0 | m0 | data];
    try (exfalso; injection Hrun as <- <-;
         rewrite (issued_app s s []) in Hm by (symmetry; apply app_nil_r);
         inversion Hm).
  destruct (falsy (user_data s !! "url")) eqn:Hf.
  { exfalso.
    assert (E : issued s s' = [Answer; EditMessageText missing_url]).
    { revert Hrun. unfold handle_format_choice, mbind, M_bind, emit, user_data_get.
      cbn [user_data record]. rewrite Hf. cbn. intros H. injection H as <- <-.
      apply issued_app. unfold record. cbn [trace].
      rewrite <- ?app_assoc. reflexivity. }
    rewrite E in Hm.
    repeat (apply elem_of_cons in Hm as [-> | Hm]; [discriminate Hmedia |]).
    inversion Hm. }
  destruct (user_data s !! "url") as [url|] eqn:Hurl; [| discriminate Hf].
  assert (Hne : url <> "") by (intros ->; discriminate Hf).
  set (d := mkdtemp_name w (files s)).
  destruct (download_media (ydl w) url d data ({[ d ]} ∪ files s))
    as [o fs1] eqn:Hdl.
  assert (Hfail : (forall path, o <> Returns path) -> False).
  { intros Ho.
    destruct (handle_failed_calls w s data url o fs1 r s' Hurl Hne Hdl Ho Hrun)
      as (tail & Hiss & _ & Htail).
    fold d in Hiss. rewrite Hiss in Hm.
    apply elem_of_app in Hm as [Hm | Hm].
    - repeat (apply elem_of_cons in Hm as [-> | Hm]; [discriminate Hmedia |]).
      inversion Hm.
    - apply elem_of_app in Hm as [Hm | Hm].
      + rewrite Forall_forall in Htail. rewrite (Htail m Hm) in Hmedia.
        discriminate Hmedia.
      + apply list_elem_of_singleton in Hm. subst m. discriminate Hmedia. }
  destruct o as [path|e|];
    [| exfalso; apply Hfail; discriminate | exfalso; apply Hfail; discriminate].
  clear Hfail.
  destruct (handle_script w s data url path fs1 r s' Hurl Hne Hdl Hrun)
    as (n & tail & Hn & Htail & Hiss).
  fold d in Hiss.
  assert (Hquiet : forall a, a ∈ tail -> is_media a = false).
  { intros a Ha. destruct Htail as [-> | [e ->]]; [inversion Ha |].
    repeat (apply elem_of_cons in Ha as [-> | Ha]; [reflexivity |]).
    inversion Ha. }
  pose proof Hm as Hm'. rewrite Hiss in Hm'.
  apply elem_of_app in Hm' as [Hm' | Hm'].
  { exfalso.
    repeat (apply elem_of_cons in Hm' as [-> | Hm']; [discriminate Hmedia |]).
    inversion Hm'. }
  destruct (media_in_script url d data path n tail m) as (Hsend & k & Hk);
    [lia | exact Hquiet | exact Hm' | exact Hmedia |].
  exists data, url, path, fs1.
  split; [reflexivity |]. split; [reflexivity |]. split; [exact Hdl |].
  split; [| exact Hsend].
  destruct (decide (path ∈ fs1)) as [Hin | Hno]; [exact Hin | exfalso].
  (* the file is missing: the block stopped at [open] *)
  destruct (deliver_missing_file w url d data path (at_try w data s) fs1 Hdl Hno)
    as (n' & Hn' & Ht').
  assert (Hshape : exists tl,
    Forall (fun a => is_media a = false) tl
    /\ issued s s' =
       ([Answer; EditMessageText (downloading data); Mkdtemp d]
        ++ take n' (script url d data path) ++ tl)%list).
  { destruct (handle_shape w s data url r s' Hurl Hne Hrun)
      as (tail' & Htail' & Hs' & _). fold d in Hs'.
    exists (tail' ++ [Rmtree d])%list. split.
    - apply Forall_app. split; [| repeat constructor].
      destruct Htail' as [-> | [e ->]]; repeat constructor.
    - apply issued_app. rewrite Hs'. cbn [trace]. rewrite Ht'.
      unfold at_try. cbn [trace]. fold d. rewrite <- !app_assoc. reflexivity. }
  destruct Hshape as (tl & Htl & Hiss').
  (* the thirteenth call of the block is the attachment in one account and
     no attachment in the other *)
  rewrite Hiss in Hiss'. apply app_inv_head in Hiss'.
  assert (H12 : (take n (script url d data path) ++ tail ++ [Rmtree d])%list
                  !! 12%nat = Some m).
  { rewrite Hk. rewrite <- !app_assoc. rewrite ticks_texts. reflexivity. }
  rewrite Hiss' in H12.
  assert (Hlen : length (take n' (script url d data path)) = n').
  { rewrite length_take. unfold script. cbn [length].
    rewrite length_app, ticks_length. cbn [length]. lia. }
  rewrite lookup_app_r in H12 by (rewrite Hlen; lia).
  apply list_elem_of_lookup_2 in H12.
  rewrite Forall_forall in Htl. rewrite (Htl m H12) in Hmedia.
  discriminate Hmedia.
Qed.

Lemma media_only_after_download_witness :
  exists data url path fs1,
    CallbackQuery "video" = CallbackQuery data
    /\ user_data (with_url "https://example.com/v") !! "url" = Some url
    /\ download_media (ydl sunny) url
         (mkdtemp_name sunny (files (with_url "https://example.com/v"))) data
         ({[ mkdtemp_name sunny (files (with_url "https://example.com/v")) ]}
          ∪ files (with_url "https://example.com/v")) = (Returns path, fs1)
    /\ path ∈ fs1
    /\ ReplyVideo "/tmp/tmpq1w2e3/clip.webm"
       = (if String.eqb data "video" then ReplyVideo path else ReplyAudio path).
Proof.
  apply (media_only_after_download sunny (with_url "https://example.com/v")
           (CallbackQuery "video")
           (fst (handle_format_choice sunny (CallbackQuery "video")
                   (with_url "https://example.com/v")))
           (snd (handle_format_choice sunny (CallbackQuery "video")
                   (with_url "https://example.com/v")))
           (ReplyVideo "/tmp/tmpq1w2e3/clip.webm")).
  - apply surjective_pairing.
  - apply list_elem_of_In. vm_compute. tauto.
  - reflexivity.
Defined.

(** X17. The link the user sent is what is downloaded: after a text
    message accepted in [ASK_LINK], a button press begins with the callback
    answer, the status "🔄 Downloading your <choice>…", the creation of the
    temporary directory, and the download run with exactly the stripped
    text of that message, that directory and the pressed choice. *)
Theorem download_gets_the_link (w1 w2 : world) (ss : session) (text choice : string) :
  current ss = ASK_LINK ->
  has_scheme (PyStr.strip text) = true ->
  let ss1 := step w1 ss (Text text) in
  let ss2 := step w2 ss1 (CallbackQuery choice) in
  let d := mkdtemp_name w2 (files (context ss)) in
  exists rest,
    issued (context ss1) (context ss2) =
    ([ Answer;
       EditMessageText ("🔄 Downloading your " +:+ choice +:+ "…");
       Mkdtemp d;
       RunInExecutor (PyStr.strip text) d choice ] ++ rest)%list.
Proof.
  intros Hst Hs. cbn zeta.
  rewrite (step_text _ _ _ Hst), Hs.
  set (ss1 := {| current := ASK_FORMAT; context := _ |}).
  rewrite (step_format w2 ss1 choice eq_refl).
  destruct (handle_format_choice w2 (CallbackQuery choice) (context ss1))
    as [r s'] eqn:E.
  destruct (handle_begins w2 (context ss1) choice (PyStr.strip text) r s')
    as (rest & Hrest).
  - subst ss1. cbn [context user_data]. apply lookup_insert_eq.
  - apply has_scheme_nonempty. exact Hs.
  - exact E.
  - exists rest. destruct r; exact Hrest.
Qed.

Lemma download_gets_the_link_witness :
  let ss1 := step calm {| current := ASK_LINK; context := fresh_env |}
                  (Text "  https://example.com/v?x=1 ") in
  let ss2 := step calm ss1 (CallbackQuery "audio") in
  exists rest,
    issued (context ss1) (context ss2) =
    ([ Answer;
       EditMessageText "🔄 Downloading your audio…";
       Mkdtemp "/tmp/tmpq1w2e3";
       RunInExecutor "https://example.com/v?x=1" "/tmp/tmpq1w2e3" "audio" ]
     ++ rest)%list.
Proof.
  apply (download_gets_the_link calm calm
           {| current := ASK_LINK; context := fresh_env |}
           "  https://example.com/v?x=1 " "audio").
  - reflexivity.
  - reflexivity.
Defined.

(** ** Stripping *)

Lemma lstrip_length (s : string) :
  (String.length (PyStr.lstrip s) <= String.length s)%nat.
Proof.
  assert (H : forall n s, (String.length s <= n)%nat ->
            (String.length (PyStr.lstrip s) <= String.length s)%nat).
  { clear s. induction n as [|n IH]; intros s Hn.
    - destruct s; [cbn; lia | cbn in Hn; lia].
    - destruct s as [|a s1]; [cbn; lia |].
      cbn [PyStr.lstrip]. cbn [String.length] in Hn.
      destruct (PyStr.is_ascii_space a).
      { specialize (IH s1). cbn [String.length]. lia. }
      destruct s1 as [|b s2]; [lia |]. cbn [String.length] in Hn.
      destruct (PyStr.is_space2 a b).
      { specialize (IH s2). cbn [String.length]. lia. }
      destruct s2 as [|c s3]; [lia |]. cbn [String.length] in Hn.
      destruct (PyStr.is_space3 a b c); [| lia].
      specialize (IH s3). cbn [String.length]. lia. }
  apply (H (String.length s)). lia.
Qed.

Lemma head_clean_lstrip (t : string) : head_clean t -> PyStr.lstrip t = t.
Proof.
  destruct t as [|a [|b [|c t3]]]; cbn [head_clean PyStr.lstrip].
  - reflexivity.
  - intros [-> _]. reflexivity.
  - intros (-> & -> & _). reflexivity.
  - intros (-> & -> & ->). reflexivity.
Qed.

Lemma lstrip_head_clean (s : string) : head_clean (PyStr.lstrip s).
Proof.
  assert (H : forall n s, (String.length s <= n)%nat -> head_clean (PyStr.lstrip s)).
  { clear s. induction n as [|n IH]; intros s Hn.
    - destruct s; [exact I | cbn in Hn; lia].
    - destruct s as [|a s1]; [exact I |].
      cbn [PyStr.lstrip]. cbn [String.length] in Hn.
      destruct (PyStr.is_ascii_space a) eqn:Ea; [apply IH; lia |].
      destruct s1 as [|b s2]; [cbn; auto |]. cbn [String.length] in Hn.
      destruct (PyStr.is_space2 a b) eqn:Eb; [apply IH; lia |].
      destruct s2 as [|c s3]; [cbn; auto |]. cbn [String.length] in Hn.
      destruct (PyStr.is_space3 a b c) eqn:Ec; [apply IH; lia |].
      cbn. auto. }
  apply (H (String.length s)). lia.
Qed.

(** Whitespace in front of a string is stripped with it. *)
Lemma lstrip_blank_app (u v : string) :
  PyStr.lstrip u = "" -> PyStr.lstrip (u +:+ v) = PyStr.lstrip v.
Proof.
  assert (H : forall n u, (String.length u <= n)%nat ->
            PyStr.lstrip u = "" -> PyStr.lstrip (u +:+ v) = PyStr.lstrip v).
  { clear u. induction n as [|n IH]; intros u Hn.
    - destruct u; [reflexivity | cbn in Hn; lia].
    - destruct u as [|a u1]; [reflexivity |].
      cbn [String.length] in Hn.
      change (String a u1 +:+ v) with (String a (u1 +:+ v)).
      cbn [PyStr.lstrip].
      destruct (PyStr.is_ascii_space a); [apply IH; lia |].
      destruct u1 as [|b u2]; [discriminate |]. cbn [String.length] in Hn.
      change (String b u2 +:+ v) with (String b (u2 +:+ v)).
      cbv beta iota.
      destruct (PyStr.is_space2 a b); [apply IH; lia |].
      destruct u2 as [|c u3]; [discriminate |]. cbn [String.length] in Hn.
      change (String c u3 +:+ v) with (String c (u3 +:+ v)).
      cbv beta iota.
      destruct (PyStr.is_space3 a b c); [apply IH; lia | discriminate]. }
  apply (H (String.length u)). lia.
Qed.

Lemma isblank_spec (s : string) : PyStr.isblank s = true <-> PyStr.lstrip s = "".
Proof.
  unfold PyStr.isblank. destruct (PyStr.lstrip s); split; congruence.
Qed.

(** What [rstrip] cuts off is whitespace. *)
Lemma rstrip_cut (s : string) :
  exists v, s = PyStr.rstrip s +:+ v /\ PyStr.isblank v = true.
Proof.
  induction s as [|a s1 IH].
  - exists "". split; reflexivity.
  - cbn [PyStr.rstrip]. destruct (PyStr.isblank (String a s1)) eqn:E.
    + exists (String a s1). split; [reflexivity | exact E].
    + destruct IH as (v & Hv & Bv). exists v. split; [| exact Bv].
      change (String a (PyStr.rstrip s1) +:+ v)
        with (String a (PyStr.rstrip s1 +:+ v)).
      rewrite <- Hv. reflexivity.
Qed.

Lemma rstrip_idempotent (s : string) :
  PyStr.rstrip (PyStr.rstrip s) = PyStr.rstrip s.
Proof.
  induction s as [|a s1 IH]; [reflexivity |].
  cbn [PyStr.rstrip]. destruct (PyStr.isblank (String a s1)) eqn:E; [reflexivity |].
  cbn [PyStr.rstrip].
  destruct (PyStr.isblank (String a (PyStr.rstrip s1))) eqn:E'.
  - exfalso. destruct (rstrip_cut s1) as (v & Hv & Bv).
    apply isblank_spec in E', Bv.
    assert (PyStr.isblank (String a s1) = true); [| congruence].
    apply isblank_spec. rewrite Hv.
    change (String a (PyStr.rstrip s1 +:+ v))
      with (String a (PyStr.rstrip s1) +:+ v).
    rewrite (lstrip_blank_app _ _ E'). exact Bv.
  - rewrite IH. reflexivity.
Qed.

Lemma rstrip_head_clean (t : string) : head_clean t -> head_clean (PyStr.rstrip t).
Proof.
  destruct t as [|a t1]; [intros _; exact I |].
  cbn [PyStr.rstrip]. destruct (PyStr.isblank (String a t1)); [intros _; exact I |].
  cbn [head_clean]. intros [Ha H1]. split; [exact Ha |].
  destruct t1 as [|b t2]; [exact I |].
  cbn [PyStr.rstrip]. destruct (PyStr.isblank (String b t2)); [exact I |].
  destruct H1 as [Hb H2]. split; [exact Hb |].
  destruct t2 as [|c t3]; [exact I |].
  cbn [PyStr.rstrip]. destruct (PyStr.isblank (String c t3)); [exact I | exact H2].
Qed.

Lemma strip_idempotent (s : string) : PyStr.strip (PyStr.strip s) = PyStr.strip s.
Proof.
  unfold PyStr.strip.
  rewrite (head_clean_lstrip (PyStr.rstrip (PyStr.lstrip s)))
    by (apply rstrip_head_clean, lstrip_head_clean).
  apply rstrip_idempotent.
Qed.

(** X18. What [ask_format] stores is fully trimmed: stripping it again
    changes nothing. So the stored URL, sent back as a text message in
    [ASK_LINK], is accepted and stored as it is. *)
Theorem stored_link_is_trimmed (w w' : world) (ss ss' : session) (text : string) :
  current ss = ASK_LINK ->
  current ss' = ASK_LINK ->
  has_scheme (PyStr.strip text) = true ->
  let url := PyStr.strip text in
  user_data (context (step w ss (Text text))) !! "url" = Some url
  /\ PyStr.strip url = url
  /\ current (step w' ss' (Text url)) = ASK_FORMAT
  /\ user_data (context (step w' ss' (Text url))) !! "url" = Some url.
Proof.
  intros Hst Hst' Hs. cbn zeta.
  pose proof (strip_idempotent text) as Hi.
  rewrite (step_text _ _ _ Hst), (step_text _ _ _ Hst'), Hi, Hs.
  cbn [current context user_data].
  repeat split; try reflexivity; apply lookup_insert_eq.
Qed.

Lemma stored_link_is_trimmed_witness :
  PyStr.strip "	 https://example.com/a b  
" = "https://example.com/a b"
  /\ PyStr.strip "https://example.com/a b" = "https://example.com/a b".
Proof.
  destruct (stored_link_is_trimmed calm calm
              {| current := ASK_LINK; context := fresh_env |}
              {| current := ASK_LINK; context := fresh_env |}
              "	 https://example.com/a b  
" eq_refl eq_refl eq_refl) as (_ & H & _).
  split; [reflexivity | exact H].
Defined.
